(** * insights-upload: the ingestion and validation pipeline of [app.py]

    A shallow embedding of the upload service: the bounded outbound buffer
    ([produce_queue]), the producer and consumer loops, the validation
    handler ([handle_file]), the upload handler ([UploadHandler]) and the
    status handler ([StatusHandler]).

    Conventions.
    - Python [str] and [bytes] are [string]; values decoded by [json.loads]
      and the dictionaries put on the queue are [json].
    - A coroutine is a computation on the shared [World]: the module level
      objects ([produce_queue], [MQStatus]), the temporary files on disk and
      the [trace] of everything the coroutine did to the outside (storage
      driver, broker clients, logger, sleeps), in program order.
    - What the outside answers is read from an environment [Env]; an answer
      may depend on the trace so far.
    - A raised exception is a value [Raise e]; the world reached when it was
      raised is kept, because Python does not undo effects.
    - The coroutines share [produce_queue].  The producer holds a popped
      event and the count of its rounds across [await mqp.send_and_wait]
      (line 175); what [handle_file] (line 214) and [process_upload]
      (line 354) append to the buffer while that call is awaited is the
      answer [arrivals] of the environment.  At the other suspension points
      a coroutine holds nothing it has read from the buffer, and the run is
      told from the world as the coroutine finds it. *)

From Stdlib Require Import ZArith String Ascii List Bool Arith Lia DecimalString.
Import ListNotations.

Set Implicit Arguments.
Set Warnings "-register-all".

(** ** [collections.deque] with [maxlen] *)

Module Deque.
Section Bounded.
Context {A : Type}.
Variable maxlen : nat.

(** [deque.append(x)]: add on the right; when the bound is exceeded the
    leftmost element goes. *)
Definition append (q : list A) (x : A) : list A :=
  let q' := q ++ [x] in
  if maxlen <? length q' then tl q' else q'.

(** [deque.appendleft(x)]: add on the left; when the bound is exceeded the
    rightmost element goes. *)
Definition appendleft (q : list A) (x : A) : list A :=
  let q' := x :: q in
  if maxlen <? length q' then removelast q' else q'.

(** [deque.popleft()]: [None] stands for [IndexError]. *)
Definition popleft (q : list A) : option (A * list A) :=
  match q with
  | [] => None
  | x :: q' => Some (x, q')
  end.

(** The operations the service applies to its buffer. *)
Inductive op : Type :=
| Enqueue (x : A)      (* produce_queue.append(x) *)
| Reinsert (x : A)     (* produce_queue.appendleft(x) *)
| Dequeue.             (* produce_queue.popleft() *)

Definition apply_op (q : list A) (o : op) : list A :=
  match o with
  | Enqueue x => append q x
  | Reinsert x => appendleft q x
  | Dequeue => match popleft q with Some (_, q') => q' | None => q end
  end.

Definition run (ops : list op) (q : list A) : list A :=
  fold_left apply_op ops q.

End Bounded.
Arguments op A : clear implicits.
End Deque.

(** ** Python values *)

(** The result of [json.loads], and what [json.dumps] accepts.  Numbers are
    integers; a dictionary keeps its items in insertion order. *)
Inductive json : Type :=
| JNull
| JBool (b : bool)
| JNum (n : Z)
| JStr (s : string)
| JArr (l : list json)
| JObj (kv : list (string * json)).

Fixpoint dict_get (k : string) (kv : list (string * json)) : option json :=
  match kv with
  | [] => None
  | (k', v) :: rest => if String.eqb k' k then Some v else dict_get k rest
  end.

Definition dict_has (k : string) (kv : list (string * json)) : bool :=
  match dict_get k kv with Some _ => true | None => false end.

(** [d[k] = v] *)
Fixpoint dict_set (k : string) (v : json) (kv : list (string * json))
  : list (string * json) :=
  match kv with
  | [] => [(k, v)]
  | (k', v') :: rest =>
      if String.eqb k' k then (k, v) :: rest else (k', v') :: dict_set k v rest
  end.

(** Truth value of an object in a condition. *)
Definition truthy (j : json) : bool :=
  match j with
  | JNull => false
  | JBool b => b
  | JNum n => negb (n =? 0)%Z
  | JStr s => negb (String.eqb s "")
  | JArr l => match l with [] => false | _ => true end
  | JObj kv => match kv with [] => false | _ => true end
  end.

Definition lower_ascii (c : ascii) : ascii :=
  if (Ascii.leb "A" c && Ascii.leb c "Z")%bool
  then ascii_of_nat (nat_of_ascii c + 32)
  else c.

(** [str.lower()].  Only A..Z change; no other character lowers to an ASCII
    letter of "success" or "failure", so comparing the result with those
    words gives what Python gives. *)
Fixpoint lower (s : string) : string :=
  match s with
  | EmptyString => EmptyString
  | String c s' => String (lower_ascii c) (lower s')
  end.

(** [s.split(c)] for a one character separator. *)
Fixpoint split (c : ascii) (s : string) : list string :=
  match s with
  | EmptyString => [EmptyString]
  | String a s' =>
      if Ascii.eqb a c then EmptyString :: split c s'
      else match split c s' with
           | [] => [String a EmptyString]
           | h :: t => String a h :: t
           end
  end.

(** [str(n)] for an [int]. *)
Definition str_of_int (n : Z) : string := NilZero.string_of_int (Z.to_int n).

(** The exceptions the module can meet.  [OtherError] is any exception class
    outside the hierarchy named here (what a storage driver raises). *)
Inductive exn : Type :=
| KafkaError
| ValueError
| KeyError (k : string)
| IndexError
| TypeError
| AttributeError
| OSError
| OtherError (name : string).

Definition is_KafkaError (e : exn) : bool :=
  match e with KafkaError => true | _ => false end.

(** [except Exception] *)
Definition is_Exception (e : exn) : bool := true.

Inductive result (A : Type) : Type :=
| Ok (a : A)
| Raise (e : exn).
Arguments Ok {A} a.
Arguments Raise {A} e.

(** ** The world *)

(** [storage.QUARANTINE], [storage.PERM], [storage.REJECT] *)
Inductive tier : Type := QUARANTINE | PERM | REJECT.

Inductive level : Type := INFO | ERROR.

Inductive duration : Type :=
| Seconds (n : Z)
| Millis (n : Z).

(** An item of [produce_queue]: a dict with keys 'topic' and 'msg'. *)
Record item : Type := mk_item { topic : string; msg : json }.

(** What a coroutine does to the outside.  A call carries its arguments and
    the exception it raised, if any.  [Log] carries the format string of the
    logger call ([logger.exception] logs at level ERROR). *)
Inductive event : Type :=
| Log (lvl : level) (fmt : string)
| Sleep (d : duration)
| MqpStart (raised : option exn)
| MqpSend (t : string) (payload : json) (raised : option exn)
| MqcStart (raised : option exn)
| MqcGetMany (raised : option exn)
| StorageWrite (filename : string) (dst : tier) (key : string) (raised : option exn)
| StorageCopy (src dst : tier) (key : json) (raised : option exn)
| TmpFile (filename body : string)
| OsRemove (filename : string)
| Influx (values : json).

Record World : Type := mk_world {
  produce_queue : list item;    (* collections.deque([], 999) *)
  mqc_connected : bool;         (* MQStatus.mqc_connected *)
  mqp_connected : bool;         (* MQStatus.mqp_connected *)
  tmpfiles : list string;       (* files made by write_data, not yet removed *)
  trace : list event
}.

Definition initial_world : World := mk_world [] false false [] [].

Definition produce_queue_maxlen : nat := 999.

(** A record consumed from the validation topic; [value] is [msg.value]. *)
Record KafkaMsg : Type := mk_msg { value : string }.

(** The environment: configuration read with [os.getenv], library functions
    whose code is not part of the module, and the answers of the broker and
    of the storage driver. *)
Record Env : Type := mk_env {
  MAX_LENGTH : Z;
  RETRY_INTERVAL : Z;
  STORAGE_UPLOAD_TIMEOUT : Z;
  VALIDATION_QUEUE : string;
  (* json.loads: None is ValueError *)
  json_loads : string -> option json;
  (* int(s): None is ValueError *)
  py_int : string -> option Z;
  (* base64.b64decode: None is binascii.Error, a ValueError *)
  b64decode : string -> option string;
  (* mqp.start(), mqp.send_and_wait(topic, payload) *)
  mqp_start : list event -> option exn;
  mqp_send_and_wait : list event -> string -> json -> option exn;
  (* mqc.start(), mqc.getmany(): the topic of each partition and its records *)
  mqc_start : list event -> option exn;
  mqc_getmany : list event -> result (list (string * list KafkaMsg));
  (* storage.copy(src, dst, key) -> url *)
  storage_copy : list event -> tier -> tier -> json -> result string;
  (* storage.write(filename, dst, key) -> (url, callback); the callback is
     given by the integer part of callback.percentage at each poll *)
  storage_write : list event -> string -> tier -> string
                  -> result (string * (nat -> Z));
  (* the name NamedTemporaryFile picks *)
  tmp_name : list event -> string;
  (* the events the other tasks append to produce_queue while the producer
     awaits mqp.send_and_wait, in the order of their append *)
  arrivals : list event -> list item
}.

(** ** Computations *)

Definition M (A : Type) : Type := World -> result A * World.

Definition ret {A : Type} (a : A) : M A := fun w => (Ok a, w).

Definition raise {A : Type} (e : exn) : M A := fun w => (Raise e, w).

Definition bind {A B : Type} (m : M A) (f : A -> M B) : M B :=
  fun w =>
    match m w with
    | (Ok a, w') => f a w'
    | (Raise e, w') => (Raise e, w')
    end.

(** [try: m  except <class>: h] *)
Definition try_except {A : Type} (m : M A) (handles : exn -> bool) (h : M A) : M A :=
  fun w =>
    match m w with
    | (Ok a, w') => (Ok a, w')
    | (Raise e, w') => if handles e then h w' else (Raise e, w')
    end.

Declare Scope py_scope.
Delimit Scope py_scope with py.
Notation "x <- m ;; k" := (bind m (fun x => k))
  (at level 61, m at next level, right associativity) : py_scope.
Notation "m ;; k" := (bind m (fun _ => k))
  (at level 61, right associativity) : py_scope.
Local Open Scope py_scope.

Definition emit (ev : event) : M unit :=
  fun w => (Ok tt, mk_world (produce_queue w) (mqc_connected w) (mqp_connected w)
                            (tmpfiles w) (trace w ++ [ev])).

Definition log (lvl : level) (fmt : string) : M unit := emit (Log lvl fmt).

Definition sleep (d : duration) : M unit := emit (Sleep d).

Definition get_trace : M (list event) := fun w => (Ok (trace w), w).

Definition get_queue : M (list item) := fun w => (Ok (produce_queue w), w).

Definition set_queue (q : list item) : M unit :=
  fun w => (Ok tt, mk_world q (mqc_connected w) (mqp_connected w)
                            (tmpfiles w) (trace w)).

Definition set_mqc_connected (b : bool) : M unit :=
  fun w => (Ok tt, mk_world (produce_queue w) b (mqp_connected w)
                            (tmpfiles w) (trace w)).

Definition set_mqp_connected (b : bool) : M unit :=
  fun w => (Ok tt, mk_world (produce_queue w) (mqc_connected w) b
                            (tmpfiles w) (trace w)).

Definition set_tmpfiles (fs : list string) : M unit :=
  fun w => (Ok tt, mk_world (produce_queue w) (mqc_connected w) (mqp_connected w)
                            fs (trace w)).

(** [produce_queue.append(it)] *)
Definition queue_append (it : item) : M unit :=
  fun w => set_queue (Deque.append produce_queue_maxlen (produce_queue w) it) w.

(** [produce_queue.appendleft(it)] *)
Definition queue_appendleft (it : item) : M unit :=
  fun w => set_queue (Deque.appendleft produce_queue_maxlen (produce_queue w) it) w.

(** [produce_queue.popleft()] *)
Definition queue_popleft : M item :=
  fun w =>
    match Deque.popleft (produce_queue w) with
    | None => raise IndexError w
    | Some (it, q') => bind (set_queue q') (fun _ => ret it) w
    end.

(** [d[k]] *)
Definition subscript (d : json) (k : string) : M json :=
  match d with
  | JObj kv =>
      match dict_get k kv with
      | Some v => ret v
      | None => raise (KeyError k)
      end
  | _ => raise TypeError
  end.

(** [d.get(k)] *)
Definition dot_get (d : json) (k : string) : M json :=
  match d with
  | JObj kv =>
      match dict_get k kv with
      | Some v => ret v
      | None => ret JNull
      end
  | _ => raise AttributeError
  end.

(** [k in d] for a string [k] *)
Definition contains (k : string) (d : json) : M bool :=
  match d with
  | JObj kv => ret (dict_has k kv)
  | JArr l =>
      ret (existsb (fun j => match j with JStr s => String.eqb s k | _ => false end) l)
  | JStr s => ret (match index 0 k s with Some _ => true | None => false end)
  | _ => raise TypeError
  end.

(** [x.lower()] *)
Definition dot_lower (x : json) : M string :=
  match x with
  | JStr s => ret (lower s)
  | _ => raise AttributeError
  end.

(** ** Regular expressions, as far as [content_regex] needs them *)

Module Regex.

Inductive regex : Type :=
| Void
| Eps
| Chr (c : ascii)
| Class (p : ascii -> bool)
| Cat (r s : regex)
| Alt (r s : regex)
| Star (r : regex).

(** [r+] *)
Definition Plus (r : regex) : regex := Cat r (Star r).

(** The characters of a literal, one after the other. *)
Fixpoint Lit (s : string) : regex :=
  match s with
  | EmptyString => Eps
  | String c s' => Cat (Chr c) (Lit s')
  end.

(** The words of a regular expression. *)
Inductive Matches : regex -> list ascii -> Prop :=
| MEps : Matches Eps []
| MChr (c : ascii) : Matches (Chr c) [c]
| MClass (p : ascii -> bool) (c : ascii) : p c = true -> Matches (Class p) [c]
| MCat (r s : regex) (u v : list ascii) :
    Matches r u -> Matches s v -> Matches (Cat r s) (u ++ v)
| MAltL (r s : regex) (u : list ascii) : Matches r u -> Matches (Alt r s) u
| MAltR (r s : regex) (u : list ascii) : Matches s u -> Matches (Alt r s) u
| MStar0 (r : regex) : Matches (Star r) []
| MStarS (r : regex) (u v : list ascii) :
    Matches r u -> Matches (Star r) v -> Matches (Star r) (u ++ v).

Fixpoint nullable (r : regex) : bool :=
  match r with
  | Void => false
  | Eps => true
  | Chr _ => false
  | Class _ => false
  | Cat r s => nullable r && nullable s
  | Alt r s => nullable r || nullable s
  | Star _ => true
  end.

(** Brzozowski derivative: the words [w] with [c :: w] in [r]. *)
Fixpoint deriv (c : ascii) (r : regex) : regex :=
  match r with
  | Void => Void
  | Eps => Void
  | Chr d => if Ascii.eqb c d then Eps else Void
  | Class p => if p c then Eps else Void
  | Cat r s =>
      if nullable r then Alt (Cat (deriv c r) s) (deriv c s)
      else Cat (deriv c r) s
  | Alt r s => Alt (deriv c r) (deriv c s)
  | Star r => Cat (deriv c r) (Star r)
  end.

(** The whole of [w] is a word of [r]. *)
Fixpoint fullmatch (r : regex) (w : list ascii) : bool :=
  match w with
  | [] => nullable r
  | c :: w' => fullmatch (deriv c r) w'
  end.

(** [$] without MULTILINE: the end of the string, or just before a newline
    that ends the string. *)
Definition Dollar : regex := Alt Eps (Chr "010").

(** [re.search(r, s) is not None] for a pattern [^r$]: anchored at both
    ends, so the search succeeds exactly when the pattern matches at
    position 0 up to [$]. *)
Definition search_anchored (r : regex) (s : string) : bool :=
  fullmatch (Cat r Dollar) (list_ascii_of_string s).

End Regex.

(** ** Module level definitions of [app.py] *)

Local Open Scope string_scope.

(** [[a-z0-9-]] *)
Definition service_char (c : ascii) : bool :=
  (Ascii.leb "a" c && Ascii.leb c "z") || (Ascii.leb "0" c && Ascii.leb c "9")
  || Ascii.eqb c "-".

(** [content_regex =
     r'^application/vnd\.redhat\.([a-z0-9-]+)\.([a-z0-9-]+)\+(tgz|zip)$'],
    between its anchors. *)
Definition content_regex : Regex.regex :=
  Regex.Cat (Regex.Lit "application/vnd.redhat.")
 (Regex.Cat (Regex.Plus (Regex.Class service_char))
 (Regex.Cat (Regex.Chr ".")
 (Regex.Cat (Regex.Plus (Regex.Class service_char))
 (Regex.Cat (Regex.Chr "+")
            (Regex.Alt (Regex.Lit "tgz") (Regex.Lit "zip")))))).

(** [re.search(content_regex, s) is not None] *)
Definition content_regex_search (s : string) : bool :=
  Regex.search_anchored content_regex s.
Arguments content_regex_search : simpl never.

Definition DUMMY_principal : json := JStr "default_principal".
Definition DUMMY_rh_account : json := JStr "000001".

(** [split_content(content)]: [content.split('.')[2]] *)
Definition split_content (content : string) : result string :=
  match nth_error (split "." content) 2 with
  | Some service => Ok service
  | None => Raise IndexError
  end.
Arguments split_content : simpl never.

(** ** The coroutines of [app.py] *)

Section Service.
Variable env : Env.

Definition get_mqc_connected : M bool := fun w => (Ok (mqc_connected w), w).

Definition get_mqp_connected : M bool := fun w => (Ok (mqp_connected w), w).

(** A call to the outside that returns nothing: the answer is looked up, the
    call is put on the trace, and the exception, if any, is raised. *)
Definition extern_unit (answer : list event -> option exn)
  (ev : option exn -> event) : M unit :=
  tr <- get_trace ;;
  match answer tr with
  | None => emit (ev None)
  | Some e => emit (ev (Some e)) ;; raise e
  end.

(** A call to the outside that returns a value. *)
Definition extern {A : Type} (answer : list event -> result A)
  (ev : option exn -> event) : M A :=
  tr <- get_trace ;;
  match answer tr with
  | Ok a => emit (ev None) ;; ret a
  | Raise e => emit (ev (Some e)) ;; raise e
  end.

(** [for _ in range(0, n): body] *)
Fixpoint for_range (n : nat) (body : M unit) : M unit :=
  match n with
  | O => ret tt
  | S n' => body ;; for_range n' body
  end.

(** [fuel] rounds of [while True: body].  [Ok tt] says the loop is still
    running after them; [Raise e] says the coroutine ended with [e]. *)
Fixpoint while_true (fuel : nat) (body : M unit) : M unit :=
  match fuel with
  | O => ret tt
  | S fuel' => body ;; while_true fuel' body
  end.

(** *** [producer] *)

(** The buffer [q] after the [produce_queue.append] calls of the other tasks
    during a send awaited at trace [tr], a full buffer evicting at each. *)
Definition arrived (tr : list event) (q : list item) : list item :=
  Deque.run produce_queue_maxlen (map (@Deque.Enqueue item) (arrivals env tr)) q.

(** [await mqp.send_and_wait(topic, payload)] (line 175).  The producer is
    suspended until the broker answers; the other tasks run meanwhile, and
    their appends have taken place when the producer resumes with the
    answer. *)
Definition send_and_wait (t : string) (payload : json) : M unit :=
  tr <- get_trace ;;
  q <- get_queue ;;
  set_queue (arrived tr q) ;;
  match mqp_send_and_wait env tr t payload with
  | None => emit (MqpSend t payload None)
  | Some e => emit (MqpSend t payload (Some e)) ;; raise e
  end.

(** The body of the [for] loop of [producer] (lines 167-181). *)
Definition produce_one : M unit :=
  it <- queue_popleft ;;
  log INFO "Popped item from produce queue (qsize: %d): topic %s: %s" ;;
  try_except
    (send_and_wait (topic it) (msg it) ;;
     log INFO "Produced on topic %s: %s")
    is_KafkaError
    (log ERROR "Producer client hit error, triggering re-connect..." ;;
     set_mqp_connected false ;;
     (* Put the item back on the queue so we can push it when we reconnect *)
     queue_appendleft it).

(** The body of the [while True] loop of [producer] (lines 149-181). *)
Definition producer_iteration : M unit :=
  connected <- get_mqp_connected ;;
  ready <- (if connected then ret true
            else try_except
                   (log INFO "Producer client not connected, attempting to connect..." ;;
                    extern_unit (mqp_start env) MqpStart ;;
                    log INFO "Producer client connected!" ;;
                    set_mqp_connected true ;;
                    ret true)
                   is_KafkaError
                   (log ERROR "Producer client hit error, triggering re-connect..." ;;
                    sleep (Seconds (RETRY_INTERVAL env)) ;;
                    ret false)) ;;
  if negb ready then ret tt                       (* continue *)
  else
    q <- get_queue ;;
    match q with
    | [] => sleep (Millis 100)                    (* continue *)
    | _ :: _ => for_range (length q) produce_one
    end.

Definition producer (fuel : nat) : M unit :=
  set_mqp_connected false ;;
  while_true fuel producer_iteration.

(** *** [handle_file] *)

(** How the body of [for msg in msgs] ends: by reaching its end or
    [continue], or by [return]. *)
Inductive flow : Type := Continue | Return.

(** The body of the [for] loop of [handle_file] (lines 194-227). *)
Definition handle_msg (m : KafkaMsg) : M flow :=
  match json_loads env (value m) with
  | None =>
      log ERROR "handle_file(): unable to decode msg as json: {}" ;;
      ret Continue
  | Some data =>
      has_pid <- contains "payload_id" data ;;
      missing <- (if has_pid then ret false
                  else has_hash <- contains "hash" data ;; ret (negb has_hash)) ;;
      if (missing : bool) then
        log ERROR "payload_id or hash not in message. Payload not removed from quarantine." ;;
        ret Return
      else
        has_pid <- contains "payload_id" data ;;
        payload_id <- (if (has_pid : bool) then subscript data "payload_id"
                       else dot_get data "hash") ;;
        result <- subscript data "validation" ;;
        log INFO "processing message: %s - %s" ;;
        r <- dot_lower result ;;
        if r =? "success" then
          url <- extern (fun tr => storage_copy env tr QUARANTINE PERM payload_id)
                        (StorageCopy QUARANTINE PERM payload_id) ;;
          log INFO url ;;
          queue_append (mk_item "platform.upload.available"
                          (JObj [("url", JStr url); ("payload_id", payload_id)])) ;;
          ret Continue
        else if r =? "failure" then
          log INFO "%s rejected" ;;
          _ <- extern (fun tr => storage_copy env tr QUARANTINE REJECT payload_id)
                      (StorageCopy QUARANTINE REJECT payload_id) ;;
          ret Continue
        else
          log INFO "Unrecognized result: %s" ;;
          ret Continue
  end.

Fixpoint handle_file (msgs : list KafkaMsg) : M unit :=
  match msgs with
  | [] => ret tt
  | m :: rest =>
      f <- handle_msg m ;;
      match f with
      | Continue => handle_file rest
      | Return => ret tt
      end
  end.

(** *** [consumer] *)

(** [for tp, msgs in data.items()] (lines 130-132). *)
Fixpoint for_items (data : list (string * list KafkaMsg)) : M unit :=
  match data with
  | [] => ret tt
  | (tp_topic, msgs) :: rest =>
      (if tp_topic =? VALIDATION_QUEUE env then handle_file msgs else ret tt) ;;
      for_items rest
  end.

(** The body of the [while True] loop of [consumer] (lines 115-136). *)
Definition consumer_iteration : M unit :=
  connected <- get_mqc_connected ;;
  ready <- (if connected then ret true
            else try_except
                   (log INFO "Consume client not connected, attempting to connect..." ;;
                    extern_unit (mqc_start env) MqcStart ;;
                    log INFO "Consumer client connected!" ;;
                    set_mqc_connected true ;;
                    ret true)
                   is_KafkaError
                   (log ERROR "Consume client hit error, triggering re-connect..." ;;
                    sleep (Seconds (RETRY_INTERVAL env)) ;;
                    ret false)) ;;
  if negb ready then ret tt                       (* continue *)
  else
    try_except
      (data <- extern (mqc_getmany env) MqcGetMany ;;
       for_items data)
      is_KafkaError
      (log ERROR "Consume client hit error, triggering re-connect..." ;;
       set_mqc_connected false) ;;
    sleep (Millis 100).

Definition consumer (fuel : nat) : M unit :=
  set_mqc_connected false ;;
  while_true fuel consumer_iteration.

(** *** [UploadHandler] *)

(** An entry of [self.request.files['upload']]. *)
Record HTTPFile : Type := mk_file { content_type : string; body : string }.

(** The parts of [self.request] the handler reads.  [files_upload] is
    [request.files.get('upload')], empty when the field is absent; a header
    is [None] when the request does not carry it. *)
Record Request : Type := mk_request {
  files_upload : list HTTPFile;
  Content_Length : option string;
  x_rh_insights_request_id : option string;
  Tracking_ID : option string;
  x_rh_identity : option string
}.

(** What the handler set on the response: [set_status], [set_header],
    [write]. *)
Record Response : Type := mk_response {
  status : Z * string;
  headers : list (string * string);
  written : string
}.

(** The arguments [post] hands to [process_upload].  [identity] is [JNull]
    for Python's [None]. *)
Record Upload : Type := mk_upload {
  filename : string;
  size : Z;
  tracking_id : string;
  payload_id : string;
  identity : json;
  service : string
}.

(** [self.request.headers[name]] *)
Definition header_subscript (h : option string) (name : string) : M string :=
  match h with
  | Some v => ret v
  | None => raise (KeyError name)
  end.

(** [int(s)] *)
Definition int_of (s : string) : M Z :=
  match py_int env s with
  | Some n => ret n
  | None => raise ValueError
  end.

(** [self.request.files['upload'][0]] *)
Definition first_upload (req : Request) : M HTTPFile :=
  match files_upload req with
  | f :: _ => ret f
  | [] => raise (KeyError "upload")
  end.

Definition lift {A : Type} (r : result A) : M A :=
  match r with
  | Ok a => ret a
  | Raise e => raise e
  end.

(** [upload_validation]: [None] when the upload is valid, else the status
    code and the message. *)
Definition upload_validation (req : Request) : M (option (Z * string)) :=
  cl <- header_subscript (Content_Length req) "Content-Length" ;;
  n <- int_of cl ;;
  if (n >=? MAX_LENGTH env)%Z then
    ret (Some (413%Z, "Payload too large: " ++ cl ++ ". Should not exceed "
                      ++ str_of_int (MAX_LENGTH env) ++ " bytes"))
  else
    f <- first_upload req ;;
    if negb (content_regex_search (content_type f)) then
      ret (Some (415%Z, "Unsupported Media Type"))
    else ret None.

(** [write_data]: a temporary file that outlives the handler
    ([delete=False]). *)
Definition write_data (data : string) : M string :=
  tr <- get_trace ;;
  let name := tmp_name env tr in
  emit (TmpFile name data) ;;
  (fun w => set_tmpfiles (name :: tmpfiles w) w) ;;
  ret name.

(** [os.remove(filename)] *)
Definition os_remove (name : string) : M unit :=
  emit (OsRemove name) ;;
  (fun w =>
     if existsb (String.eqb name) (tmpfiles w)
     then set_tmpfiles (filter (fun f => negb (String.eqb name f)) (tmpfiles w)) w
     else raise OSError w).

(** The polling loop of [upload] (lines 296-300): [n] rounds are left,
    [count] have been made. *)
Fixpoint poll (n count : nat) (percentage : nat -> Z) : M bool :=
  match n with
  | O => ret false
  | S n' =>
      if (percentage count >=? 100)%Z then ret true
      else sleep (Millis 10) ;; poll n' (S count) percentage
  end.

(** [upload]: the url when the write finished in time, else [None]. *)
Definition upload (name tracking payload : string) : M (option string) :=
  log INFO "tracking id [%s] payload_id [%s] attempting upload" ;;
  wrote <- try_except
             (r <- extern (fun tr => storage_write env tr name QUARANTINE payload)
                          (StorageWrite name QUARANTINE payload) ;;
              ret (Some r))
             is_Exception
             (log ERROR "Exception hit uploading: tracking id [%s] payload_id [%s]" ;;
              ret None) ;;
  success <- match wrote with
             | Some (_, callback) =>
                 poll (Z.to_nat (STORAGE_UPLOAD_TIMEOUT env * 10)) 0 callback
             | None => ret false
             end ;;
  os_remove name ;;
  if negb success then
    log ERROR "upload id: %s upload failed or timed out after %dsec!" ;;
    ret None
  else
    match wrote with
    | Some (url, _) =>
        log INFO "tracking id [%s] payload_id [%s] uploaded! elapsed [%fsec] url [%s]" ;;
        ret (Some url)
    | None => raise (OtherError "UnboundLocalError")
    end.

(** The dictionary [values] of [process_upload], before the upload. *)
Definition upload_values (u : Upload) : M (list (string * json)) :=
  let values := [] in
  values <- (if truthy (identity u) then
               account <- subscript (identity u) "account_number" ;;
               let values := dict_set "rh_account" account values in
               org <- subscript (identity u) "org_id" ;;
               ret (dict_set "principal" org values)
             else
               let values := dict_set "rh_account" DUMMY_rh_account values in
               ret (dict_set "principal" DUMMY_principal values)) ;;
  let values := dict_set "validation" (JNum 1) values in
  let values := dict_set "payload_id" (JStr (payload_id u)) values in
  let values := dict_set "hash" (JStr (payload_id u)) values in
  let values := dict_set "size" (JNum (size u)) values in
  let values := dict_set "service" (JStr (service u)) values in
  ret values.

(** [process_upload].  The dictionary put on the queue is also handed to
    [mnm.send_to_influxdb], which is taken to leave it as it is. *)
Definition process_upload (u : Upload) : M unit :=
  log INFO "identity - %s" ;;
  values <- upload_values u ;;
  url <- upload (filename u) (tracking_id u) (payload_id u) ;;
  match url with
  | Some url' =>
      if truthy (JStr url') then
        let values := dict_set "url" (JStr url') values in
        queue_append (mk_item ("platform.upload." ++ service u) (JObj values)) ;;
        log INFO "Data for payload_id [%s] put on produce queue (qsize: %d)" ;;
        emit (Influx (JObj values))
      else ret tt
  | None => ret tt
  end.

(** [post]: the response, and the upload handed to [process_upload] with
    [asyncio.ensure_future] when the request is accepted. *)
Definition post (req : Request) : M (Response * option Upload) :=
  match files_upload req with
  | [] =>
      log INFO "Upload field not found" ;;
      ret (mk_response (415%Z, "Upload field not found") [] "", None)
  | _ :: _ =>
      match x_rh_insights_request_id req with
      | None =>
          let msg := "No payload_id assigned. Upload Failed" in
          log ERROR msg ;;
          ret (mk_response (400%Z, "Bad Request")
                           [("Content-Type", "text/plain")] msg, None)
      | Some payload =>
          invalid <- upload_validation req ;;
          match invalid with
          | Some error => ret (mk_response error [] "", None)
          | None =>
              let tracking :=
                match Tracking_ID req with Some t => t | None => "null" end in
              f <- first_upload req ;;
              svc <- lift (split_content (content_type f)) ;;
              ident <- match x_rh_identity req with
                       | Some h =>
                           if truthy (JStr h) then
                             _ <- lift (match b64decode env h with
                                        | Some b => Ok b
                                        | None => Raise ValueError
                                        end) ;;
                             log INFO "x-rh-identity: %s" ;;
                             raw <- lift (match b64decode env h with
                                          | Some b => Ok b
                                          | None => Raise ValueError
                                          end) ;;
                             header <- lift (match json_loads env raw with
                                             | Some j => Ok j
                                             | None => Raise ValueError
                                             end) ;;
                             subscript header "identity"
                           else ret JNull
                       | None => ret JNull
                       end ;;
              cl <- header_subscript (Content_Length req) "Content-Length" ;;
              sz <- int_of cl ;;
              name <- write_data (body f) ;;
              ret (mk_response (202%Z, "Accepted") [] "",
                   Some (mk_upload name sz tracking payload ident svc))
          end
      end
  end.

(** A POST from its arrival to the end of the task it started.  Nothing
    awaits that task, so an exception that ends it goes no further. *)
Definition serve (req : Request) : M Response :=
  r <- post req ;;
  match snd r with
  | Some u => try_except (process_upload u) is_Exception (ret tt)
  | None => ret tt
  end ;;
  ret (fst r).

End Service.

(** ** Observations used in the statements *)

(** What a call to the outside leaves on the trace as its outcome. *)
Definition raised_by {A : Type} (r : result A) : option exn :=
  match r with
  | Ok _ => None
  | Raise e => Some e
  end.

Definition is_write (ev : event) : bool :=
  match ev with StorageWrite _ _ _ _ => true | _ => false end.

Definition is_tmpfile (ev : event) : bool :=
  match ev with TmpFile _ _ => true | _ => false end.

(** Some poll within the [timeout * 10] polls of [upload] sees the
    callback at 100 percent or more. *)
Definition completed (timeout : Z) (callback : nat -> Z) : bool :=
  existsb (fun i => (callback i >=? 100)%Z) (seq 0 (Z.to_nat (timeout * 10))).

(** The url of a write that returned and completed within the polls. *)
Definition written_in_time (timeout : Z) (answer : result (string * (nat -> Z)))
  : option string :=
  match answer with
  | Ok (url, callback) => if completed timeout callback then Some url else None
  | Raise _ => None
  end.

(** ** Concrete inputs used by the examples below *)

Module Scenario.

(** The n-th follow-up event of a run of verdicts. *)
Definition numbered (n : nat) : item :=
  mk_item "platform.upload.available"
          (JObj [("url", JStr "http://perm"); ("payload_id", JNum (Z.of_nat n))]).

(** A buffer filled to its bound: event 0 is the oldest, event 998 the newest. *)
Definition full_queue : list item := map numbered (seq 0 999).

(** The records of the validation topic used below, named by what they
    hold; [decode] is what [json.loads] returns for them.
    - verdict-success:      {'payload_id': 'abc123', 'validation': 'success'}
    - verdict-SUCCESS-hash: {'hash': 'abc123', 'validation': 'SUCCESS'}
    - verdict-failure:      {'payload_id': 'abc123', 'validation': 'Failure'}
    - verdict-pending:      {'payload_id': 'abc123', 'validation': 'pending'}
    - verdict-no-id:        {'validation': 'success'}
    - verdict-second:       {'payload_id': 'def456', 'validation': 'success'}
    - anything else is not JSON. *)
Definition decode (s : string) : option json :=
  if s =? "verdict-success" then
    Some (JObj [("payload_id", JStr "abc123"); ("validation", JStr "success")])
  else if s =? "verdict-SUCCESS-hash" then
    Some (JObj [("hash", JStr "abc123"); ("validation", JStr "SUCCESS")])
  else if s =? "verdict-failure" then
    Some (JObj [("payload_id", JStr "abc123"); ("validation", JStr "Failure")])
  else if s =? "verdict-pending" then
    Some (JObj [("payload_id", JStr "abc123"); ("validation", JStr "pending")])
  else if s =? "verdict-no-id" then
    Some (JObj [("validation", JStr "success")])
  else if s =? "verdict-second" then
    Some (JObj [("payload_id", JStr "def456"); ("validation", JStr "success")])
  else None.

(** [int] on a decimal numeral. *)
Definition int_of_decimal (s : string) : option Z :=
  option_map Z.of_int (NilZero.int_of_string s).

(** A storage callback that reports 50 percent at the first three polls and
    100 percent from the fourth on. *)
Definition done_at_fourth_poll (count : nat) : Z :=
  if (count <? 3)%nat then 50%Z else 100%Z.

(** An environment with the default configuration in which the broker and
    the storage driver answer every call, and the consumer is handed the
    batch [batch] at every poll. *)
Definition env_with (batch : list KafkaMsg)
  (send : list event -> string -> json -> option exn)
  (copy : list event -> tier -> tier -> json -> result string)
  (write : list event -> string -> tier -> string -> result (string * (nat -> Z)))
  : Env :=
  mk_env 11010048 5 60 "platform.upload.validation"
         decode int_of_decimal (fun s => Some s)
         (fun _ => None) send
         (fun _ => None) (fun _ => Ok [("platform.upload.validation", batch)])
         copy write
         (fun _ => "/tmp/tmpabc")
         (fun _ => []).

Definition send_ok (tr : list event) (t : string) (payload : json) : option exn :=
  None.

(** The broker fails the first [send_and_wait] and acknowledges the later
    ones. *)
Definition send_fails_once (tr : list event) (t : string) (payload : json)
  : option exn :=
  if existsb (fun ev => match ev with MqpSend _ _ _ => true | _ => false end) tr
  then None else Some KafkaError.

Definition copy_ok (tr : list event) (src dst : tier) (key : json) : result string :=
  Ok "http://perm/abc123".

(** The storage driver fails every copy (the object is not there, the
    credentials expired, ...). *)
Definition copy_fails (tr : list event) (src dst : tier) (key : json)
  : result string :=
  Raise (OtherError "ClientError").

Definition write_ok (tr : list event) (name : string) (dst : tier) (key : string)
  : result (string * (nat -> Z)) :=
  Ok ("http://quarantine/abc123", done_at_fourth_poll).

Definition env_ok : Env := env_with [] send_ok copy_ok write_ok.

(** Three events waiting in the buffer. *)
Definition three_events : list item := [numbered 1; numbered 2; numbered 3].

(** A POST of 100 bytes with request id 'abc123', no tracking id and no
    identity, whose upload part declares the content type [ct]. *)
Definition upload_request (ct : string) : Request :=
  mk_request [mk_file ct "BODY"] (Some "100") (Some "abc123") None None.

(** The same without the request id; with a declared length at the
    maximum; and without the upload part. *)
Definition request_without_id (ct : string) : Request :=
  mk_request [mk_file ct "BODY"] (Some "100") None None None.

Definition request_too_large (ct : string) : Request :=
  mk_request [mk_file ct "BODY"] (Some "11010048") (Some "abc123") None None.

Definition request_without_file : Request :=
  mk_request [] (Some "100") (Some "abc123") None None.

(** An upload handed to [process_upload], its file on disk, with and
    without a decoded identity. *)
Definition caller_identity : json :=
  JObj [("account_number", JStr "540155"); ("org_id", JStr "1979710")].

Definition staged_upload (ident : json) : Upload :=
  mk_upload "/tmp/tmpabc" 100 "null" "abc123" ident "demo".

Definition staged_world : World :=
  mk_world [] false false ["/tmp/tmpabc"] [TmpFile "/tmp/tmpabc" "BODY"].

(** The event the accepted request of the scenario leaves on the queue. *)
Definition received_event (account principal : json) : item :=
  mk_item "platform.upload.demo"
    (JObj [("rh_account", account); ("principal", principal);
           ("validation", JNum 1); ("payload_id", JStr "abc123");
           ("hash", JStr "abc123"); ("size", JNum 100);
           ("service", JStr "demo"); ("url", JStr "http://quarantine/abc123")]).

End Scenario.

(** ** Further observations and the status handler *)

(** The items the broker acknowledged, in the order of the sends. *)
Fixpoint acked (tr : list event) : list item :=
  match tr with
  | [] => []
  | MqpSend t payload None :: rest => mk_item t payload :: acked rest
  | _ :: rest => acked rest
  end.

Definition is_send (ev : event) : bool :=
  match ev with MqpSend _ _ _ => true | _ => false end.

Definition is_sleep (ev : event) : bool :=
  match ev with Sleep _ => true | _ => false end.

Definition is_poll (ev : event) : bool :=
  match ev with MqcGetMany _ => true | _ => false end.

Definition is_copy (ev : event) : bool :=
  match ev with StorageCopy _ _ _ _ => true | _ => false end.

(** The number of occurrences of a character in a string. *)
Fixpoint count_char (c : ascii) (s : string) : nat :=
  match s with
  | EmptyString => 0
  | String a s' => (if Ascii.eqb a c then 1 else 0) + count_char c s'
  end.

(** A word of one or more characters of [[a-z0-9-]]. *)
Definition service_word (s : string) : bool :=
  negb (String.eqb s "") && forallb service_char (list_ascii_of_string s).

(** [StatusHandler.get] (lines 449-469).  [up_check] is
    [storage.up_check], taken to answer without raising; the result is the
    dictionary handed to [self.write]. *)
Definition status_get (up_check : tier -> bool) : M json :=
  let response :=
    [("upload_service", JStr "up");
     ("message_queue_producer", JStr "down");
     ("message_queue_consumer", JStr "down");
     ("long_term_storage", JStr "down");
     ("quarantine_storage", JStr "down");
     ("rejected_storage", JStr "down")] in
  let response :=
    if up_check PERM then dict_set "long_term_storage" (JStr "up") response
    else response in
  let response :=
    if up_check QUARANTINE then dict_set "quarantine_storage" (JStr "up") response
    else response in
  let response :=
    if up_check REJECT then dict_set "rejected_storage" (JStr "up") response
    else response in
  (fun w =>
     let response :=
       if mqp_connected w then dict_set "message_queue_producer" (JStr "up") response
       else response in
     let response :=
       if mqc_connected w then dict_set "message_queue_consumer" (JStr "up") response
       else response in
     ret (JObj response) w).


(** A result that is not a raised [KafkaError]. *)
Definition no_kafka {A : Type} (r : result A) : Prop :=
  match r with
  | Ok _ => True
  | Raise e => is_KafkaError e = false
  end.

(** ** Further concrete inputs *)

Module Cases.

(** A broker that refuses every connection and every send. *)
Definition env_broker_down : Env :=
  mk_env 11010048 5 60 "platform.upload.validation"
         Scenario.decode Scenario.int_of_decimal (fun s => Some s)
         (fun _ => Some KafkaError) (fun _ _ _ => Some KafkaError)
         (fun _ => Some KafkaError) (fun _ => Raise KafkaError)
         Scenario.copy_ok Scenario.write_ok
         (fun _ => "/tmp/tmpabc")
         (fun _ => []).

(** A broker that accepts the connection and refuses every send, while one
    more verdict is promoted during each send. *)
Definition env_arrival_during_outage : Env :=
  mk_env 11010048 5 60 "platform.upload.validation"
         Scenario.decode Scenario.int_of_decimal (fun s => Some s)
         (fun _ => None) (fun _ _ _ => Some KafkaError)
         (fun _ => None) (fun _ => Ok [])
         Scenario.copy_ok Scenario.write_ok
         (fun _ => "/tmp/tmpabc")
         (fun _ => [Scenario.numbered 999]).

(** A storage driver whose write returns at once and is complete at the
    first poll, under a timeout of zero seconds. *)
Definition env_no_timeout : Env :=
  mk_env 11010048 5 0 "platform.upload.validation"
         Scenario.decode Scenario.int_of_decimal (fun s => Some s)
         (fun _ => None) Scenario.send_ok
         (fun _ => None) (fun _ => Ok [])
         Scenario.copy_ok
         (fun _ _ _ _ => Ok ("http://quarantine/abc123", fun _ => 100%Z))
         (fun _ => "/tmp/tmpabc")
         (fun _ => []).

(** A storage driver whose write completes but returns an empty url. *)
Definition write_empty_url (tr : list event) (name : string) (dst : tier)
  (key : string) : result (string * (nat -> Z)) :=
  Ok ("", fun _ => 100%Z).

(** A poll that returns records of two topics. *)
Definition two_topics : list (string * list KafkaMsg) :=
  [("platform.upload.other", [mk_msg "verdict-success"]);
   ("platform.upload.validation", [mk_msg "verdict-failure"])].

(** More records: a verdict without 'validation', and one whose
    'validation' is a number. *)
Definition decode_more (s : string) : option json :=
  if s =? "verdict-no-validation" then
    Some (JObj [("payload_id", JStr "abc123")])
  else if s =? "verdict-number" then
    Some (JObj [("payload_id", JStr "abc123"); ("validation", JNum 1)])
  else Scenario.decode s.

Definition env_more : Env :=
  mk_env 11010048 5 60 "platform.upload.validation"
         decode_more Scenario.int_of_decimal (fun s => Some s)
         (fun _ => None) Scenario.send_ok
         (fun _ => None) (fun _ => Ok two_topics)
         Scenario.copy_ok Scenario.write_ok
         (fun _ => "/tmp/tmpabc")
         (fun _ => []).

(** An identity without an account number. *)
Definition identity_without_account : json :=
  JObj [("org_id", JStr "1979710")].

(** Requests without a Content-Length header, and with one that is not a
    number. *)
Definition request_without_length : Request :=
  mk_request [mk_file "application/vnd.redhat.demo.testsvc+tgz" "BODY"]
             None (Some "abc123") None None.

Definition request_bad_length : Request :=
  mk_request [mk_file "application/vnd.redhat.demo.testsvc+tgz" "BODY"]
             (Some "ten") (Some "abc123") None None.

End Cases.

(** * Properties *)

Local Open Scope list_scope.

(** ** The outbound buffer *)

Section DequeFacts.
Context {A : Type}.
Variable maxlen : nat.

Lemma length_removelast (l : list A) : length (removelast l) = pred (length l).
Proof.
  induction l as [|a [|b l] IH]; simpl in *; auto.
Qed.

Lemma length_tl (l : list A) : length (tl l) = pred (length l).
Proof. destruct l; reflexivity. Qed.

Lemma append_length (q : list A) (x : A) :
  length q <= maxlen -> length (Deque.append maxlen q x) <= maxlen.
Proof.
  intros H. unfold Deque.append.
  destruct (Nat.ltb_spec maxlen (length (q ++ [x]))) as [Hlt|Hge]; [|exact Hge].
  rewrite length_tl, length_app. simpl. lia.
Qed.

Lemma appendleft_length (q : list A) (x : A) :
  length q <= maxlen -> length (Deque.appendleft maxlen q x) <= maxlen.
Proof.
  intros H. unfold Deque.appendleft.
  destruct (Nat.ltb_spec maxlen (length (x :: q))) as [Hlt|Hge]; [|exact Hge].
  rewrite length_removelast. simpl. lia.
Qed.

Lemma apply_op_length (q : list A) (o : Deque.op A) :
  length q <= maxlen -> length (Deque.apply_op maxlen q o) <= maxlen.
Proof.
  intros H. destruct o as [x|x|]; simpl.
  - now apply append_length.
  - now apply appendleft_length.
  - destruct q; simpl in *; lia.
Qed.

Lemma run_length (ops : list (Deque.op A)) :
  forall q, length q <= maxlen -> length (Deque.run maxlen ops q) <= maxlen.
Proof.
  unfold Deque.run. induction ops as [|o ops IH]; intros q H; simpl; [exact H|].
  apply IH. now apply apply_op_length.
Qed.

Lemma append_not_full (q : list A) (x : A) :
  length q < maxlen -> Deque.append maxlen q x = q ++ [x].
Proof.
  intros H. unfold Deque.append.
  destruct (Nat.ltb_spec maxlen (length (q ++ [x]))) as [Hlt|Hge]; [|reflexivity].
  rewrite length_app in Hlt. simpl in Hlt. lia.
Qed.

Lemma append_full (q : list A) (x : A) :
  0 < maxlen -> length q = maxlen -> Deque.append maxlen q x = tl q ++ [x].
Proof.
  intros Hpos H. unfold Deque.append.
  destruct (Nat.ltb_spec maxlen (length (q ++ [x]))) as [Hlt|Hge].
  - destruct q; simpl in *; [lia|reflexivity].
  - rewrite length_app in Hge. simpl in Hge. lia.
Qed.

Lemma appendleft_not_full (q : list A) (x : A) :
  length q < maxlen -> Deque.appendleft maxlen q x = x :: q.
Proof.
  intros H. unfold Deque.appendleft.
  destruct (Nat.ltb_spec maxlen (length (x :: q))) as [Hlt|Hge]; [|reflexivity].
  simpl in Hlt. lia.
Qed.

Lemma appendleft_full (q : list A) (x : A) :
  0 < maxlen -> length q = maxlen ->
  Deque.appendleft maxlen q x = x :: removelast q.
Proof.
  intros Hpos H. unfold Deque.appendleft.
  destruct (Nat.ltb_spec maxlen (length (x :: q))) as [Hlt|Hge].
  - destruct q; simpl in *; [lia|reflexivity].
  - simpl in Hge. lia.
Qed.

End DequeFacts.

Lemma produce_queue_maxlen_pos : 0 < produce_queue_maxlen.
Proof. unfold produce_queue_maxlen. lia. Qed.

Lemma numbered_inj (n m : nat) : Scenario.numbered n = Scenario.numbered m -> n = m.
Proof.
  unfold Scenario.numbered. intros H. injection H as H. lia.
Qed.

(** C3, as stated, fails.  On a full buffer whose oldest event has been
    popped for sending, a new event 999 arrives while the send is awaited and
    fills the buffer again; the send fails and event 0 is put back at the
    front.  That insertion meets a full buffer and discards event 999, the
    newest, not event 1, the oldest unsent one: the buffer is what it was
    before event 999 arrived. *)
Lemma reinsert_into_full_buffer_discards_newest :
  let full := Deque.run produce_queue_maxlen
                [Deque.Dequeue; Deque.Enqueue (Scenario.numbered 999)]
                Scenario.full_queue in
  let after := Deque.apply_op produce_queue_maxlen full
                 (Deque.Reinsert (Scenario.numbered 0)) in
  length full = produce_queue_maxlen
  /\ hd_error full = Some (Scenario.numbered 1)
  /\ last full (Scenario.numbered 0) = Scenario.numbered 999
  /\ after = Scenario.full_queue
  /\ In (Scenario.numbered 1) after
  /\ ~ In (Scenario.numbered 999) after.
Proof.
  assert (E : Deque.apply_op produce_queue_maxlen
                (Deque.run produce_queue_maxlen
                   [Deque.Dequeue; Deque.Enqueue (Scenario.numbered 999)]
                   Scenario.full_queue)
                (Deque.Reinsert (Scenario.numbered 0)) = Scenario.full_queue)
    by (vm_compute; reflexivity).
  cbv zeta. rewrite E.
  split; [vm_compute; reflexivity|].
  split; [vm_compute; reflexivity|].
  split; [vm_compute; reflexivity|].
  split; [reflexivity|].
  unfold Scenario.full_queue. split.
  - apply in_map. apply in_seq. lia.
  - intros H. apply in_map_iff in H. destruct H as [n [Hn Hin]].
    apply numbered_inj in Hn. apply in_seq in Hin. lia.
Qed.

(** C3, amended: whatever sequence of [append], [appendleft] and [popleft]
    is applied to [produce_queue], its length stays within the bound of 999;
    [append] on a full buffer discards the event at the front (the oldest)
    and admits the new one at the back; [appendleft] on a full buffer admits
    the event put back at the front and discards the event at the back (the
    newest). *)
Theorem produce_queue_bounded_evicts_opposite_end :
  forall (ops : list (Deque.op item)) (q0 q : list item) (e : item),
    length q0 <= produce_queue_maxlen ->
    length q = produce_queue_maxlen ->
    length (Deque.run produce_queue_maxlen ops q0) <= produce_queue_maxlen
    /\ Deque.append produce_queue_maxlen q e = tl q ++ [e]
    /\ Deque.appendleft produce_queue_maxlen q e = e :: removelast q.
Proof.
  intros ops q0 q e H0 Hq. split; [|split].
  - now apply run_length.
  - apply append_full; [apply produce_queue_maxlen_pos|exact Hq].
  - apply appendleft_full; [apply produce_queue_maxlen_pos|exact Hq].
Qed.

Lemma produce_queue_bounded_evicts_opposite_end_witness :
  length (@nil item) <= produce_queue_maxlen
  /\ length Scenario.full_queue = produce_queue_maxlen
  /\ length (Deque.run produce_queue_maxlen
               [Deque.Enqueue (Scenario.numbered 1); Deque.Dequeue;
                Deque.Reinsert (Scenario.numbered 1)] [])
     <= produce_queue_maxlen
  /\ Deque.append produce_queue_maxlen Scenario.full_queue (Scenario.numbered 999)
     = tl Scenario.full_queue ++ [Scenario.numbered 999]
  /\ Deque.appendleft produce_queue_maxlen Scenario.full_queue (Scenario.numbered 999)
     = Scenario.numbered 999 :: removelast Scenario.full_queue.
Proof.
  split; [simpl; lia|].
  split; [vm_compute; reflexivity|].
  apply (@produce_queue_bounded_evicts_opposite_end
           [Deque.Enqueue (Scenario.numbered 1); Deque.Dequeue;
            Deque.Reinsert (Scenario.numbered 1)]
           [] Scenario.full_queue (Scenario.numbered 999)).
  - simpl; lia.
  - vm_compute; reflexivity.
Defined.

(** ** The content type pattern *)

Section RegexFacts.
Import Regex.

Lemma Matches_Cat_inv (r s : regex) (w : list ascii) :
  Matches (Cat r s) w ->
  exists u v, w = u ++ v /\ Matches r u /\ Matches s v.
Proof. intros H. inversion H; subst. eauto. Qed.

Lemma Matches_Alt_inv (r s : regex) (w : list ascii) :
  Matches (Alt r s) w -> Matches r w \/ Matches s w.
Proof. intros H. inversion H; subst; auto. Qed.

Lemma Matches_Chr_inv (c : ascii) (w : list ascii) :
  Matches (Chr c) w -> w = [c].
Proof. intros H. now inversion H. Qed.

Lemma Matches_Class_inv (p : ascii -> bool) (w : list ascii) :
  Matches (Class p) w -> exists c, w = [c] /\ p c = true.
Proof. intros H. inversion H; subst. eauto. Qed.

Lemma Matches_Eps_inv (w : list ascii) : Matches Eps w -> w = [].
Proof. intros H. now inversion H. Qed.

Lemma nullable_spec (r : regex) : nullable r = true <-> Matches r [].
Proof.
  induction r as [| |c|p|r IHr s IHs|r IHr s IHs|r IHr]; simpl.
  - split; [discriminate|intros H; inversion H].
  - split; [constructor|reflexivity].
  - split; [discriminate|intros H; inversion H].
  - split; [discriminate|intros H; inversion H].
  - rewrite andb_true_iff, IHr, IHs. split.
    + intros [Hr Hs]. exact (MCat Hr Hs).
    + intros H. apply Matches_Cat_inv in H. destruct H as [u [v [Huv [Hu Hv]]]].
      symmetry in Huv. apply app_eq_nil in Huv. destruct Huv; subst. now split.
  - rewrite orb_true_iff, IHr, IHs. split.
    + intros [H|H]; [now apply MAltL|now apply MAltR].
    + apply Matches_Alt_inv.
  - split; [constructor|reflexivity].
Qed.

Lemma star_cons (r : regex) (c : ascii) (w : list ascii) :
  Matches (Star r) (c :: w) ->
  exists u v, w = u ++ v /\ Matches r (c :: u) /\ Matches (Star r) v.
Proof.
  intros H. remember (Star r) as sr eqn:Esr. remember (c :: w) as cw eqn:Ecw.
  revert c w Ecw.
  induction H as [| | | | | | |r' u v Hu _ Hv IHv]; intros a w0 Ecw;
    try discriminate.
  injection Esr as ->.
  destruct u as [|b u].
  - simpl in Ecw. now apply IHv.
  - simpl in Ecw. injection Ecw as Hb Hw. subst b w0. now exists u, v.
Qed.

Lemma deriv_spec (r : regex) :
  forall (c : ascii) (w : list ascii),
    Matches (deriv c r) w <-> Matches r (c :: w).
Proof.
  induction r as [| |d|p|r IHr s IHs|r IHr s IHs|r IHr]; intros c w; simpl.
  - split; intros H; inversion H.
  - split; intros H; inversion H.
  - destruct (Ascii.eqb_spec c d) as [->|Hne].
    + split; intros H; inversion H; subst; constructor.
    + split; intros H; inversion H; subst. now elim Hne.
  - destruct (p c) eqn:Hp.
    + split; intros H; inversion H; subst; now constructor.
    + split; intros H; inversion H; subst. congruence.
  - assert (Hcat : Matches (Cat (deriv c r) s) w ->  Matches (Cat r s) (c :: w)).
    { intros H. apply Matches_Cat_inv in H. destruct H as [u [v [-> [Hu Hv]]]].
      apply IHr in Hu. exact (MCat Hu Hv). }
    assert (Hinv : Matches (Cat r s) (c :: w) ->
                   (Matches r [] /\ Matches s (c :: w))
                   \/ Matches (Cat (deriv c r) s) w).
    { intros H. apply Matches_Cat_inv in H. destruct H as [u [v [Huv [Hu Hv]]]].
      destruct u as [|a u]; simpl in Huv.
      - subst v. now left.
      - injection Huv as -> ->. right. apply MCat; [now apply IHr|exact Hv]. }
    destruct (nullable r) eqn:Hn.
    + split.
      * intros H. apply Matches_Alt_inv in H. destruct H as [H|H].
        -- now apply Hcat.
        -- apply IHs in H. apply nullable_spec in Hn. exact (MCat Hn H).
      * intros H. apply Hinv in H. destruct H as [[_ H]|H].
        -- apply MAltR. now apply IHs.
        -- now apply MAltL.
    + split; [exact Hcat|].
      intros H. apply Hinv in H. destruct H as [[H _]|H]; [|exact H].
      apply nullable_spec in H. congruence.
  - split; intros H.
    + apply Matches_Alt_inv in H. destruct H as [H|H].
      * apply MAltL. now apply IHr.
      * apply MAltR. now apply IHs.
    + apply Matches_Alt_inv in H. destruct H as [H|H].
      * apply MAltL. now apply IHr.
      * apply MAltR. now apply IHs.
  - split.
    + intros H. apply Matches_Cat_inv in H. destruct H as [u [v [-> [Hu Hv]]]].
      apply IHr in Hu. exact (MStarS Hu Hv).
    + intros H. apply star_cons in H. destruct H as [u [v [-> [Hu Hv]]]].
      apply MCat; [now apply IHr|exact Hv].
Qed.

(** The matcher decides membership in the language of the expression. *)
Lemma fullmatch_spec (w : list ascii) :
  forall r : regex, fullmatch r w = true <-> Matches r w.
Proof.
  induction w as [|c w IH]; intros r; simpl.
  - apply nullable_spec.
  - rewrite IH. apply deriv_spec.
Qed.

Lemma Lit_matches (s : string) (w : list ascii) :
  Matches (Lit s) w -> w = list_ascii_of_string s.
Proof.
  revert w. induction s as [|c s IH]; intros w H; simpl in *.
  - now apply Matches_Eps_inv.
  - apply Matches_Cat_inv in H. destruct H as [u [v [-> [Hu Hv]]]].
    apply Matches_Chr_inv in Hu. subst u. simpl. f_equal. now apply IH.
Qed.

Lemma star_class_matches (p : ascii -> bool) (w : list ascii) :
  Matches (Star (Class p)) w -> forallb p w = true.
Proof.
  intros H. remember (Star (Class p)) as sr eqn:Esr.
  induction H as [| | | | | | |r' u v Hu _ Hv IHv]; try discriminate.
  - reflexivity.
  - injection Esr as ->. apply Matches_Class_inv in Hu.
    destruct Hu as [c [-> Hc]]. simpl.
    rewrite IHv by reflexivity. now rewrite Hc.
Qed.

Lemma plus_class_matches (p : ascii -> bool) (w : list ascii) :
  Matches (Plus (Class p)) w ->
  exists c w', w = c :: w' /\ forallb p (c :: w') = true.
Proof.
  intros H. apply Matches_Cat_inv in H. destruct H as [u [v [-> [Hu Hv]]]].
  apply Matches_Class_inv in Hu. destruct Hu as [c [-> Hc]].
  apply star_class_matches in Hv.
  exists c, v. split; [reflexivity|]. simpl. now rewrite Hc, Hv.
Qed.

End RegexFacts.

Lemma split_not_nil (c : ascii) (s : string) : split c s <> [].
Proof.
  destruct s as [|a s]; simpl; [discriminate|].
  destruct (Ascii.eqb a c); [discriminate|].
  destruct (split c s); discriminate.
Qed.

(** A separator after a run without separators ends the first segment. *)
Lemma split_segment (c : ascii) (u v : list ascii) :
  forallb (fun a => negb (Ascii.eqb a c)) u = true ->
  split c (string_of_list_ascii (u ++ c :: v))
  = string_of_list_ascii u :: split c (string_of_list_ascii v).
Proof.
  induction u as [|a u IH]; simpl; intros H.
  - now rewrite Ascii.eqb_refl.
  - apply andb_true_iff in H. destruct H as [Ha Hu].
    apply negb_true_iff in Ha. rewrite Ha, (IH Hu). reflexivity.
Qed.

Lemma service_char_not_dot (c : ascii) :
  service_char c = true -> negb (Ascii.eqb c ".") = true.
Proof.
  destruct (Ascii.eqb_spec c ".") as [->|_]; [discriminate|reflexivity].
Qed.

Lemma service_chars_no_dot (u : list ascii) :
  forallb service_char u = true ->
  forallb (fun a => negb (Ascii.eqb a ".")) u = true.
Proof.
  induction u as [|a u IH]; simpl; [reflexivity|].
  intros H. apply andb_true_iff in H. destruct H as [Ha Hu].
  now rewrite (service_char_not_dot _ Ha), (IH Hu).
Qed.

(** The shape of a content type the pattern accepts: the fixed prefix, the
    first group, a dot, and a rest. *)
Lemma content_regex_shape (ct : string) :
  content_regex_search ct = true ->
  exists (g1 rest : list ascii),
    g1 <> [] /\ forallb service_char g1 = true
    /\ list_ascii_of_string ct
       = list_ascii_of_string "application/vnd.redhat." ++ g1 ++ "."%char :: rest.
Proof.
  unfold content_regex_search, Regex.search_anchored, content_regex.
  intros H. apply fullmatch_spec in H.
  apply Matches_Cat_inv in H. destruct H as [u [nl [E [H _]]]].
  apply Matches_Cat_inv in H. destruct H as [p [u1 [-> [Hp H]]]].
  apply Lit_matches in Hp. subst p.
  apply Matches_Cat_inv in H. destruct H as [g1 [u2 [-> [Hg1 H]]]].
  apply plus_class_matches in Hg1. destruct Hg1 as [c [g1' [-> Hg1]]].
  apply Matches_Cat_inv in H. destruct H as [d [u3 [-> [Hd _]]]].
  apply Matches_Chr_inv in Hd. subst d.
  exists (c :: g1'), (u3 ++ nl). split; [discriminate|]. split; [exact Hg1|].
  rewrite E. rewrite <- !app_assoc. reflexivity.
Qed.

Lemma accepted_content_type_split (ct : string) :
  content_regex_search ct = true ->
  exists (svc : string) (segments : list string),
    svc <> EmptyString
    /\ split "." ct = "application/vnd"%string :: "redhat"%string :: svc :: segments
    /\ segments <> [].
Proof.
  intros H. apply content_regex_shape in H.
  destruct H as [g1 [rest [Hne [Hcls E]]]].
  exists (string_of_list_ascii g1), (split "." (string_of_list_ascii rest)).
  split; [|split].
  - destruct g1; [now elim Hne|discriminate].
  - rewrite <- (string_of_list_ascii_of_string ct), E.
    change (list_ascii_of_string "application/vnd.redhat.")
      with (list_ascii_of_string "application/vnd"
            ++ "."%char :: list_ascii_of_string "redhat" ++ "."%char :: []).
    rewrite <- app_assoc, <- app_comm_cons.
    rewrite split_segment by reflexivity.
    rewrite <- app_assoc, <- app_comm_cons, app_nil_l.
    rewrite split_segment by reflexivity.
    rewrite split_segment by now apply service_chars_no_dot.
    reflexivity.
  - apply split_not_nil.
Qed.

(** C10: a content type accepted by [content_regex] has at least three dot
    delimited segments, so [split_content], which takes the third one,
    returns a service name and does not raise. *)
Theorem accepted_content_type_has_service (ct : string) :
  content_regex_search ct = true ->
  3 <= length (split "." ct) /\ exists svc, split_content ct = Ok svc.
Proof.
  intros H. apply accepted_content_type_split in H.
  destruct H as [svc [segments [_ [E _]]]].
  unfold split_content. rewrite E. simpl. split; [lia|now exists svc].
Qed.

Lemma accepted_content_type_has_service_witness :
  content_regex_search "application/vnd.redhat.demo.testsvc+tgz" = true
  /\ 3 <= length (split "." "application/vnd.redhat.demo.testsvc+tgz")
  /\ exists svc, split_content "application/vnd.redhat.demo.testsvc+tgz" = Ok svc.
Proof.
  split; [vm_compute; reflexivity|].
  apply (accepted_content_type_has_service "application/vnd.redhat.demo.testsvc+tgz").
  vm_compute; reflexivity.
Defined.

(** ** The validation handler *)

Ltac step_m :=
  unfold extern, extern_unit, queue_append, queue_appendleft, queue_popleft,
    log, sleep, emit, get_trace, get_queue, set_queue, set_mqc_connected,
    set_mqp_connected, set_tmpfiles, get_mqc_connected, get_mqp_connected,
    subscript, dot_get, dot_lower, contains, lift, header_subscript,
    int_of, first_upload, os_remove, write_data,
    try_except, bind, ret, raise;
  simpl.

Section HandlerFacts.
Variable env : Env.

(** A record that is not JSON is logged and skipped; the rest of the batch
    is handled. *)
Lemma handle_file_skips_undecodable (m : KafkaMsg) (rest : list KafkaMsg) (w : World) :
  json_loads env (value m) = None ->
  handle_file env (m :: rest) w
  = handle_file env rest
      (mk_world (produce_queue w) (mqc_connected w) (mqp_connected w) (tmpfiles w)
         (trace w ++ [Log ERROR "handle_file(): unable to decode msg as json: {}"])).
Proof.
  intros H. simpl. unfold handle_msg. rewrite H. step_m. reflexivity.
Qed.

(** A verdict without 'payload_id' and without 'hash' is logged, and
    [handle_file] returns: the records after it are not looked at. *)
Lemma handle_file_returns_without_id (m : KafkaMsg) (rest : list KafkaMsg)
  (kv : list (string * json)) (w : World) :
  json_loads env (value m) = Some (JObj kv) ->
  dict_get "payload_id" kv = None ->
  dict_get "hash" kv = None ->
  handle_file env (m :: rest) w
  = (Ok tt,
     mk_world (produce_queue w) (mqc_connected w) (mqp_connected w) (tmpfiles w)
       (trace w ++ [Log ERROR "payload_id or hash not in message. Payload not removed from quarantine."])).
Proof.
  intros H Hp Hh. simpl. unfold handle_msg. rewrite H. step_m.
  unfold dict_has. rewrite Hp, Hh. reflexivity.
Qed.

Ltac verdict_fields Hj Hid Hv :=
  unfold handle_msg; rewrite Hj; step_m; unfold dict_has;
  destruct Hid as [Hp|[Hp Hh]];
  [ rewrite Hp; simpl; rewrite Hv; simpl
  | rewrite Hp; simpl; rewrite Hh; simpl; rewrite Hv; simpl ].

(** A 'success' verdict whose copy raises: the exception leaves
    [handle_msg], and nothing is put on the queue. *)
Lemma handle_msg_success_copy_raises (m : KafkaMsg) (kv : list (string * json))
  (pid : json) (res : string) (e : exn) (w : World) :
  json_loads env (value m) = Some (JObj kv) ->
  (dict_get "payload_id" kv = Some pid
   \/ (dict_get "payload_id" kv = None /\ dict_get "hash" kv = Some pid)) ->
  dict_get "validation" kv = Some (JStr res) ->
  lower res = "success"%string ->
  storage_copy env (trace w ++ [Log INFO "processing message: %s - %s"])
    QUARANTINE PERM pid = Raise e ->
  handle_msg env m w
  = (Raise e,
     mk_world (produce_queue w) (mqc_connected w) (mqp_connected w) (tmpfiles w)
       (trace w ++ [Log INFO "processing message: %s - %s"]
                ++ [StorageCopy QUARANTINE PERM pid (Some e)])).
Proof.
  intros Hj Hid Hv Hs Hc.
  verdict_fields Hj Hid Hv; rewrite Hs; simpl; rewrite Hc; simpl;
    rewrite <- app_assoc; reflexivity.
Qed.


End HandlerFacts.



(** C6 at a failing input.  The batch holds a verdict without 'payload_id'
    and without 'hash', followed by a well formed 'success' verdict.
    [handle_file] logs the first and returns: the second verdict is not
    processed (no copy, no event), although alone, or after a record that
    is not JSON, it is. *)
Theorem handle_file_drops_rest_of_batch :
  handle_file Scenario.env_ok
    [mk_msg "verdict-no-id"; mk_msg "verdict-success"] initial_world
  = (Ok tt,
     mk_world [] false false []
       [Log ERROR "payload_id or hash not in message. Payload not removed from quarantine."])
  /\ handle_file Scenario.env_ok
       [mk_msg "not json"; mk_msg "verdict-success"] initial_world
     = (Ok tt,
        mk_world
          [mk_item "platform.upload.available"
             (JObj [("url"%string, JStr "http://perm/abc123");
                    ("payload_id"%string, JStr "abc123")])]
          false false []
          [Log ERROR "handle_file(): unable to decode msg as json: {}";
           Log INFO "processing message: %s - %s";
           StorageCopy QUARANTINE PERM (JStr "abc123") None;
           Log INFO "http://perm/abc123"]).
Proof.
  split; vm_compute; reflexivity.
Qed.

(** ** The consumer loop *)

(** An exception that is not a [KafkaError] and leaves an iteration ends the
    coroutine: no later iteration runs. *)
Lemma while_true_raises (fuel : nat) (body : M unit) (w w' : World) (e : exn) :
  body w = (Raise e, w') -> while_true (S fuel) body w = (Raise e, w').
Proof.
  intros H. simpl. unfold bind. now rewrite H.
Qed.

(** C2 at a failing input.  The consumer is handed a batch of two 'success'
    verdicts and the storage driver fails the copy of the first.  The
    exception is not a [KafkaError]: it leaves [handle_file] and [consumer],
    whatever the number of iterations allowed.  Nothing is logged about it,
    the second verdict is not processed, and the loop does not poll again. *)
Theorem consumer_ends_when_copy_raises :
  forall fuel : nat,
    consumer (Scenario.env_with [mk_msg "verdict-success"; mk_msg "verdict-second"]
                Scenario.send_ok Scenario.copy_fails Scenario.write_ok)
             (S fuel) initial_world
    = (Raise (OtherError "ClientError"),
       mk_world [] true false []
         [Log INFO "Consume client not connected, attempting to connect...";
          MqcStart None;
          Log INFO "Consumer client connected!";
          MqcGetMany None;
          Log INFO "processing message: %s - %s";
          StorageCopy QUARANTINE PERM (JStr "abc123")
                      (Some (OtherError "ClientError"))]).
Proof.
  intros fuel. unfold consumer, bind at 1. simpl set_mqc_connected.
  apply while_true_raises. vm_compute. reflexivity.
Qed.

(** ** The producer loop *)

Section ProducerFacts.
Variable env : Env.

Lemma arrived_nothing (tr : list event) (q : list item) :
  arrivals env tr = [] -> arrived env tr q = q.
Proof. intros H. unfold arrived. rewrite H. reflexivity. Qed.

(** One round of the [for] loop whose send is acknowledged: the event at the
    front leaves the buffer, which has taken what arrived during the send. *)
Lemma produce_one_sent (it : item) (q : list item) (w : World) :
  produce_queue w = it :: q ->
  mqp_send_and_wait env
    (trace w ++ [Log INFO "Popped item from produce queue (qsize: %d): topic %s: %s"])
    (topic it) (msg it) = None ->
  produce_one env w
  = (Ok tt,
     mk_world
       (arrived env
          (trace w ++ [Log INFO "Popped item from produce queue (qsize: %d): topic %s: %s"])
          q)
       (mqc_connected w) (mqp_connected w) (tmpfiles w)
       (trace w
        ++ [Log INFO "Popped item from produce queue (qsize: %d): topic %s: %s";
            MqpSend (topic it) (msg it) None;
            Log INFO "Produced on topic %s: %s"])).
Proof.
  intros Hq Hsend. unfold produce_one, send_and_wait. step_m.
  rewrite Hq. simpl. rewrite Hsend. simpl. repeat rewrite <- app_assoc.
  reflexivity.
Qed.

(** One round of the [for] loop whose send raises [KafkaError]: the producer
    is marked disconnected and the event is put back at the front of the
    buffer, behind which is what arrived during the send.  The round ends
    normally, so the [for] loop goes on. *)
Lemma produce_one_on_error (it : item) (q : list item) (w : World) :
  produce_queue w = it :: q ->
  mqp_send_and_wait env
    (trace w ++ [Log INFO "Popped item from produce queue (qsize: %d): topic %s: %s"])
    (topic it) (msg it) = Some KafkaError ->
  produce_one env w
  = (Ok tt,
     mk_world
       (Deque.appendleft produce_queue_maxlen
          (arrived env
             (trace w ++ [Log INFO "Popped item from produce queue (qsize: %d): topic %s: %s"])
             q)
          it)
       (mqc_connected w) false (tmpfiles w)
       (trace w
        ++ [Log INFO "Popped item from produce queue (qsize: %d): topic %s: %s";
            MqpSend (topic it) (msg it) (Some KafkaError);
            Log ERROR "Producer client hit error, triggering re-connect..."])).
Proof.
  intros Hq Hsend. unfold produce_one, send_and_wait. step_m.
  rewrite Hq. simpl. rewrite Hsend. simpl. repeat rewrite <- app_assoc.
  reflexivity.
Qed.

End ProducerFacts.

(** The run of the theorem below, one pass further: only now, the batch
    being over, does the producer connect again; it then sends event 3. *)
Lemma producer_reconnects_after_batch :
  producer (Scenario.env_with [] Scenario.send_fails_once Scenario.copy_ok
              Scenario.write_ok)
           2 (mk_world Scenario.three_events false false [] [])
  = (Ok tt,
     mk_world [] false true []
       [Log INFO "Producer client not connected, attempting to connect...";
        MqpStart None;
        Log INFO "Producer client connected!";
        Log INFO "Popped item from produce queue (qsize: %d): topic %s: %s";
        MqpSend (topic (Scenario.numbered 1)) (msg (Scenario.numbered 1))
                (Some KafkaError);
        Log ERROR "Producer client hit error, triggering re-connect...";
        Log INFO "Popped item from produce queue (qsize: %d): topic %s: %s";
        MqpSend (topic (Scenario.numbered 1)) (msg (Scenario.numbered 1)) None;
        Log INFO "Produced on topic %s: %s";
        Log INFO "Popped item from produce queue (qsize: %d): topic %s: %s";
        MqpSend (topic (Scenario.numbered 2)) (msg (Scenario.numbered 2)) None;
        Log INFO "Produced on topic %s: %s";
        Log INFO "Producer client not connected, attempting to connect...";
        MqpStart None;
        Log INFO "Producer client connected!";
        Log INFO "Popped item from produce queue (qsize: %d): topic %s: %s";
        MqpSend (topic (Scenario.numbered 3)) (msg (Scenario.numbered 3)) None;
        Log INFO "Produced on topic %s: %s"]).
Proof.
  vm_compute. reflexivity.
Qed.

(** C1 at a failing input.  Three events wait in the buffer; the broker fails
    the first [send_and_wait] and acknowledges the later ones.  In one pass
    of the loop the producer connects, fails to send event 1, marks itself
    disconnected and puts event 1 back at the front; the [for] loop then
    goes on: event 1 and event 2 are sent while [mqp_connected] is false and
    before any new [mqp.start()]. *)
Theorem producer_sends_on_after_error :
  producer (Scenario.env_with [] Scenario.send_fails_once Scenario.copy_ok
              Scenario.write_ok)
           1 (mk_world Scenario.three_events false false [] [])
  = (Ok tt,
     mk_world [Scenario.numbered 3] false false []
       [Log INFO "Producer client not connected, attempting to connect...";
        MqpStart None;
        Log INFO "Producer client connected!";
        Log INFO "Popped item from produce queue (qsize: %d): topic %s: %s";
        MqpSend (topic (Scenario.numbered 1)) (msg (Scenario.numbered 1))
                (Some KafkaError);
        Log ERROR "Producer client hit error, triggering re-connect...";
        Log INFO "Popped item from produce queue (qsize: %d): topic %s: %s";
        MqpSend (topic (Scenario.numbered 1)) (msg (Scenario.numbered 1)) None;
        Log INFO "Produced on topic %s: %s";
        Log INFO "Popped item from produce queue (qsize: %d): topic %s: %s";
        MqpSend (topic (Scenario.numbered 2)) (msg (Scenario.numbered 2)) None;
        Log INFO "Produced on topic %s: %s"]).
Proof.
  vm_compute. reflexivity.
Qed.

(** ** The upload handler *)

Section UploadFacts.
Variable env : Env.

Lemma world_eta (w : World) :
  mk_world (produce_queue w) (mqc_connected w) (mqp_connected w) (tmpfiles w)
           (trace w) = w.
Proof. now destruct w. Qed.

(** The polling loop only sleeps, and reports whether some poll saw the
    write complete. *)
Lemma poll_spec (callback : nat -> Z) (n : nat) :
  forall (count : nat) (w : World),
  exists k : nat,
    poll n count callback w
    = (Ok (existsb (fun i => (callback i >=? 100)%Z) (seq count n)),
       mk_world (produce_queue w) (mqc_connected w) (mqp_connected w)
         (tmpfiles w) (trace w ++ repeat (Sleep (Millis 10)) k)).
Proof.
  induction n as [|n IH]; intros count w.
  - exists 0. simpl. rewrite app_nil_r, world_eta. reflexivity.
  - simpl. destruct (callback count >=? 100)%Z.
    + exists 0. simpl. rewrite app_nil_r, world_eta. reflexivity.
    + step_m.
      destruct (IH (S count)
                  (mk_world (produce_queue w) (mqc_connected w) (mqp_connected w)
                     (tmpfiles w) (trace w ++ [Sleep (Millis 10)]))) as [k Hk].
      exists (S k). rewrite Hk. simpl. rewrite <- app_assoc. reflexivity.
Qed.

Lemma repeat_sleep_no_write (k : nat) :
  forallb (fun ev => negb (is_write ev)) (repeat (Sleep (Millis 10)) k) = true.
Proof. induction k; simpl; auto. Qed.

Lemma removed_not_in (name : string) (fs : list string) :
  ~ In name (filter (fun f => negb (String.eqb name f)) fs).
Proof.
  intros H. apply filter_In in H. destruct H as [_ H].
  now rewrite String.eqb_refl in H.
Qed.

Lemma existsb_eqb_in (name : string) (fs : list string) :
  In name fs -> existsb (String.eqb name) fs = true.
Proof.
  intros H. apply existsb_exists. exists name. split; [exact H|apply String.eqb_refl].
Qed.

(** [upload] on a file that is on disk: one write is attempted, the file is
    removed after it whatever the outcome, and the url is returned exactly
    when the write returned and completed within the polls. *)
Lemma upload_spec (name tracking payload : string) (w : World) :
  In name (tmpfiles w) ->
  let answer :=
    storage_write env
      (trace w ++ [Log INFO "tracking id [%s] payload_id [%s] attempting upload"])
      name QUARANTINE payload in
  exists (mid : list event) (last : event),
    upload env name tracking payload w
    = (Ok (written_in_time (STORAGE_UPLOAD_TIMEOUT env) answer),
       mk_world (produce_queue w) (mqc_connected w) (mqp_connected w)
         (filter (fun f => negb (String.eqb name f)) (tmpfiles w))
         (trace w
          ++ [Log INFO "tracking id [%s] payload_id [%s] attempting upload";
              StorageWrite name QUARANTINE payload (raised_by answer)]
          ++ mid ++ [OsRemove name; last]))
    /\ forallb (fun ev => negb (is_write ev)) mid = true
    /\ is_write last = false.
Proof.
  intros Hin answer. subst answer. unfold upload. step_m.
  destruct (storage_write env _ name QUARANTINE payload) as [[url callback]|e];
    simpl.
  - match goal with
    | |- context [poll ?n 0 callback ?w0] =>
        destruct (poll_spec callback n 0 w0) as [k Hk]; rewrite Hk
    end.
    simpl. rewrite (existsb_eqb_in _ _ Hin). unfold completed.
    destruct (existsb _ (seq 0 _)); simpl.
    + exists (repeat (Sleep (Millis 10)) k),
        (Log INFO "tracking id [%s] payload_id [%s] uploaded! elapsed [%fsec] url [%s]").
      split; [|split; [apply repeat_sleep_no_write|reflexivity]].
      repeat rewrite <- app_assoc. reflexivity.
    + exists (repeat (Sleep (Millis 10)) k),
        (Log ERROR "upload id: %s upload failed or timed out after %dsec!").
      split; [|split; [apply repeat_sleep_no_write|reflexivity]].
      repeat rewrite <- app_assoc. reflexivity.
  - rewrite (existsb_eqb_in _ _ Hin). simpl.
    exists [Log ERROR "Exception hit uploading: tracking id [%s] payload_id [%s]"],
      (Log ERROR "upload id: %s upload failed or timed out after %dsec!").
    split; [|split; reflexivity].
    repeat rewrite <- app_assoc. reflexivity.
Qed.

(** [upload_values] reads its argument only. *)
Lemma upload_values_any_world (u : Upload) (w w1 : World) :
  upload_values u w1 = (fst (upload_values u w), w1).
Proof.
  unfold upload_values. step_m.
  destruct (truthy (identity u)); [|reflexivity].
  destruct (identity u) as [| | | | |kv]; try reflexivity.
  destruct (dict_get "account_number" kv); [|reflexivity].
  destruct (dict_get "org_id" kv); reflexivity.
Qed.

(** What [upload_values] puts in the dictionary. *)
Lemma upload_values_fields (u : Upload) (vals : list (string * json)) (w : World) :
  upload_values u w = (Ok vals, w) ->
  dict_get "payload_id" vals = Some (JStr (payload_id u))
  /\ dict_get "hash" vals = Some (JStr (payload_id u))
  /\ dict_get "url" vals = None
  /\ (truthy (identity u) = true ->
      forall kv, identity u = JObj kv ->
        dict_get "rh_account" vals = dict_get "account_number" kv
        /\ dict_get "principal" vals = dict_get "org_id" kv)
  /\ (truthy (identity u) = false ->
      dict_get "rh_account" vals = Some DUMMY_rh_account
      /\ dict_get "principal" vals = Some DUMMY_principal).
Proof.
  unfold upload_values. step_m.
  destruct (truthy (identity u)) eqn:Ht.
  - destruct (identity u) as [| | | | |kv]; try discriminate.
    destruct (dict_get "account_number" kv) as [a|] eqn:Ha; [|discriminate].
    destruct (dict_get "org_id" kv) as [o|] eqn:Ho; [|discriminate].
    intros H. injection H as <-. simpl.
    split; [reflexivity|]. split; [reflexivity|]. split; [reflexivity|].
    split; [|discriminate].
    intros _ kv' E. injection E as <-. now rewrite Ha, Ho.
  - intros H. injection H as <-. simpl.
    split; [reflexivity|]. split; [reflexivity|]. split; [reflexivity|].
    split; [discriminate|]. intros _. now split.
Qed.

Lemma dict_get_set_same (k : string) (v : json) (kv : list (string * json)) :
  dict_get k (dict_set k v kv) = Some v.
Proof.
  induction kv as [|[k' v'] kv IH]; simpl.
  - now rewrite String.eqb_refl.
  - destruct (String.eqb k' k) eqn:E; simpl.
    + now rewrite String.eqb_refl.
    + now rewrite E.
Qed.

Lemma dict_get_set_other (k k0 : string) (v : json) (kv : list (string * json)) :
  k0 <> k -> dict_get k0 (dict_set k v kv) = dict_get k0 kv.
Proof.
  intros Hne. induction kv as [|[k' v'] kv IH]; simpl.
  - apply String.eqb_neq in Hne. rewrite String.eqb_sym. now rewrite Hne.
  - destruct (String.eqb k' k) eqn:E; simpl.
    + apply String.eqb_eq in E. subst k'.
      apply String.eqb_neq in Hne. rewrite String.eqb_sym. now rewrite Hne.
    + now rewrite IH.
Qed.

(** [process_upload] on a file that is on disk, for an identity that
    decodes: what it returns, what it leaves on disk, on the trace and on
    the queue. *)
Lemma process_upload_spec (u : Upload) (vals : list (string * json)) (w : World) :
  In (filename u) (tmpfiles w) ->
  upload_values u w = (Ok vals, w) ->
  let answer :=
    storage_write env
      (trace w ++ [Log INFO "identity - %s";
                   Log INFO "tracking id [%s] payload_id [%s] attempting upload"])
      (filename u) QUARANTINE (payload_id u) in
  exists (w' : World) (before mid after : list event),
    process_upload env u w = (Ok tt, w')
    /\ ~ In (filename u) (tmpfiles w')
    /\ trace w'
       = trace w ++ before
         ++ [StorageWrite (filename u) QUARANTINE (payload_id u) (raised_by answer)]
         ++ mid ++ [OsRemove (filename u)] ++ after
    /\ forallb (fun ev => negb (is_write ev)) (before ++ mid ++ after) = true
    /\ produce_queue w'
       = match written_in_time (STORAGE_UPLOAD_TIMEOUT env) answer with
         | Some url =>
             if truthy (JStr url) then
               Deque.append produce_queue_maxlen (produce_queue w)
                 (mk_item ("platform.upload." ++ service u)
                          (JObj (dict_set "url" (JStr url) vals)))
             else produce_queue w
         | None => produce_queue w
         end.
Proof.
  intros Hin Hvals answer.
  set (w1 := mk_world (produce_queue w) (mqc_connected w) (mqp_connected w)
               (tmpfiles w) (trace w ++ [Log INFO "identity - %s"])).
  assert (Hin1 : In (filename u) (tmpfiles w1)) by exact Hin.
  destruct (upload_spec (filename u) (tracking_id u) (payload_id u) w1 Hin1)
    as [mid [last [Hup [Hmid Hlast]]]].
  assert (Etr : trace w1
                ++ [Log INFO "tracking id [%s] payload_id [%s] attempting upload"]
                = trace w ++ [Log INFO "identity - %s";
                   Log INFO "tracking id [%s] payload_id [%s] attempting upload"]).
  { unfold w1. simpl. now rewrite <- app_assoc. }
  rewrite Etr in Hup. fold answer in Hup.
  assert (Hrun : process_upload env u w
             = (url <- upload env (filename u) (tracking_id u) (payload_id u) ;;
                match url with
                | Some url' =>
                    if truthy (JStr url') then
                      let values := dict_set "url" (JStr url') vals in
                      queue_append (mk_item ("platform.upload." ++ service u)
                                            (JObj values)) ;;
                      log INFO "Data for payload_id [%s] put on produce queue (qsize: %d)" ;;
                      emit (Influx (JObj values))
                    else ret tt
                | None => ret tt
                end)%py w1).
  { unfold process_upload. unfold bind at 1. unfold log at 1, emit at 1.
    fold w1. unfold bind at 1.
    rewrite (upload_values_any_world u w w1), Hvals. reflexivity. }
  rewrite Hrun. unfold bind at 1. rewrite Hup.
  destruct (written_in_time (STORAGE_UPLOAD_TIMEOUT env) answer) as [url|].
  - destruct (truthy (JStr url)) eqn:Hurl.
    + eexists. exists [Log INFO "identity - %s";
                Log INFO "tracking id [%s] payload_id [%s] attempting upload"],
        mid,
        [last; Log INFO "Data for payload_id [%s] put on produce queue (qsize: %d)";
         Influx (JObj (dict_set "url" (JStr url) vals))].
      step_m. split; [reflexivity|]. simpl.
      split; [apply removed_not_in|].
      split; [unfold w1; simpl; repeat (rewrite <- app_assoc; simpl); reflexivity|].
      split; [|reflexivity].
      rewrite forallb_app. simpl. rewrite Hmid, Hlast. reflexivity.
    + eexists. exists [Log INFO "identity - %s";
                Log INFO "tracking id [%s] payload_id [%s] attempting upload"],
        mid, [last].
      step_m. split; [reflexivity|]. simpl.
      split; [apply removed_not_in|].
      split; [unfold w1; simpl; repeat (rewrite <- app_assoc; simpl); reflexivity|].
      split; [|reflexivity].
      rewrite forallb_app. simpl. rewrite Hmid, Hlast. reflexivity.
  - eexists. exists [Log INFO "identity - %s";
              Log INFO "tracking id [%s] payload_id [%s] attempting upload"],
      mid, [last].
    step_m. split; [reflexivity|]. simpl.
    split; [apply removed_not_in|].
    split; [unfold w1; simpl; repeat (rewrite <- app_assoc; simpl); reflexivity|].
    split; [|reflexivity].
    rewrite forallb_app. simpl. rewrite Hmid, Hlast. reflexivity.
Qed.

(** An identity that is absent (or empty), or that holds an account number
    and an organisation, gives the dictionary without an exception. *)
Lemma upload_values_ok (u : Upload) (w : World) :
  truthy (identity u) = false
  \/ (exists kv a o, identity u = JObj kv
                     /\ dict_get "account_number" kv = Some a
                     /\ dict_get "org_id" kv = Some o) ->
  exists vals, upload_values u w = (Ok vals, w).
Proof.
  intros [Ht|[kv [a [o [E [Ha Ho]]]]]]; unfold upload_values; step_m.
  - rewrite Ht. eauto.
  - rewrite E. destruct (truthy (JObj kv)); [|eauto].
    rewrite Ha, Ho. eauto.
Qed.

(** An identity that does not decode (not a dictionary, or without the
    account number or the organisation) ends [process_upload] before the
    write is attempted. *)
Lemma process_upload_identity_raises (u : Upload) (e : exn) (w : World) :
  fst (upload_values u w) = Raise e ->
  process_upload env u w
  = (Raise e,
     mk_world (produce_queue w) (mqc_connected w) (mqp_connected w) (tmpfiles w)
       (trace w ++ [Log INFO "identity - %s"])).
Proof.
  intros H. unfold process_upload. unfold bind at 1. unfold log at 1, emit at 1.
  unfold bind at 1. rewrite (upload_values_any_world u w), H. reflexivity.
Qed.

(** C8: for an upload handed to [process_upload] whose file is on disk and
    whose identity decodes, one storage write is attempted and not repeated;
    whatever its outcome (it returned and completed, it raised, or none of
    the [STORAGE_UPLOAD_TIMEOUT * 10] polls saw it complete) the temporary
    file is removed after it; and the event is appended to the queue only
    when the write returned and completed within the polls, the queue being
    left as it is otherwise. *)
Theorem upload_removes_tmpfile_and_gates_event :
  forall (u : Upload) (vals : list (string * json)) (w : World),
    In (filename u) (tmpfiles w) ->
    upload_values u w = (Ok vals, w) ->
    let answer :=
      storage_write env
        (trace w ++ [Log INFO "identity - %s";
                     Log INFO "tracking id [%s] payload_id [%s] attempting upload"])
        (filename u) QUARANTINE (payload_id u) in
    exists (w' : World) (before mid after : list event),
      process_upload env u w = (Ok tt, w')
      /\ ~ In (filename u) (tmpfiles w')
      /\ trace w'
         = trace w ++ before
           ++ [StorageWrite (filename u) QUARANTINE (payload_id u) (raised_by answer)]
           ++ mid ++ [OsRemove (filename u)] ++ after
      /\ forallb (fun ev => negb (is_write ev)) (before ++ mid ++ after) = true
      /\ produce_queue w'
         = match written_in_time (STORAGE_UPLOAD_TIMEOUT env) answer with
           | Some url =>
               if truthy (JStr url) then
                 Deque.append produce_queue_maxlen (produce_queue w)
                   (mk_item ("platform.upload." ++ service u)
                            (JObj (dict_set "url" (JStr url) vals)))
               else produce_queue w
           | None => produce_queue w
           end.
Proof.
  intros u vals w Hin Hvals. exact (@process_upload_spec u vals w Hin Hvals).
Qed.

(** C9: an upload that is staged (its file is on disk, its identity is
    absent or holds an account number and an organisation, the storage write
    returns a url that is not empty and completes within the polls) appends
    exactly one event to the queue, for the topic of its service; in it
    'payload_id' is the identifier the caller gave, 'hash' is that same
    identifier, and 'rh_account' and 'principal' are the account number and
    the organisation of the identity when there is one, and the placeholder
    values otherwise. *)
Theorem staged_upload_enqueues_received_event :
  forall (u : Upload) (w : World) (url : string) (callback : nat -> Z),
    In (filename u) (tmpfiles w) ->
    (truthy (identity u) = false
     \/ (exists kv a o, identity u = JObj kv
                        /\ dict_get "account_number" kv = Some a
                        /\ dict_get "org_id" kv = Some o)) ->
    storage_write env
      (trace w ++ [Log INFO "identity - %s";
                   Log INFO "tracking id [%s] payload_id [%s] attempting upload"])
      (filename u) QUARANTINE (payload_id u) = Ok (url, callback) ->
    completed (STORAGE_UPLOAD_TIMEOUT env) callback = true ->
    url <> ""%string ->
    exists (w' : World) (vals : list (string * json)),
      process_upload env u w = (Ok tt, w')
      /\ produce_queue w'
         = Deque.append produce_queue_maxlen (produce_queue w)
             (mk_item ("platform.upload." ++ service u) (JObj vals))
      /\ dict_get "payload_id" vals = Some (JStr (payload_id u))
      /\ dict_get "hash" vals = Some (JStr (payload_id u))
      /\ dict_get "url" vals = Some (JStr url)
      /\ (truthy (identity u) = true ->
          forall kv, identity u = JObj kv ->
            dict_get "rh_account" vals = dict_get "account_number" kv
            /\ dict_get "principal" vals = dict_get "org_id" kv)
      /\ (truthy (identity u) = false ->
          dict_get "rh_account" vals = Some DUMMY_rh_account
          /\ dict_get "principal" vals = Some DUMMY_principal).
Proof.
  intros u w url callback Hin Hid Hw Hdone Hurl.
  destruct (@upload_values_ok u w Hid) as [vals0 Hvals].
  destruct (@process_upload_spec u vals0 w Hin Hvals)
    as [w' [before [mid [after [Hrun [_ [_ [_ Hq]]]]]]]].
  rewrite Hw in Hq. simpl in Hq. rewrite Hdone in Hq.
  apply String.eqb_neq in Hurl. rewrite Hurl in Hq. simpl in Hq.
  destruct (@upload_values_fields u vals0 w Hvals) as [Hp [Hh [_ [Hyes Hno]]]].
  exists w', (dict_set "url" (JStr url) vals0).
  split; [exact Hrun|]. split; [exact Hq|].
  split; [rewrite dict_get_set_other by discriminate; exact Hp|].
  split; [rewrite dict_get_set_other by discriminate; exact Hh|].
  split; [apply dict_get_set_same|].
  split.
  - intros Ht kv E. rewrite !dict_get_set_other by discriminate. now apply Hyes.
  - intros Ht. rewrite !dict_get_set_other by discriminate. now apply Hno.
Qed.

End UploadFacts.

(** ** Validation of a POST *)

Section PostFacts.
Variable env : Env.

Lemma filter_tmpfile_log (tr : list event) (lvl : level) (fmt : string) :
  filter is_tmpfile (tr ++ [Log lvl fmt]) = filter is_tmpfile tr.
Proof. rewrite filter_app. simpl. apply app_nil_r. Qed.

(** Every way [post] ends, by the checks in the order they are made: when
    the upload is not handed on, nothing was written to disk. *)
Lemma post_not_accepted_keeps_disk (req : Request) (w : World) :
  match fst (post env req w) with
  | Ok (resp, Some u) =>
      status resp = (202%Z, "Accepted"%string)
      /\ tmpfiles (snd (post env req w)) = filename u :: tmpfiles w
  | _ =>
      tmpfiles (snd (post env req w)) = tmpfiles w
      /\ filter is_tmpfile (trace (snd (post env req w)))
         = filter is_tmpfile (trace w)
  end.
Proof.
  unfold post, upload_validation. step_m.
  destruct (files_upload req) as [|f rest]; simpl.
  { split; [reflexivity|apply filter_tmpfile_log]. }
  destruct (x_rh_insights_request_id req) as [pid|]; simpl.
  2:{ split; [reflexivity|apply filter_tmpfile_log]. }
  destruct (Content_Length req) as [cl|]; simpl; [|now split].
  destruct (py_int env cl) as [n|]; simpl; [|now split].
  destruct (n >=? MAX_LENGTH env)%Z; simpl; [now split|].
  destruct (content_regex_search (content_type f)); simpl; [|now split].
  destruct (split_content (content_type f)) as [svc|e]; simpl; [|now split].
  destruct (x_rh_identity req) as [h|]; simpl; [|now split].
  destruct (negb (h =? "")%string); simpl; [|now split].
  destruct (b64decode env h) as [raw|]; simpl; [|now split].
  destruct (json_loads env raw) as [header|]; simpl.
  2:{ split; [reflexivity|apply filter_tmpfile_log]. }
  destruct header as [| | | | |kv]; simpl;
    try (split; [reflexivity|apply filter_tmpfile_log]).
  destruct (dict_get "identity" kv) as [ident|]; simpl; [now split|].
  split; [reflexivity|apply filter_tmpfile_log].
Qed.

(** C7: [post] validates before it stages, in this order.  Without the
    upload field the request is rejected (415).  Else, without the request
    id header it is rejected with 400, whatever its length and content type.
    Else, with a declared length at or above [MAX_LENGTH] it is rejected
    with 413, whatever its content type.  Else, with a content type that
    does not match [content_regex] it is rejected with 415.  And however
    [post] ends, unless it hands the upload on with 202 it has written no
    temporary file. *)
Theorem post_validation_order :
  forall (req : Request) (w : World),
    (files_upload req = [] ->
     fst (post env req w)
     = Ok (mk_response (415%Z, "Upload field not found"%string) [] "", None))
    /\ (files_upload req <> [] ->
        x_rh_insights_request_id req = None ->
        fst (post env req w)
        = Ok (mk_response (400%Z, "Bad Request"%string)
                [("Content-Type"%string, "text/plain"%string)]
                "No payload_id assigned. Upload Failed", None))
    /\ (forall (pid cl : string) (n : Z),
          files_upload req <> [] ->
          x_rh_insights_request_id req = Some pid ->
          Content_Length req = Some cl ->
          py_int env cl = Some n ->
          (n >= MAX_LENGTH env)%Z ->
          fst (post env req w)
          = Ok (mk_response
                  (413%Z, ("Payload too large: " ++ cl ++ ". Should not exceed "
                           ++ str_of_int (MAX_LENGTH env) ++ " bytes")%string)
                  [] "", None))
    /\ (forall (f : HTTPFile) (rest : list HTTPFile) (pid cl : string) (n : Z),
          files_upload req = f :: rest ->
          x_rh_insights_request_id req = Some pid ->
          Content_Length req = Some cl ->
          py_int env cl = Some n ->
          (n < MAX_LENGTH env)%Z ->
          content_regex_search (content_type f) = false ->
          fst (post env req w)
          = Ok (mk_response (415%Z, "Unsupported Media Type"%string) [] "", None))
    /\ match fst (post env req w) with
       | Ok (resp, Some u) =>
           status resp = (202%Z, "Accepted"%string)
           /\ tmpfiles (snd (post env req w)) = filename u :: tmpfiles w
       | _ =>
           tmpfiles (snd (post env req w)) = tmpfiles w
           /\ filter is_tmpfile (trace (snd (post env req w)))
              = filter is_tmpfile (trace w)
       end.
Proof.
  intros req w. split; [|split; [|split; [|split]]].
  - intros Hf. unfold post. rewrite Hf. reflexivity.
  - intros Hf Hid. unfold post. destruct (files_upload req); [now elim Hf|].
    rewrite Hid. reflexivity.
  - intros pid cl n Hf Hid Hcl Hn Hge. unfold post, upload_validation.
    destruct (files_upload req); [now elim Hf|].
    rewrite Hid, Hcl. step_m. rewrite Hn.
    assert (E : (n >=? MAX_LENGTH env)%Z = true)
      by (rewrite Z.geb_leb; apply Z.leb_le; lia).
    rewrite E. reflexivity.
  - intros f rest pid cl n Hf Hid Hcl Hn Hlt Hct. unfold post, upload_validation.
    step_m. rewrite Hf, Hid, Hcl. simpl. rewrite Hn.
    assert (E : (n >=? MAX_LENGTH env)%Z = false)
      by (rewrite Z.geb_leb; apply Z.leb_gt; lia).
    rewrite E. simpl. rewrite Hct. reflexivity.
  - apply post_not_accepted_keeps_disk.
Qed.

(** A request that passes every check is answered 202, its body is written
    to a temporary file, and the upload is handed on with the third segment
    of its content type as the service. *)
Lemma post_accepts (req : Request) (f : HTTPFile) (rest : list HTTPFile)
  (pid cl svc : string) (n : Z) (w : World) :
  files_upload req = f :: rest ->
  x_rh_insights_request_id req = Some pid ->
  Content_Length req = Some cl ->
  py_int env cl = Some n ->
  (n < MAX_LENGTH env)%Z ->
  content_regex_search (content_type f) = true ->
  split_content (content_type f) = Ok svc ->
  x_rh_identity req = None ->
  post env req w
  = (Ok (mk_response (202%Z, "Accepted"%string) [] "",
         Some (mk_upload (tmp_name env (trace w)) n
                 (match Tracking_ID req with Some t => t | None => "null"%string end)
                 pid JNull svc)),
     mk_world (produce_queue w) (mqc_connected w) (mqp_connected w)
       (tmp_name env (trace w) :: tmpfiles w)
       (trace w ++ [TmpFile (tmp_name env (trace w)) (body f)])).
Proof.
  intros Hf Hid Hcl Hn Hlt Hct Hsvc Hident. unfold post, upload_validation.
  step_m. rewrite Hf, Hid, Hcl, Hident. simpl. rewrite Hn.
  assert (E : (n >=? MAX_LENGTH env)%Z = false)
    by (rewrite Z.geb_leb; apply Z.leb_gt; lia).
  rewrite E. simpl. rewrite Hct. simpl. rewrite Hsvc. simpl. reflexivity.
Qed.

(** C4, amended, in general: an upload that passes the checks of [post]
    (here without an identity header) is answered 202; its content type
    splits at the dots into 'application/vnd', 'redhat', the service name
    and at least one more segment; and the one event its task appends to the
    queue, once the storage write has returned a url and completed, is for
    the topic 'platform.upload.' followed by that third segment and carries
    the request id as 'payload_id'. *)
Theorem accepted_upload_topic_is_third_segment :
  forall (req : Request) (f : HTTPFile) (rest : list HTTPFile)
         (pid cl : string) (n : Z) (w : World),
    files_upload req = f :: rest ->
    x_rh_insights_request_id req = Some pid ->
    Content_Length req = Some cl ->
    py_int env cl = Some n ->
    (n < MAX_LENGTH env)%Z ->
    content_regex_search (content_type f) = true ->
    x_rh_identity req = None ->
    let name := tmp_name env (trace w) in
    let answer :=
      storage_write env
        (trace w ++ [TmpFile name (body f);
                     Log INFO "identity - %s";
                     Log INFO "tracking id [%s] payload_id [%s] attempting upload"])
        name QUARANTINE pid in
    exists (svc : string) (segments : list string) (w' : World),
      split "." (content_type f)
      = "application/vnd"%string :: "redhat"%string :: svc :: segments
      /\ serve env req w = (Ok (mk_response (202%Z, "Accepted"%string) [] ""), w')
      /\ produce_queue w'
         = match written_in_time (STORAGE_UPLOAD_TIMEOUT env) answer with
           | Some url =>
               if truthy (JStr url) then
                 Deque.append produce_queue_maxlen (produce_queue w)
                   (mk_item ("platform.upload." ++ svc)
                      (JObj [("rh_account"%string, DUMMY_rh_account);
                             ("principal"%string, DUMMY_principal);
                             ("validation"%string, JNum 1);
                             ("payload_id"%string, JStr pid);
                             ("hash"%string, JStr pid);
                             ("size"%string, JNum n);
                             ("service"%string, JStr svc);
                             ("url"%string, JStr url)]))
               else produce_queue w
           | None => produce_queue w
           end.
Proof.
  intros req f rest pid cl n w Hf Hid Hcl Hn Hlt Hct Hident name answer.
  destruct (accepted_content_type_split _ Hct) as [svc [segments [_ [E _]]]].
  assert (Hsvc : split_content (content_type f) = Ok svc)
    by (unfold split_content; rewrite E; reflexivity).
  exists svc, segments.
  pose proof (@post_accepts req f rest pid cl svc n w Hf Hid Hcl Hn Hlt Hct Hsvc Hident)
    as Hpost.
  fold name in Hpost.
  set (u := mk_upload name n
              (match Tracking_ID req with Some t => t | None => "null"%string end)
              pid JNull svc) in *.
  set (w1 := mk_world (produce_queue w) (mqc_connected w) (mqp_connected w)
               (name :: tmpfiles w) (trace w ++ [TmpFile name (body f)])) in *.
  assert (Hin : In (filename u) (tmpfiles w1)) by (left; reflexivity).
  assert (Hvals : upload_values u w1
                  = (Ok [("rh_account"%string, DUMMY_rh_account);
                         ("principal"%string, DUMMY_principal);
                         ("validation"%string, JNum 1);
                         ("payload_id"%string, JStr pid);
                         ("hash"%string, JStr pid);
                         ("size"%string, JNum n);
                         ("service"%string, JStr svc)], w1)) by reflexivity.
  destruct (@process_upload_spec env u _ w1 Hin Hvals)
    as [w' [before [mid [after [Hrun [_ [_ [_ Hq]]]]]]]].
  exists w'. split; [exact E|]. split.
  - unfold serve. unfold bind at 1. rewrite Hpost. simpl snd. simpl fst.
    unfold bind at 1. unfold try_except. rewrite Hrun. reflexivity.
  - rewrite Hq. unfold w1, u. simpl. rewrite <- app_assoc. reflexivity.
Qed.

End PostFacts.

(** ** The scenario of the specification *)

(** C4, as stated, fails.  A POST with request id 'abc123', 100 bytes and
    the content type 'vnd.redhat.demo.testsvc+tgz' does not match
    [content_regex], which asks for the prefix 'application/': it is
    answered 415 and leaves no event.  With that prefix the request is
    accepted, and the event it leaves is for the topic
    'platform.upload.demo', not 'platform.upload.testsvc'. *)
Lemma scenario_content_type_is_rejected :
  serve Scenario.env_ok (Scenario.upload_request "vnd.redhat.demo.testsvc+tgz")
        initial_world
  = (Ok (mk_response (415%Z, "Unsupported Media Type"%string) [] ""), initial_world)
  /\ (exists w' : World,
        serve Scenario.env_ok
              (Scenario.upload_request "application/vnd.redhat.demo.testsvc+tgz")
              initial_world
        = (Ok (mk_response (202%Z, "Accepted"%string) [] ""), w')
        /\ produce_queue w'
           = [Scenario.received_event DUMMY_rh_account DUMMY_principal])
  /\ topic (Scenario.received_event DUMMY_rh_account DUMMY_principal)
     <> "platform.upload.testsvc"%string.
Proof.
  split; [vm_compute; reflexivity|]. split.
  - eexists. split; vm_compute; reflexivity.
  - discriminate.
Qed.

Lemma accepted_upload_topic_is_third_segment_witness :
  exists (svc : string) (segments : list string) (w' : World),
    split "." "application/vnd.redhat.demo.testsvc+tgz"
    = "application/vnd"%string :: "redhat"%string :: svc :: segments
    /\ serve Scenario.env_ok
             (Scenario.upload_request "application/vnd.redhat.demo.testsvc+tgz")
             initial_world
       = (Ok (mk_response (202%Z, "Accepted"%string) [] ""), w')
    /\ produce_queue w'
       = [mk_item ("platform.upload." ++ svc)
            (JObj [("rh_account"%string, DUMMY_rh_account);
                   ("principal"%string, DUMMY_principal);
                   ("validation"%string, JNum 1);
                   ("payload_id"%string, JStr "abc123");
                   ("hash"%string, JStr "abc123");
                   ("size"%string, JNum 100);
                   ("service"%string, JStr svc);
                   ("url"%string, JStr "http://quarantine/abc123")])].
Proof.
  exact (@accepted_upload_topic_is_third_segment Scenario.env_ok
           (Scenario.upload_request "application/vnd.redhat.demo.testsvc+tgz")
           (mk_file "application/vnd.redhat.demo.testsvc+tgz" "BODY") []
           "abc123" "100" 100%Z initial_world
           eq_refl eq_refl eq_refl eq_refl eq_refl eq_refl eq_refl).
Defined.

Lemma post_validation_order_witness :
  fst (post Scenario.env_ok Scenario.request_without_file initial_world)
  = Ok (mk_response (415%Z, "Upload field not found"%string) [] "", None)
  /\ fst (post Scenario.env_ok (Scenario.request_without_id "text/plain")
            initial_world)
     = Ok (mk_response (400%Z, "Bad Request"%string)
             [("Content-Type"%string, "text/plain"%string)]
             "No payload_id assigned. Upload Failed", None)
  /\ fst (post Scenario.env_ok (Scenario.request_too_large "text/plain")
            initial_world)
     = Ok (mk_response
             (413%Z, "Payload too large: 11010048. Should not exceed 11010048 bytes"%string)
             [] "", None)
  /\ fst (post Scenario.env_ok (Scenario.upload_request "text/plain") initial_world)
     = Ok (mk_response (415%Z, "Unsupported Media Type"%string) [] "", None).
Proof.
  split; [|split; [|split]].
  - destruct (@post_validation_order Scenario.env_ok
                Scenario.request_without_file initial_world) as [H _].
    exact (H eq_refl).
  - destruct (@post_validation_order Scenario.env_ok
                (Scenario.request_without_id "text/plain") initial_world)
      as [_ [H _]].
    apply H; [discriminate|reflexivity].
  - destruct (@post_validation_order Scenario.env_ok
                (Scenario.request_too_large "text/plain") initial_world)
      as [_ [_ [H _]]].
    apply (H "abc123"%string "11010048"%string 11010048%Z);
      [discriminate|reflexivity|reflexivity|reflexivity|simpl; lia].
  - destruct (@post_validation_order Scenario.env_ok
                (Scenario.upload_request "text/plain") initial_world)
      as [_ [_ [_ [H _]]]].
    apply (H (mk_file "text/plain" "BODY") [] "abc123"%string "100"%string 100%Z);
      [reflexivity|reflexivity|reflexivity|reflexivity|simpl; lia
      |vm_compute; reflexivity].
Defined.

Lemma upload_removes_tmpfile_and_gates_event_witness :
  exists w' : World,
    process_upload
      (Scenario.env_with [] Scenario.send_ok Scenario.copy_ok
         (fun _ _ _ _ => Raise OSError))
      (Scenario.staged_upload JNull) Scenario.staged_world
    = (Ok tt, w')
    /\ ~ In "/tmp/tmpabc"%string (tmpfiles w')
    /\ produce_queue w' = [].
Proof.
  destruct (@upload_removes_tmpfile_and_gates_event
              (Scenario.env_with [] Scenario.send_ok Scenario.copy_ok
                 (fun _ _ _ _ => Raise OSError))
              (Scenario.staged_upload JNull)
              [("rh_account"%string, DUMMY_rh_account);
               ("principal"%string, DUMMY_principal);
               ("validation"%string, JNum 1);
               ("payload_id"%string, JStr "abc123");
               ("hash"%string, JStr "abc123");
               ("size"%string, JNum 100);
               ("service"%string, JStr "demo")]
              Scenario.staged_world
              (or_introl eq_refl) eq_refl)
    as [w' [before [mid [after [Hrun [Hgone [_ [_ Hq]]]]]]]].
  exists w'. split; [exact Hrun|]. split; [exact Hgone|exact Hq].
Defined.

Lemma staged_upload_enqueues_received_event_witness :
  exists (w' : World) (vals : list (string * json)),
    process_upload Scenario.env_ok
      (Scenario.staged_upload Scenario.caller_identity) Scenario.staged_world
    = (Ok tt, w')
    /\ produce_queue w' = [mk_item "platform.upload.demo" (JObj vals)]
    /\ dict_get "payload_id" vals = Some (JStr "abc123")
    /\ dict_get "hash" vals = Some (JStr "abc123")
    /\ dict_get "rh_account" vals = Some (JStr "540155")
    /\ dict_get "principal" vals = Some (JStr "1979710").
Proof.
  destruct (@staged_upload_enqueues_received_event Scenario.env_ok
              (Scenario.staged_upload Scenario.caller_identity)
              Scenario.staged_world
              "http://quarantine/abc123" Scenario.done_at_fourth_poll
              (or_introl eq_refl)
              (or_intror
                 (ex_intro _ _
                    (ex_intro _ (JStr "540155")
                       (ex_intro _ (JStr "1979710")
                          (conj eq_refl (conj eq_refl eq_refl))))))
              eq_refl eq_refl)
    as [w' [vals [Hrun [Hq [Hp [Hh [_ [Hyes _]]]]]]]].
  - discriminate.
  - exists w', vals.
    destruct (Hyes eq_refl _ eq_refl) as [Ha Ho].
    split; [exact Hrun|]. split; [exact Hq|].
    split; [exact Hp|]. split; [exact Hh|]. split; [exact Ha|exact Ho].
Defined.

(** * Further properties of the code *)

(** ** The buffer under a burst, and the event put back *)

Section BurstFacts.
Context {A : Type}.
Variable maxlen : nat.

Lemma append_as_skipn (q : list A) (x : A) :
  length q <= maxlen ->
  Deque.append maxlen q x = skipn (length (q ++ [x]) - maxlen) (q ++ [x]).
Proof.
  intros H. unfold Deque.append.
  destruct (Nat.ltb_spec maxlen (length (q ++ [x]))) as [Hlt|Hge].
  - rewrite length_app in *. simpl in *.
    replace (length q + 1 - maxlen) with 1 by lia.
    destruct (q ++ [x]); reflexivity.
  - replace (length (q ++ [x]) - maxlen) with 0 by lia. reflexivity.
Qed.

(** Appending a burst to a buffer within its bound leaves the last
    [maxlen] of the events it held and the events of the burst. *)
Lemma burst_as_skipn (l : list A) :
  forall q : list A,
    length q <= maxlen ->
    Deque.run maxlen (map (@Deque.Enqueue A) l) q
    = skipn (length (q ++ l) - maxlen) (q ++ l).
Proof.
  induction l as [|x l IH]; intros q H.
  - simpl. rewrite app_nil_r. replace (length q - maxlen) with 0 by lia.
    reflexivity.
  - change (Deque.run maxlen (map (@Deque.Enqueue A) (x :: l)) q)
      with (Deque.run maxlen (map (@Deque.Enqueue A) l) (Deque.append maxlen q x)).
    rewrite IH by now apply append_length.
    rewrite (@append_as_skipn q x H).
    set (k := length (q ++ [x]) - maxlen).
    assert (Hk : k <= length (q ++ [x])) by (unfold k; lia).
    assert (E : skipn k (q ++ [x]) ++ l = skipn k ((q ++ [x]) ++ l)).
    { rewrite (@skipn_app _ k (q ++ [x]) l).
      replace (k - length (q ++ [x])) with 0 by lia. reflexivity. }
    rewrite E, skipn_skipn. rewrite <- app_assoc. simpl.
    f_equal. rewrite length_skipn. unfold k.
    rewrite !length_app. simpl. lia.
Qed.

Lemma removelast_as_firstn (q : list A) :
  removelast q = firstn (length q - 1) q.
Proof.
  induction q as [|a [|b q] IH]; try reflexivity.
  change (removelast (a :: b :: q)) with (a :: removelast (b :: q)).
  rewrite IH. simpl. now rewrite Nat.sub_0_r.
Qed.

End BurstFacts.

(** X1: a burst of enqueues on a buffer within its bound leaves exactly the
    newest 999 of the events held and enqueued, in their order; the ones
    lost are the oldest. *)
Theorem enqueue_burst_keeps_newest :
  forall (burst q : list item),
    length q <= produce_queue_maxlen ->
    Deque.run produce_queue_maxlen (map (@Deque.Enqueue item) burst) q
    = skipn (length (q ++ burst) - produce_queue_maxlen) (q ++ burst).
Proof.
  intros burst q H. now apply burst_as_skipn.
Qed.

Lemma enqueue_burst_keeps_newest_witness :
  length Scenario.full_queue <= produce_queue_maxlen
  /\ Deque.run produce_queue_maxlen
       (map (@Deque.Enqueue item) [Scenario.numbered 999; Scenario.numbered 1000])
       Scenario.full_queue
     = skipn 2 (Scenario.full_queue
                ++ [Scenario.numbered 999; Scenario.numbered 1000]).
Proof.
  split; [vm_compute; lia|].
  apply (@enqueue_burst_keeps_newest
           [Scenario.numbered 999; Scenario.numbered 1000] Scenario.full_queue).
  vm_compute. lia.
Defined.

(** X2: an event put back at the front of a buffer within its bound is the
    next one [popleft] returns, and what stays behind it is the buffer as it
    was, less its last event when the buffer was full. *)
Theorem reinserted_event_is_popped_next :
  forall (q : list item) (it : item),
    length q <= produce_queue_maxlen ->
    Deque.popleft (Deque.appendleft produce_queue_maxlen q it)
    = Some (it, firstn (produce_queue_maxlen - 1) q).
Proof.
  intros q it H.
  destruct (Nat.eq_dec (length q) produce_queue_maxlen) as [E|N].
  - rewrite (@appendleft_full _ _ q it produce_queue_maxlen_pos E).
    unfold Deque.popleft. rewrite removelast_as_firstn, E. reflexivity.
  - rewrite appendleft_not_full by lia. unfold Deque.popleft.
    rewrite firstn_all2 by lia. reflexivity.
Qed.

Lemma reinserted_event_is_popped_next_witness :
  length Scenario.three_events <= produce_queue_maxlen
  /\ Deque.popleft
       (Deque.appendleft produce_queue_maxlen Scenario.three_events
          (Scenario.numbered 0))
     = Some (Scenario.numbered 0,
             firstn (produce_queue_maxlen - 1) Scenario.three_events).
Proof.
  split; [vm_compute; lia|].
  apply (@reinserted_event_is_popped_next Scenario.three_events (Scenario.numbered 0)).
  vm_compute. lia.
Defined.

(** ** The producer under broker errors *)

Lemma acked_app (a b : list event) : acked (a ++ b) = acked a ++ acked b.
Proof.
  induction a as [|ev a IH]; [reflexivity|].
  destruct ev as [| | |t p [e|]| | | | | | |]; simpl; rewrite IH; reflexivity.
Qed.

Lemma item_eta (it : item) : mk_item (topic it) (msg it) = it.
Proof. now destruct it. Qed.



Section ProducerInvariant.
Variable env : Env.
Hypothesis start_kafka_only :
  forall tr, mqp_start env tr = None \/ mqp_start env tr = Some KafkaError.
Hypothesis send_kafka_only :
  forall tr t p,
    mqp_send_and_wait env tr t p = None
    \/ mqp_send_and_wait env tr t p = Some KafkaError.
Hypothesis nothing_arrives : forall tr, arrivals env tr = [].





End ProducerInvariant.



Lemma filter_app_one {A : Type} (f : A -> bool) (l : list A) (x : A) :
  filter f (l ++ [x]) = filter f l ++ (if f x then [x] else []).
Proof. rewrite filter_app. reflexivity. Qed.

Section ProducerOutage.
Variable env : Env.
Hypothesis start_refused : forall tr, mqp_start env tr = Some KafkaError.

Lemma while_true_producer_refused (fuel : nat) :
  forall w : World,
    mqp_connected w = false ->
    exists w' : World,
      while_true fuel (producer_iteration env) w = (Ok tt, w')
      /\ produce_queue w' = produce_queue w
      /\ mqp_connected w' = false
      /\ filter is_send (trace w') = filter is_send (trace w)
      /\ filter is_sleep (trace w')
         = filter is_sleep (trace w)
           ++ repeat (Sleep (Seconds (RETRY_INTERVAL env))) fuel.
Proof.
  induction fuel as [|fuel IH]; intros w Hc.
  - exists w. simpl. rewrite app_nil_r. auto.
  - set (w1 := mk_world (produce_queue w) (mqc_connected w) (mqp_connected w)
                 (tmpfiles w)
                 (trace w
                  ++ [Log INFO "Producer client not connected, attempting to connect...";
                      MqpStart (Some KafkaError);
                      Log ERROR "Producer client hit error, triggering re-connect...";
                      Sleep (Seconds (RETRY_INTERVAL env))])).
    assert (H1 : producer_iteration env w = (Ok tt, w1)).
    { unfold producer_iteration. step_m. rewrite Hc. simpl.
      rewrite start_refused. simpl. unfold w1.
      repeat rewrite <- app_assoc. reflexivity. }
    destruct (IH w1 Hc) as [w' [H [Q [C [S1 S2]]]]].
    exists w'. split; [simpl; unfold bind; rewrite H1; exact H|].
    split; [exact Q|]. split; [exact C|]. split.
    + rewrite S1. unfold w1. simpl. rewrite filter_app. simpl.
      now rewrite app_nil_r.
    + rewrite S2. unfold w1. simpl trace. rewrite filter_app. simpl.
      rewrite <- app_assoc. reflexivity.
Qed.

End ProducerOutage.

(** X4: while the broker refuses the connection ([mqp.start()] raises
    [KafkaError] every time), the producer goes on for any number of passes
    without sending anything and without touching the buffer; it stays
    marked disconnected and sleeps [RETRY_INTERVAL] seconds once per pass. *)
Theorem producer_waits_while_broker_refuses :
  forall (env : Env) (fuel : nat) (w : World),
    (forall tr, mqp_start env tr = Some KafkaError) ->
    exists w' : World,
      producer env fuel w = (Ok tt, w')
      /\ produce_queue w' = produce_queue w
      /\ mqp_connected w' = false
      /\ filter is_send (trace w') = filter is_send (trace w)
      /\ filter is_sleep (trace w')
         = filter is_sleep (trace w)
           ++ repeat (Sleep (Seconds (RETRY_INTERVAL env))) fuel.
Proof.
  intros env fuel w Hstart.
  exact (@while_true_producer_refused env Hstart fuel
           (mk_world (produce_queue w) (mqc_connected w) false (tmpfiles w)
                     (trace w)) eq_refl).
Qed.

Lemma producer_waits_while_broker_refuses_witness :
  exists w' : World,
    producer Cases.env_broker_down 3
             (mk_world Scenario.three_events false true [] [])
    = (Ok tt, w')
    /\ produce_queue w' = Scenario.three_events
    /\ mqp_connected w' = false
    /\ filter is_send (trace w') = []
    /\ filter is_sleep (trace w') = repeat (Sleep (Seconds 5)) 3.
Proof.
  exact (@producer_waits_while_broker_refuses Cases.env_broker_down 3
           (mk_world Scenario.three_events false true [] [])
           (fun _ => eq_refl)).
Defined.

Lemma append_length_ge {A : Type} (n : nat) (q : list A) (x : A) :
  length q <= length (Deque.append n q x).
Proof.
  unfold Deque.append.
  destruct (Nat.ltb n (length (q ++ [x]))).
  - destruct q as [|y q]; simpl; [lia|]. rewrite length_app. simpl. lia.
  - rewrite length_app. simpl. lia.
Qed.

(** Arrivals never shorten the buffer. *)
Lemma arrived_length_ge (env : Env) (tr : list event) (q : list item) :
  length q <= length (arrived env tr q).
Proof.
  unfold arrived. generalize (arrivals env tr) as l. intros l. revert q.
  induction l as [|a l IH]; intros q; simpl; [lia|].
  etransitivity; [|apply IH]. apply append_length_ge.
Qed.

Section ProducerConnects.
Variable env : Env.
Hypothesis start_accepted : forall tr, mqp_start env tr = None.
Hypothesis send_acked : forall tr t p, mqp_send_and_wait env tr t p = None.

(** Whatever arrives during the sends, the rounds counted at line 166 find an
    event to pop, and acknowledged sends leave the flag as it is. *)
Lemma for_range_acked_flag (n : nat) :
  forall w : World,
    n <= length (produce_queue w) ->
    exists w' : World,
      for_range n (produce_one env) w = (Ok tt, w')
      /\ mqp_connected w' = mqp_connected w.
Proof.
  induction n as [|n IH]; intros w Hn.
  - exists w. split; reflexivity.
  - destruct (produce_queue w) as [|it q] eqn:Hq; [simpl in Hn; lia|].
    pose proof (@produce_one_sent env it q w Hq (send_acked _ _ _)) as H1.
    match type of H1 with _ = (_, ?w1) => destruct (IH w1) as [w' [H C]] end.
    + simpl in *.
      pose proof (arrived_length_ge env
                    (trace w ++ [Log INFO "Popped item from produce queue (qsize: %d): topic %s: %s"])
                    q).
      lia.
    + exists w'. split; [simpl; unfold bind; rewrite H1; exact H|exact C].
Qed.

Lemma producer_iteration_connects (w : World) :
  exists w' : World,
    producer_iteration env w = (Ok tt, w') /\ mqp_connected w' = true.
Proof.
  assert (Hdrain : forall w0 : World,
             exists w' : World,
               (match produce_queue w0 with
                | [] => fun w1 =>
                    (Ok tt,
                     mk_world (produce_queue w1) (mqc_connected w1)
                       (mqp_connected w1) (tmpfiles w1)
                       (trace w1 ++ [Sleep (Millis 100)]))
                | _ :: _ => for_range (length (produce_queue w0)) (produce_one env)
                end) w0 = (Ok tt, w')
               /\ mqp_connected w' = mqp_connected w0).
  { intros w0. destruct (produce_queue w0) as [|it q] eqn:Hq.
    - eexists. split; reflexivity.
    - destruct (@for_range_acked_flag (length (produce_queue w0)) w0 (le_n _))
        as [w' [H C]].
      rewrite Hq in H. exists w'. split; [exact H|exact C]. }
  unfold producer_iteration. step_m. destruct (mqp_connected w) eqn:Hc; simpl.
  - destruct (Hdrain w) as [w' [H C]].
    exists w'. split; [|congruence]. rewrite <- H. destruct w; reflexivity.
  - rewrite start_accepted. simpl.
    match goal with
    | |- exists w', (match produce_queue _ with _ => _ end) ?w1 = _ /\ _ =>
        destruct (Hdrain w1) as [w' [H C]]
    end.
    exists w'. split; [exact H|exact C].
Qed.

End ProducerConnects.

Section ProducerHealthy.
Variable env : Env.
Hypothesis start_accepted : forall tr, mqp_start env tr = None.
Hypothesis send_acked : forall tr t p, mqp_send_and_wait env tr t p = None.
Hypothesis nothing_arrives : forall tr, arrivals env tr = [].

Lemma for_range_all_acked (n : nat) :
  forall w : World,
    n <= length (produce_queue w) ->
    exists w' : World,
      for_range n (produce_one env) w = (Ok tt, w')
      /\ produce_queue w' = skipn n (produce_queue w)
      /\ acked (trace w') = acked (trace w) ++ firstn n (produce_queue w)
      /\ mqp_connected w' = mqp_connected w.
Proof.
  induction n as [|n IH]; intros w Hn.
  - exists w. simpl. rewrite app_nil_r. auto.
  - destruct (produce_queue w) as [|it q] eqn:Hq; [simpl in Hn; lia|].
    pose proof (@produce_one_sent env it q w Hq (send_acked _ _ _)) as H1.
    rewrite (@arrived_nothing env _ q (nothing_arrives _)) in H1.
    match type of H1 with _ = (_, ?w1) => destruct (IH w1) as [w' [H [Q [K C]]]] end.
    + simpl in *. lia.
    + exists w'. split; [simpl; unfold bind; rewrite H1; exact H|].
      split; [exact Q|]. split; [|exact C].
      rewrite K. simpl. rewrite acked_app. simpl.
      rewrite item_eta, <- app_assoc. reflexivity.
Qed.

Lemma drain_all_acked (w : World) :
  exists w' : World,
    (match produce_queue w with
     | [] => fun w1 =>
         (Ok tt,
          mk_world (produce_queue w1) (mqc_connected w1) (mqp_connected w1)
            (tmpfiles w1) (trace w1 ++ [Sleep (Millis 100)]))
     | _ :: _ => for_range (length (produce_queue w)) (produce_one env)
     end) w = (Ok tt, w')
    /\ produce_queue w' = []
    /\ acked (trace w') = acked (trace w) ++ produce_queue w
    /\ mqp_connected w' = mqp_connected w.
Proof.
  destruct (produce_queue w) as [|it q] eqn:Hq.
  - eexists. split; [reflexivity|]. simpl. rewrite Hq, acked_app. simpl.
    rewrite !app_nil_r. auto.
  - destruct (@for_range_all_acked (length (produce_queue w)) w (le_n _))
      as [w' [H [Q [K C]]]].
    rewrite skipn_all in Q. rewrite firstn_all in K. rewrite Hq in H, K.
    exists w'. auto.
Qed.

Lemma producer_iteration_healthy (w : World) :
  exists w' : World,
    producer_iteration env w = (Ok tt, w')
    /\ produce_queue w' = []
    /\ acked (trace w') = acked (trace w) ++ produce_queue w
    /\ mqp_connected w' = true.
Proof.
  unfold producer_iteration. step_m. destruct (mqp_connected w) eqn:Hc; simpl.
  - destruct (drain_all_acked w) as [w' [H [Q [K C]]]].
    exists w'. split; [|split; [exact Q|split; [exact K|congruence]]].
    rewrite <- H. destruct w; reflexivity.
  - rewrite start_accepted. simpl.
    match goal with
    | |- exists w', (match produce_queue _ with _ => _ end) ?w1 = _ /\ _ =>
        destruct (drain_all_acked w1) as [w' [H [Q [K C]]]]
    end.
    exists w'. split; [exact H|]. split; [exact Q|]. split; [|exact C].
    rewrite K. simpl. rewrite !acked_app. simpl. rewrite !app_nil_r. reflexivity.
Qed.

End ProducerHealthy.



(** ** What ends the loops, and what does not *)

Lemma bind_no_kafka {A B : Type} (m : M A) (k : A -> M B) (w : World) :
  no_kafka (fst (m w)) ->
  (forall a w1, no_kafka (fst (k a w1))) ->
  no_kafka (fst (bind m k w)).
Proof.
  intros Hm Hk. unfold bind. destruct (m w) as [[a|e] w1]; simpl in *.
  - apply Hk.
  - exact Hm.
Qed.

Lemma try_except_no_kafka {A : Type} (m h : M A) (w : World) :
  (forall w1, no_kafka (fst (h w1))) ->
  no_kafka (fst (try_except m is_KafkaError h w)).
Proof.
  intros Hh. unfold try_except. destruct (m w) as [[a|e] w1]; simpl.
  - exact I.
  - destruct (is_KafkaError e) eqn:E; [apply Hh|exact E].
Qed.

Lemma for_range_no_kafka (body : M unit) (n : nat) :
  (forall w, no_kafka (fst (body w))) ->
  forall w, no_kafka (fst (for_range n body w)).
Proof.
  intros Hb. induction n as [|n IH]; intros w; simpl; [exact I|].
  apply bind_no_kafka; [apply Hb|intros _ w1; apply IH].
Qed.

Lemma while_true_no_kafka (body : M unit) (fuel : nat) :
  (forall w, no_kafka (fst (body w))) ->
  forall w, no_kafka (fst (while_true fuel body w)).
Proof.
  intros Hb. induction fuel as [|fuel IH]; intros w; simpl; [exact I|].
  apply bind_no_kafka; [apply Hb|intros _ w1; apply IH].
Qed.

Lemma produce_one_no_kafka (env : Env) (w : World) :
  no_kafka (fst (produce_one env w)).
Proof.
  unfold produce_one. apply bind_no_kafka.
  - unfold queue_popleft. destruct (Deque.popleft (produce_queue w)) as [[it q]|];
      simpl; [exact I|reflexivity].
  - intros it w1. apply bind_no_kafka; [exact I|].
    intros _ w2. apply try_except_no_kafka. intros w3. exact I.
Qed.

Lemma producer_iteration_no_kafka (env : Env) (w : World) :
  no_kafka (fst (producer_iteration env w)).
Proof.
  unfold producer_iteration. apply bind_no_kafka; [exact I|].
  intros connected w1. apply bind_no_kafka.
  - destruct connected; [exact I|].
    apply try_except_no_kafka. intros w2. exact I.
  - intros ready w2. destruct ready; simpl; [|exact I].
    apply bind_no_kafka; [exact I|].
    intros q w3. destruct q; [exact I|].
    apply for_range_no_kafka. apply produce_one_no_kafka.
Qed.

Lemma consumer_iteration_no_kafka (env : Env) (w : World) :
  no_kafka (fst (consumer_iteration env w)).
Proof.
  unfold consumer_iteration. apply bind_no_kafka; [exact I|].
  intros connected w1. apply bind_no_kafka.
  - destruct connected; [exact I|].
    apply try_except_no_kafka. intros w2. exact I.
  - intros ready w2. destruct ready; simpl; [|exact I].
    apply bind_no_kafka.
    + apply try_except_no_kafka. intros w3. exact I.
    + intros _ w3. exact I.
Qed.

(** X6: whatever the broker, the storage driver and the records do, neither
    loop is ended by a [KafkaError]: after any number of passes the
    producer and the consumer are still running, or were ended by an
    exception of another class. *)
Theorem kafka_error_never_ends_the_loops :
  forall (env : Env) (fuel : nat) (w : World),
    no_kafka (fst (producer env fuel w))
    /\ no_kafka (fst (consumer env fuel w)).
Proof.
  intros env fuel w. split.
  - unfold producer. apply bind_no_kafka; [exact I|].
    intros _ w1. apply while_true_no_kafka. apply producer_iteration_no_kafka.
  - unfold consumer. apply bind_no_kafka; [exact I|].
    intros _ w1. apply while_true_no_kafka. apply consumer_iteration_no_kafka.
Qed.

(** ** The consumer *)

Section ConsumerFacts.
Variable env : Env.

(** X7: the consumer handles the records of the partitions of the
    validation topic and of no other: a poll gives what it gives with the
    other partitions left out. *)
Theorem for_items_ignores_other_topics :
  forall (data : list (string * list KafkaMsg)) (w : World),
    for_items env data w
    = for_items env
        (filter (fun tp => String.eqb (fst tp) (VALIDATION_QUEUE env)) data) w.
Proof.
  induction data as [|[tp_topic msgs] data IH]; intros w; [reflexivity|].
  simpl. destruct (String.eqb tp_topic (VALIDATION_QUEUE env)) eqn:E.
  - simpl. rewrite E. unfold bind.
    destruct (handle_file env msgs w) as [[[]|e] w1]; [apply IH|reflexivity].
  - unfold bind, ret. apply IH.
Qed.

Hypothesis start_refused : forall tr, mqc_start env tr = Some KafkaError.

Lemma while_true_consumer_refused (fuel : nat) :
  forall w : World,
    mqc_connected w = false ->
    exists w' : World,
      while_true fuel (consumer_iteration env) w = (Ok tt, w')
      /\ produce_queue w' = produce_queue w
      /\ mqc_connected w' = false
      /\ filter is_poll (trace w') = filter is_poll (trace w)
      /\ filter is_copy (trace w') = filter is_copy (trace w)
      /\ filter is_sleep (trace w')
         = filter is_sleep (trace w)
           ++ repeat (Sleep (Seconds (RETRY_INTERVAL env))) fuel.
Proof.
  induction fuel as [|fuel IH]; intros w Hc.
  - exists w. simpl. rewrite app_nil_r. auto 10.
  - set (w1 := mk_world (produce_queue w) (mqc_connected w) (mqp_connected w)
                 (tmpfiles w)
                 (trace w
                  ++ [Log INFO "Consume client not connected, attempting to connect...";
                      MqcStart (Some KafkaError);
                      Log ERROR "Consume client hit error, triggering re-connect...";
                      Sleep (Seconds (RETRY_INTERVAL env))])).
    assert (H1 : consumer_iteration env w = (Ok tt, w1)).
    { unfold consumer_iteration. step_m. rewrite Hc. simpl.
      rewrite start_refused. simpl. unfold w1.
      repeat rewrite <- app_assoc. reflexivity. }
    destruct (IH w1 Hc) as [w' [H [Q [C [S1 [S2 S3]]]]]].
    exists w'. split; [simpl; unfold bind; rewrite H1; exact H|].
    split; [exact Q|]. split; [exact C|].
    split; [|split].
    + rewrite S1. unfold w1. simpl. rewrite filter_app. simpl.
      now rewrite app_nil_r.
    + rewrite S2. unfold w1. simpl. rewrite filter_app. simpl.
      now rewrite app_nil_r.
    + rewrite S3. unfold w1. simpl trace. rewrite filter_app. simpl.
      rewrite <- app_assoc. reflexivity.
Qed.

End ConsumerFacts.

(** X8: while the broker refuses the connection ([mqc.start()] raises
    [KafkaError] every time), the consumer goes on for any number of passes
    without polling and without a storage call; it leaves the buffer as it
    is, stays marked disconnected and sleeps [RETRY_INTERVAL] seconds once
    per pass. *)
Theorem consumer_waits_while_broker_refuses :
  forall (env : Env) (fuel : nat) (w : World),
    (forall tr, mqc_start env tr = Some KafkaError) ->
    exists w' : World,
      consumer env fuel w = (Ok tt, w')
      /\ produce_queue w' = produce_queue w
      /\ mqc_connected w' = false
      /\ filter is_poll (trace w') = filter is_poll (trace w)
      /\ filter is_copy (trace w') = filter is_copy (trace w)
      /\ filter is_sleep (trace w')
         = filter is_sleep (trace w)
           ++ repeat (Sleep (Seconds (RETRY_INTERVAL env))) fuel.
Proof.
  intros env fuel w Hstart.
  exact (@while_true_consumer_refused env Hstart fuel
           (mk_world (produce_queue w) false (mqp_connected w) (tmpfiles w)
                     (trace w)) eq_refl).
Qed.

Lemma consumer_waits_while_broker_refuses_witness :
  exists w' : World,
    consumer Cases.env_broker_down 3 (mk_world [] true false [] [])
    = (Ok tt, w')
    /\ produce_queue w' = []
    /\ mqc_connected w' = false
    /\ filter is_poll (trace w') = []
    /\ filter is_copy (trace w') = []
    /\ filter is_sleep (trace w') = repeat (Sleep (Seconds 5)) 3.
Proof.
  exact (@consumer_waits_while_broker_refuses Cases.env_broker_down 3
           (mk_world [] true false [] []) (fun _ => eq_refl)).
Defined.

(** ** The validation handler on a batch *)

(** X9: records that are not JSON are each logged and skipped, and the
    records after them are handled as if they led the batch. *)
Theorem undecodable_records_are_skipped :
  forall (env : Env) (bad rest : list KafkaMsg) (w : World),
    Forall (fun m => json_loads env (value m) = None) bad ->
    handle_file env (bad ++ rest) w
    = handle_file env rest
        (mk_world (produce_queue w) (mqc_connected w) (mqp_connected w)
           (tmpfiles w)
           (trace w
            ++ repeat (Log ERROR "handle_file(): unable to decode msg as json: {}")
                      (length bad))).
Proof.
  intros env bad. induction bad as [|m bad IH]; intros rest w Hbad.
  - simpl. rewrite app_nil_r, world_eta. reflexivity.
  - inversion Hbad as [|m' bad' Hm Hrest]; subst.
    change ((m :: bad) ++ rest) with (m :: (bad ++ rest)).
    rewrite (@handle_file_skips_undecodable env m (bad ++ rest) w Hm).
    rewrite (IH rest _ Hrest). simpl. rewrite <- app_assoc. reflexivity.
Qed.

Lemma undecodable_records_are_skipped_witness :
  handle_file Scenario.env_ok
    ([mk_msg "not json"; mk_msg "neither"] ++ [mk_msg "verdict-failure"])
    initial_world
  = handle_file Scenario.env_ok [mk_msg "verdict-failure"]
      (mk_world [] false false []
         ([] ++ repeat (Log ERROR "handle_file(): unable to decode msg as json: {}") 2)).
Proof.
  apply (@undecodable_records_are_skipped Scenario.env_ok
           [mk_msg "not json"; mk_msg "neither"] [mk_msg "verdict-failure"]
           initial_world).
  repeat constructor.
Defined.

(** X10: a verdict with neither 'payload_id' nor 'hash' ends the handling of
    its batch: whatever records precede it, the records after it change
    nothing to what [handle_file] does. *)
Theorem records_after_a_verdict_without_id_are_not_read :
  forall (env : Env) (before after : list KafkaMsg) (m : KafkaMsg)
         (kv : list (string * json)) (w : World),
    json_loads env (value m) = Some (JObj kv) ->
    dict_get "payload_id" kv = None ->
    dict_get "hash" kv = None ->
    handle_file env (before ++ m :: after) w
    = handle_file env (before ++ [m]) w.
Proof.
  intros env before after m kv w Hj Hp Hh. revert w.
  induction before as [|b before IH]; intros w.
  - simpl app.
    rewrite (@handle_file_returns_without_id env m after kv w Hj Hp Hh).
    rewrite (@handle_file_returns_without_id env m [] kv w Hj Hp Hh).
    reflexivity.
  - simpl. unfold bind. destruct (handle_msg env b w) as [[[|]|e] w1];
      [apply IH|reflexivity|reflexivity].
Qed.

Lemma records_after_a_verdict_without_id_are_not_read_witness :
  handle_file Scenario.env_ok
    ([mk_msg "verdict-failure"] ++ mk_msg "verdict-no-id" :: [mk_msg "verdict-success"])
    initial_world
  = handle_file Scenario.env_ok
      ([mk_msg "verdict-failure"] ++ [mk_msg "verdict-no-id"]) initial_world.
Proof.
  exact (@records_after_a_verdict_without_id_are_not_read Scenario.env_ok
           [mk_msg "verdict-failure"] [mk_msg "verdict-success"]
           (mk_msg "verdict-no-id") [("validation", JStr "success")]
           initial_world eq_refl eq_refl eq_refl).
Defined.

(** X11: when the copy of a 'success' verdict raises, no event is put on the
    queue, the exception leaves [handle_file], and the records after the
    verdict are not handled. *)
Theorem failed_copy_leaves_no_event :
  forall (env : Env) (m : KafkaMsg) (rest : list KafkaMsg)
         (kv : list (string * json)) (pid : json) (res : string) (e : exn)
         (w : World),
    json_loads env (value m) = Some (JObj kv) ->
    (dict_get "payload_id" kv = Some pid
     \/ (dict_get "payload_id" kv = None /\ dict_get "hash" kv = Some pid)) ->
    dict_get "validation" kv = Some (JStr res) ->
    lower res = "success"%string ->
    storage_copy env (trace w ++ [Log INFO "processing message: %s - %s"])
      QUARANTINE PERM pid = Raise e ->
    handle_file env (m :: rest) w
    = (Raise e,
       mk_world (produce_queue w) (mqc_connected w) (mqp_connected w) (tmpfiles w)
         (trace w ++ [Log INFO "processing message: %s - %s";
                      StorageCopy QUARANTINE PERM pid (Some e)])).
Proof.
  intros env m rest kv pid res e w Hj Hid Hv Hs Hc. simpl. unfold bind.
  rewrite (@handle_msg_success_copy_raises env m kv pid res e w Hj Hid Hv Hs Hc).
  reflexivity.
Qed.

Lemma failed_copy_leaves_no_event_witness :
  handle_file
    (Scenario.env_with [] Scenario.send_ok Scenario.copy_fails Scenario.write_ok)
    [mk_msg "verdict-SUCCESS-hash"; mk_msg "verdict-second"] initial_world
  = (Raise (OtherError "ClientError"),
     mk_world [] false false []
       [Log INFO "processing message: %s - %s";
        StorageCopy QUARANTINE PERM (JStr "abc123")
                    (Some (OtherError "ClientError"))]).
Proof.
  exact (@failed_copy_leaves_no_event
           (Scenario.env_with [] Scenario.send_ok Scenario.copy_fails
              Scenario.write_ok)
           (mk_msg "verdict-SUCCESS-hash") [mk_msg "verdict-second"]
           [("hash", JStr "abc123"); ("validation", JStr "SUCCESS")]
           (JStr "abc123") "SUCCESS" (OtherError "ClientError") initial_world
           eq_refl (or_intror (conj eq_refl eq_refl)) eq_refl eq_refl eq_refl).
Defined.

Ltac verdict_steps Hj Hid Hv :=
  unfold handle_msg; rewrite Hj; step_m; unfold dict_has;
  let Hp := fresh "Hp" in
  let Hh := fresh "Hh" in
  destruct Hid as [Hp|[Hp Hh]];
  [ rewrite Hp; simpl; rewrite Hv; simpl
  | rewrite Hp; simpl; rewrite Hh; simpl; rewrite Hv; simpl ].

(** X12: a verdict that names its payload but has no 'validation' raises
    [KeyError] before anything is logged or copied; one whose 'validation'
    is not a string raises [AttributeError] at [result.lower()], after the
    log line and before any copy.  Either way nothing is put on the queue. *)
Theorem verdict_without_result_raises :
  forall (env : Env) (m : KafkaMsg) (kv : list (string * json)) (pid : json)
         (w : World),
    json_loads env (value m) = Some (JObj kv) ->
    (dict_get "payload_id" kv = Some pid
     \/ (dict_get "payload_id" kv = None /\ dict_get "hash" kv = Some pid)) ->
    (dict_get "validation" kv = None ->
     handle_msg env m w = (Raise (KeyError "validation"), w))
    /\ (forall v : json,
          dict_get "validation" kv = Some v ->
          (forall s, v <> JStr s) ->
          handle_msg env m w
          = (Raise AttributeError,
             mk_world (produce_queue w) (mqc_connected w) (mqp_connected w)
               (tmpfiles w)
               (trace w ++ [Log INFO "processing message: %s - %s"]))).
Proof.
  intros env m kv pid w Hj Hid. split.
  - intros Hv. verdict_steps Hj Hid Hv; reflexivity.
  - intros v Hv Hns.
    verdict_steps Hj Hid Hv;
      (destruct v as [| | |s| |]; try reflexivity; now elim (Hns s)).
Qed.

Lemma verdict_without_result_raises_witness :
  handle_msg Cases.env_more (mk_msg "verdict-no-validation") initial_world
  = (Raise (KeyError "validation"), initial_world)
  /\ handle_msg Cases.env_more (mk_msg "verdict-number") initial_world
     = (Raise AttributeError,
        mk_world [] false false [] [Log INFO "processing message: %s - %s"]).
Proof.
  split.
  - destruct (@verdict_without_result_raises Cases.env_more
                (mk_msg "verdict-no-validation") [("payload_id", JStr "abc123")]
                (JStr "abc123") initial_world eq_refl (or_introl eq_refl))
      as [H _].
    exact (H eq_refl).
  - destruct (@verdict_without_result_raises Cases.env_more
                (mk_msg "verdict-number")
                [("payload_id", JStr "abc123"); ("validation", JNum 1)]
                (JStr "abc123") initial_world eq_refl (or_introl eq_refl))
      as [_ H].
    apply (H (JNum 1) eq_refl). intros s. discriminate.
Defined.


Ltac plain_scrutinee x :=
  lazymatch x with
  | match _ with _ => _ end => fail
  | (match _ with _ => _ end) _ => fail
  | if _ then _ else _ => fail
  | (if _ then _ else _) _ => fail
  | _ => idtac
  end.

Ltac crush_cases :=
  repeat match goal with
         | |- context [match ?x with _ => _ end] =>
             plain_scrutinee x; destruct x eqn:?; simpl
         | |- context [if ?x then _ else _] =>
             plain_scrutinee x; destruct x eqn:?; simpl
         end.

(** One record changes the queue by at most one event, for the topic
    'platform.upload.available', and leaves the flags and the disk alone. *)
Lemma handle_msg_frame (env : Env) (m : KafkaMsg) (w : World) :
  mqc_connected (snd (handle_msg env m w)) = mqc_connected w
  /\ mqp_connected (snd (handle_msg env m w)) = mqp_connected w
  /\ tmpfiles (snd (handle_msg env m w)) = tmpfiles w
  /\ (produce_queue (snd (handle_msg env m w)) = produce_queue w
      \/ exists it : item,
           topic it = "platform.upload.available"%string
           /\ produce_queue (snd (handle_msg env m w))
              = Deque.append produce_queue_maxlen (produce_queue w) it).
Proof.
  unfold handle_msg. destruct (json_loads env (value m)) as [data|].
  - step_m. unfold dict_has. crush_cases;
      (split; [reflexivity|split; [reflexivity|split; [reflexivity|]]]);
      first [ left; reflexivity
            | right; eexists; split; [|reflexivity]; reflexivity ].
  - step_m. auto.
Qed.

(** X13: however a batch is handled (to its end, up to a [return], or up to
    an exception), [handle_file] leaves the connection flags and the files
    on disk alone, and changes the queue only by appending events for the
    topic 'platform.upload.available', at most one per record; so a buffer
    within its bound stays within it. *)
Theorem handle_file_only_appends_available_events :
  forall (env : Env) (msgs : list KafkaMsg) (w : World),
    mqc_connected (snd (handle_file env msgs w)) = mqc_connected w
    /\ mqp_connected (snd (handle_file env msgs w)) = mqp_connected w
    /\ tmpfiles (snd (handle_file env msgs w)) = tmpfiles w
    /\ (exists evs : list item,
          length evs <= length msgs
          /\ Forall (fun it => topic it = "platform.upload.available"%string) evs
          /\ produce_queue (snd (handle_file env msgs w))
             = Deque.run produce_queue_maxlen (map (@Deque.Enqueue item) evs)
                 (produce_queue w))
    /\ (length (produce_queue w) <= produce_queue_maxlen ->
        length (produce_queue (snd (handle_file env msgs w)))
        <= produce_queue_maxlen).
Proof.
  intros env msgs.
  assert (Hmain : forall w : World,
             mqc_connected (snd (handle_file env msgs w)) = mqc_connected w
             /\ mqp_connected (snd (handle_file env msgs w)) = mqp_connected w
             /\ tmpfiles (snd (handle_file env msgs w)) = tmpfiles w
             /\ (exists evs : list item,
                   length evs <= length msgs
                   /\ Forall (fun it => topic it = "platform.upload.available"%string) evs
                   /\ produce_queue (snd (handle_file env msgs w))
                      = Deque.run produce_queue_maxlen
                          (map (@Deque.Enqueue item) evs) (produce_queue w))).
  { induction msgs as [|m rest IH]; intros w.
    - simpl. repeat split; try reflexivity.
      exists []. split; [simpl; lia|]. split; [constructor|reflexivity].
    - destruct (handle_msg_frame env m w) as [C1 [P1 [T1 Q1]]].
      assert (Hstep : exists w1 : World,
                 snd (handle_msg env m w) = w1
                 /\ (snd (handle_file env (m :: rest) w) = w1
                     \/ snd (handle_file env (m :: rest) w)
                        = snd (handle_file env rest w1))).
      { exists (snd (handle_msg env m w)). split; [reflexivity|].
        simpl. unfold bind. destruct (handle_msg env m w) as [[[|]|e] w1]; simpl;
          [right|left|left]; reflexivity. }
      destruct Hstep as [w1 [E1 Hnext]]. rewrite E1 in *.
      assert (Hq1 : exists evs1 : list item,
                 length evs1 <= 1
                 /\ Forall (fun it => topic it = "platform.upload.available"%string) evs1
                 /\ produce_queue w1
                    = Deque.run produce_queue_maxlen
                        (map (@Deque.Enqueue item) evs1) (produce_queue w)).
      { destruct Q1 as [Q1|[it [Ht Q1]]].
        - exists []. split; [simpl; lia|]. split; [constructor|exact Q1].
        - exists [it]. split; [simpl; lia|].
          split; [constructor; [exact Ht|constructor]|exact Q1]. }
      destruct Hq1 as [evs1 [L1 [F1 R1]]].
      destruct Hnext as [Hn|Hn]; rewrite Hn.
      + split; [exact C1|]. split; [exact P1|]. split; [exact T1|].
        exists evs1. split; [simpl; lia|]. split; [exact F1|exact R1].
      + destruct (IH w1) as [C2 [P2 [T2 [evs2 [L2 [F2 R2]]]]]].
        split; [congruence|]. split; [congruence|]. split; [congruence|].
        exists (evs1 ++ evs2). split; [rewrite length_app; simpl; lia|].
        split; [apply Forall_app; now split|].
        rewrite R2, R1. unfold Deque.run. rewrite map_app, fold_left_app.
        reflexivity. }
  intros w. destruct (Hmain w) as [C [P [T [evs [L [F R]]]]]].
  split; [exact C|]. split; [exact P|]. split; [exact T|].
  split; [exists evs; auto|].
  intros Hlen. rewrite R. now apply run_length.
Qed.

Lemma handle_file_only_appends_available_events_witness :
  length (produce_queue
            (snd (handle_file Scenario.env_ok
                    [mk_msg "verdict-success"; mk_msg "verdict-failure";
                     mk_msg "verdict-SUCCESS-hash"]
                    (mk_world Scenario.full_queue false false [] []))))
  <= produce_queue_maxlen.
Proof.
  destruct (@handle_file_only_appends_available_events Scenario.env_ok
              [mk_msg "verdict-success"; mk_msg "verdict-failure";
               mk_msg "verdict-SUCCESS-hash"]
              (mk_world Scenario.full_queue false false [] []))
    as [_ [_ [_ [_ H]]]].
  apply H. vm_compute. lia.
Defined.

(** ** The upload task: time out, polls, identity, url *)

Lemma completed_without_polls (timeout : Z) (callback : nat -> Z) :
  (timeout <= 0)%Z -> completed timeout callback = false.
Proof.
  intros H. unfold completed.
  replace (Z.to_nat (timeout * 10)) with 0; [reflexivity|].
  destruct (timeout * 10)%Z eqn:E; try reflexivity. lia.
Qed.

(** X14: with [STORAGE_UPLOAD_TIMEOUT] at zero or below the polling loop
    makes no round, so [upload] reports a failure whatever the storage
    driver answers, even for a write that is complete at once; the
    temporary file is removed all the same. *)
Theorem upload_with_no_timeout_never_succeeds :
  forall (env : Env) (name tracking payload : string) (w : World),
    (STORAGE_UPLOAD_TIMEOUT env <= 0)%Z ->
    In name (tmpfiles w) ->
    exists w' : World,
      upload env name tracking payload w = (Ok None, w')
      /\ ~ In name (tmpfiles w')
      /\ produce_queue w' = produce_queue w.
Proof.
  intros env name tracking payload w Ht Hin.
  destruct (@upload_spec env name tracking payload w Hin)
    as [mid [last [Hup _]]].
  assert (E : written_in_time (STORAGE_UPLOAD_TIMEOUT env)
                (storage_write env
                   (trace w ++ [Log INFO "tracking id [%s] payload_id [%s] attempting upload"])
                   name QUARANTINE payload) = None).
  { unfold written_in_time. destruct (storage_write env _ _ _ _) as [[url cb]|e];
      [|reflexivity].
    now rewrite completed_without_polls. }
  rewrite E in Hup. eexists. split; [exact Hup|].
  split; [apply removed_not_in|reflexivity].
Qed.

Lemma upload_with_no_timeout_never_succeeds_witness :
  exists w' : World,
    upload Cases.env_no_timeout "/tmp/tmpabc" "null" "abc123" Scenario.staged_world
    = (Ok None, w')
    /\ ~ In "/tmp/tmpabc"%string (tmpfiles w')
    /\ produce_queue w' = [].
Proof.
  apply (@upload_with_no_timeout_never_succeeds Cases.env_no_timeout
           "/tmp/tmpabc" "null" "abc123" Scenario.staged_world).
  - simpl. lia.
  - left. reflexivity.
Defined.

Lemma poll_sleeps_bound (callback : nat -> Z) (n : nat) :
  forall (count : nat) (w : World),
  exists k : nat,
    k <= n
    /\ snd (poll n count callback w)
       = mk_world (produce_queue w) (mqc_connected w) (mqp_connected w)
           (tmpfiles w) (trace w ++ repeat (Sleep (Millis 10)) k).
Proof.
  induction n as [|n IH]; intros count w.
  - exists 0. split; [lia|]. simpl. rewrite app_nil_r, world_eta. reflexivity.
  - simpl. destruct (callback count >=? 100)%Z.
    + exists 0. split; [lia|]. simpl. rewrite app_nil_r, world_eta. reflexivity.
    + step_m.
      destruct (IH (S count)
                  (mk_world (produce_queue w) (mqc_connected w) (mqp_connected w)
                     (tmpfiles w) (trace w ++ [Sleep (Millis 10)]))) as [k [Hk E]].
      exists (S k). split; [lia|].
      destruct (poll n (S count) callback _) as [r w1]. simpl in *.
      rewrite E. simpl. rewrite <- app_assoc. reflexivity.
Qed.

Lemma filter_sleep_repeat (k : nat) :
  filter is_sleep (repeat (Sleep (Millis 10)) k) = repeat (Sleep (Millis 10)) k.
Proof. induction k; simpl; [reflexivity|now rewrite IHk]. Qed.

(** X15: [upload] sleeps only in its polling loop, 10 milliseconds at a
    time and at most [STORAGE_UPLOAD_TIMEOUT * 10] times, whatever the
    storage driver answers and whether or not the file can be removed. *)
Theorem upload_polls_are_bounded :
  forall (env : Env) (name tracking payload : string) (w : World),
  exists k : nat,
    k <= Z.to_nat (STORAGE_UPLOAD_TIMEOUT env * 10)
    /\ filter is_sleep (trace (snd (upload env name tracking payload w)))
       = filter is_sleep (trace w) ++ repeat (Sleep (Millis 10)) k.
Proof.
  intros env name tracking payload w. unfold upload. step_m.
  destruct (storage_write env _ name QUARANTINE payload) as [[url callback]|e];
    simpl.
  - match goal with
    | |- context [poll ?n 0 callback ?w0] =>
        destruct (poll_sleeps_bound callback n 0 w0) as [k [Hk E]];
        destruct (poll n 0 callback w0) as [[b|e] w1]
    end; simpl in E; subst w1; exists k; (split; [exact Hk|]); simpl;
      crush_cases;
      repeat (rewrite filter_app; simpl); rewrite ?filter_sleep_repeat;
      rewrite ?app_nil_r; reflexivity.
  - exists 0. split; [lia|]. crush_cases;
      repeat (rewrite filter_app; simpl); rewrite ?app_nil_r; reflexivity.
Qed.

(** X16: an upload whose decoded identity is a non-empty dictionary without
    'account_number', or with it but without 'org_id', ends
    [process_upload] with [KeyError] before the storage write is attempted:
    the temporary file stays on disk and nothing is put on the queue. *)
Theorem identity_without_fields_stops_the_upload :
  forall (env : Env) (u : Upload) (kv : list (string * json)) (w : World),
    identity u = JObj kv ->
    kv <> [] ->
    let stopped :=
      mk_world (produce_queue w) (mqc_connected w) (mqp_connected w) (tmpfiles w)
               (trace w ++ [Log INFO "identity - %s"]) in
    (dict_get "account_number" kv = None ->
     process_upload env u w = (Raise (KeyError "account_number"), stopped))
    /\ (forall account : json,
          dict_get "account_number" kv = Some account ->
          dict_get "org_id" kv = None ->
          process_upload env u w = (Raise (KeyError "org_id"), stopped)).
Proof.
  intros env u kv w Hid Hne stopped.
  assert (Ht : truthy (identity u) = true)
    by (rewrite Hid; destruct kv; [now elim Hne|reflexivity]).
  split.
  - intros Ha. apply process_upload_identity_raises.
    unfold upload_values. step_m. rewrite Ht, Hid, Ha. reflexivity.
  - intros account Ha Ho. apply process_upload_identity_raises.
    unfold upload_values. step_m. rewrite Ht, Hid, Ha. simpl. rewrite Ho.
    reflexivity.
Qed.

Lemma identity_without_fields_stops_the_upload_witness :
  process_upload Scenario.env_ok
    (Scenario.staged_upload Cases.identity_without_account) Scenario.staged_world
  = (Raise (KeyError "account_number"),
     mk_world [] false false ["/tmp/tmpabc"%string]
       [TmpFile "/tmp/tmpabc" "BODY"; Log INFO "identity - %s"]).
Proof.
  destruct (@identity_without_fields_stops_the_upload Scenario.env_ok
              (Scenario.staged_upload Cases.identity_without_account)
              [("org_id"%string, JStr "1979710")] Scenario.staged_world eq_refl)
    as [H _].
  - discriminate.
  - exact (H eq_refl).
Defined.

(** X17: a write that returns an empty url puts no event on the queue, even
    when it completes within the polls ([if url:]); the temporary file is
    removed all the same. *)
Theorem empty_url_leaves_no_event :
  forall (env : Env) (u : Upload) (vals : list (string * json)) (w : World)
         (callback : nat -> Z),
    In (filename u) (tmpfiles w) ->
    upload_values u w = (Ok vals, w) ->
    storage_write env
      (trace w ++ [Log INFO "identity - %s";
                   Log INFO "tracking id [%s] payload_id [%s] attempting upload"])
      (filename u) QUARANTINE (payload_id u) = Ok (""%string, callback) ->
    exists w' : World,
      process_upload env u w = (Ok tt, w')
      /\ produce_queue w' = produce_queue w
      /\ ~ In (filename u) (tmpfiles w').
Proof.
  intros env u vals w callback Hin Hvals Hw.
  destruct (@process_upload_spec env u vals w Hin Hvals)
    as [w' [before [mid [after [Hrun [Hgone [_ [_ Hq]]]]]]]].
  exists w'. split; [exact Hrun|]. split; [|exact Hgone].
  rewrite Hq, Hw. simpl. destruct (completed _ callback); reflexivity.
Qed.

Lemma empty_url_leaves_no_event_witness :
  exists w' : World,
    process_upload
      (Scenario.env_with [] Scenario.send_ok Scenario.copy_ok Cases.write_empty_url)
      (Scenario.staged_upload JNull) Scenario.staged_world
    = (Ok tt, w')
    /\ produce_queue w' = []
    /\ ~ In "/tmp/tmpabc"%string (tmpfiles w').
Proof.
  exact (@empty_url_leaves_no_event
           (Scenario.env_with [] Scenario.send_ok Scenario.copy_ok
              Cases.write_empty_url)
           (Scenario.staged_upload JNull)
           [("rh_account"%string, DUMMY_rh_account);
            ("principal"%string, DUMMY_principal);
            ("validation"%string, JNum 1);
            ("payload_id"%string, JStr "abc123");
            ("hash"%string, JStr "abc123");
            ("size"%string, JNum 100);
            ("service"%string, JStr "demo")]
           Scenario.staged_world (fun _ => 100%Z)
           (or_introl eq_refl) eq_refl eq_refl).
Defined.

(** The dictionary [upload_values] builds, key by key. *)
Lemma upload_values_shape (u : Upload) (vals : list (string * json)) (w : World) :
  upload_values u w = (Ok vals, w) ->
  exists account principal : json,
    vals = [("rh_account"%string, account); ("principal"%string, principal);
            ("validation"%string, JNum 1);
            ("payload_id"%string, JStr (payload_id u));
            ("hash"%string, JStr (payload_id u));
            ("size"%string, JNum (size u));
            ("service"%string, JStr (service u))].
Proof.
  unfold upload_values. step_m.
  destruct (truthy (identity u)).
  - destruct (identity u) as [| | | | |kv]; try discriminate.
    destruct (dict_get "account_number" kv) as [a|]; [|discriminate].
    destruct (dict_get "org_id" kv) as [o|]; [|discriminate].
    intros H. injection H as <-. now exists a, o.
  - intros H. injection H as <-. now exists DUMMY_rh_account, DUMMY_principal.
Qed.

(** X18: the message of the event a staged upload puts on the queue has
    exactly the keys 'rh_account', 'principal', 'validation', 'payload_id',
    'hash', 'size', 'service' and 'url', in that order, with 'validation'
    1, 'size' the declared length and 'service' the service of the
    upload. *)
Theorem received_event_schema :
  forall (env : Env) (u : Upload) (vals0 : list (string * json)) (w : World)
         (url : string) (callback : nat -> Z),
    In (filename u) (tmpfiles w) ->
    upload_values u w = (Ok vals0, w) ->
    storage_write env
      (trace w ++ [Log INFO "identity - %s";
                   Log INFO "tracking id [%s] payload_id [%s] attempting upload"])
      (filename u) QUARANTINE (payload_id u) = Ok (url, callback) ->
    completed (STORAGE_UPLOAD_TIMEOUT env) callback = true ->
    url <> ""%string ->
    exists (w' : World) (account principal : json),
      process_upload env u w = (Ok tt, w')
      /\ produce_queue w'
         = Deque.append produce_queue_maxlen (produce_queue w)
             (mk_item ("platform.upload." ++ service u)
                (JObj [("rh_account"%string, account);
                       ("principal"%string, principal);
                       ("validation"%string, JNum 1);
                       ("payload_id"%string, JStr (payload_id u));
                       ("hash"%string, JStr (payload_id u));
                       ("size"%string, JNum (size u));
                       ("service"%string, JStr (service u));
                       ("url"%string, JStr url)])).
Proof.
  intros env u vals0 w url callback Hin Hvals Hw Hdone Hurl.
  destruct (@process_upload_spec env u vals0 w Hin Hvals)
    as [w' [before [mid [after [Hrun [_ [_ [_ Hq]]]]]]]].
  rewrite Hw in Hq. simpl in Hq. rewrite Hdone in Hq.
  apply String.eqb_neq in Hurl. rewrite Hurl in Hq. simpl in Hq.
  destruct (@upload_values_shape u vals0 w Hvals) as [a [o E]].
  exists w', a, o. split; [exact Hrun|]. rewrite Hq, E. reflexivity.
Qed.

Lemma received_event_schema_witness :
  exists (w' : World) (account principal : json),
    process_upload Scenario.env_ok
      (Scenario.staged_upload Scenario.caller_identity) Scenario.staged_world
    = (Ok tt, w')
    /\ produce_queue w' = [Scenario.received_event account principal].
Proof.
  apply (@received_event_schema Scenario.env_ok
           (Scenario.staged_upload Scenario.caller_identity)
           [("rh_account"%string, JStr "540155");
            ("principal"%string, JStr "1979710");
            ("validation"%string, JNum 1);
            ("payload_id"%string, JStr "abc123");
            ("hash"%string, JStr "abc123");
            ("size"%string, JNum 100);
            ("service"%string, JStr "demo")]
           Scenario.staged_world "http://quarantine/abc123"
           Scenario.done_at_fourth_poll
           (or_introl eq_refl) eq_refl eq_refl eq_refl).
  discriminate.
Defined.

(** ** The upload handler: what [post] accepts, and what it leaves alone *)

(** X19: [post] hands an upload on only when the request has an upload
    part, a request id, a Content-Length that [int] accepts and that is
    below [MAX_LENGTH], and a content type that matches [content_regex];
    the upload then carries that request id, that length, the third segment
    of the content type as service and the tracking id (or 'null'), and
    the answer is 202. *)
Theorem post_accepts_only_valid_uploads :
  forall (env : Env) (req : Request) (w : World) (resp : Response) (u : Upload),
    fst (post env req w) = Ok (resp, Some u) ->
    exists (f : HTTPFile) (rest : list HTTPFile) (cl : string),
      files_upload req = f :: rest
      /\ x_rh_insights_request_id req = Some (payload_id u)
      /\ Content_Length req = Some cl
      /\ py_int env cl = Some (size u)
      /\ (size u < MAX_LENGTH env)%Z
      /\ content_regex_search (content_type f) = true
      /\ split_content (content_type f) = Ok (service u)
      /\ tracking_id u
         = match Tracking_ID req with Some t => t | None => "null"%string end
      /\ resp = mk_response (202%Z, "Accepted"%string) [] "".
Proof.
  intros env req w resp u. unfold post, upload_validation. step_m.
  destruct (files_upload req) as [|f rest] eqn:Hf; simpl; [discriminate|].
  destruct (x_rh_insights_request_id req) as [pid|] eqn:Hid; simpl;
    [|discriminate].
  destruct (Content_Length req) as [cl|] eqn:Hcl; simpl; [|discriminate].
  destruct (py_int env cl) as [n|] eqn:Hn; simpl; [|discriminate].
  destruct (n >=? MAX_LENGTH env)%Z eqn:Hge; simpl; [discriminate|].
  destruct (content_regex_search (content_type f)) eqn:Hct; simpl;
    [|discriminate].
  destruct (split_content (content_type f)) as [svc|e] eqn:Hsvc; simpl;
    [|discriminate].
  assert (Hlt : (n < MAX_LENGTH env)%Z)
    by (rewrite Z.geb_leb in Hge; apply Z.leb_gt in Hge; lia).
  assert (Hdone : forall (name : string) (ident : json),
             Ok (mk_response (202%Z, "Accepted"%string) [] "",
                 Some (mk_upload name n
                         (match Tracking_ID req with
                          | Some t => t | None => "null"%string end)
                         pid ident svc))
             = Ok (resp, Some u) ->
             exists (f0 : HTTPFile) (rest0 : list HTTPFile) (cl0 : string),
               f :: rest = f0 :: rest0
               /\ Some pid = Some (payload_id u)
               /\ Some cl = Some cl0
               /\ py_int env cl0 = Some (size u)
               /\ (size u < MAX_LENGTH env)%Z
               /\ content_regex_search (content_type f0) = true
               /\ split_content (content_type f0) = Ok (service u)
               /\ tracking_id u
                  = match Tracking_ID req with
                    | Some t => t | None => "null"%string end
               /\ resp = mk_response (202%Z, "Accepted"%string) [] "").
  { intros name ident H. injection H as <- <-. simpl. exists f, rest, cl.
    repeat (split; [first [reflexivity|assumption]|]). reflexivity. }
  destruct (x_rh_identity req) as [h|]; simpl; [|apply Hdone].
  destruct (negb (h =? "")%string); simpl; [|apply Hdone].
  destruct (b64decode env h) as [raw|]; simpl; [|discriminate].
  destruct (json_loads env raw) as [header|]; simpl; [|discriminate].
  destruct header as [| | | | |kv]; simpl; try discriminate.
  destruct (dict_get "identity" kv) as [ident|]; simpl; [|discriminate].
  apply Hdone.
Qed.

Lemma post_accepts_only_valid_uploads_witness :
  exists (f : HTTPFile) (rest : list HTTPFile) (cl : string),
    files_upload (Scenario.upload_request "application/vnd.redhat.demo.testsvc+tgz")
    = f :: rest
    /\ Some "abc123"%string = Some "abc123"%string
    /\ Some "100"%string = Some cl
    /\ Scenario.int_of_decimal cl = Some 100%Z
    /\ (100 < 11010048)%Z
    /\ content_regex_search (content_type f) = true
    /\ split_content (content_type f) = Ok "demo"%string
    /\ "null"%string = "null"%string
    /\ mk_response (202%Z, "Accepted"%string) [] ""
       = mk_response (202%Z, "Accepted"%string) [] "".
Proof.
  exact (@post_accepts_only_valid_uploads Scenario.env_ok
           (Scenario.upload_request "application/vnd.redhat.demo.testsvc+tgz")
           initial_world
           (mk_response (202%Z, "Accepted"%string) [] "")
           (mk_upload "/tmp/tmpabc" 100 "null" "abc123" JNull "demo")
           eq_refl).
Defined.

(** X20: with an upload part and a request id, a request without a
    Content-Length header raises [KeyError] in [upload_validation], and one
    whose Content-Length [int] does not accept raises [ValueError]; in both
    cases nothing is logged, written or handed on. *)
Theorem post_needs_a_numeric_content_length :
  forall (env : Env) (req : Request) (f : HTTPFile) (rest : list HTTPFile)
         (pid : string) (w : World),
    files_upload req = f :: rest ->
    x_rh_insights_request_id req = Some pid ->
    (Content_Length req = None ->
     post env req w = (Raise (KeyError "Content-Length"), w))
    /\ (forall cl : string,
          Content_Length req = Some cl ->
          py_int env cl = None ->
          post env req w = (Raise ValueError, w)).
Proof.
  intros env req f rest pid w Hf Hid. split.
  - intros Hcl. unfold post, upload_validation. step_m.
    rewrite Hf, Hid, Hcl. reflexivity.
  - intros cl Hcl Hn. unfold post, upload_validation. step_m.
    rewrite Hf, Hid, Hcl. simpl. rewrite Hn. reflexivity.
Qed.

Lemma post_needs_a_numeric_content_length_witness :
  post Scenario.env_ok Cases.request_without_length initial_world
  = (Raise (KeyError "Content-Length"), initial_world)
  /\ post Scenario.env_ok Cases.request_bad_length initial_world
     = (Raise ValueError, initial_world).
Proof.
  split.
  - destruct (@post_needs_a_numeric_content_length Scenario.env_ok
                Cases.request_without_length
                (mk_file "application/vnd.redhat.demo.testsvc+tgz" "BODY") []
                "abc123" initial_world eq_refl eq_refl) as [H _].
    exact (H eq_refl).
  - destruct (@post_needs_a_numeric_content_length Scenario.env_ok
                Cases.request_bad_length
                (mk_file "application/vnd.redhat.demo.testsvc+tgz" "BODY") []
                "abc123" initial_world eq_refl eq_refl) as [_ H].
    exact (H "ten"%string eq_refl eq_refl).
Defined.

(** X22: [post] itself puts nothing on the queue and does not touch the
    connection flags, however it ends. *)
Theorem post_leaves_queue_and_flags :
  forall (env : Env) (req : Request) (w : World),
    produce_queue (snd (post env req w)) = produce_queue w
    /\ mqc_connected (snd (post env req w)) = mqc_connected w
    /\ mqp_connected (snd (post env req w)) = mqp_connected w.
Proof.
  intros env req w. unfold post, upload_validation. step_m.
  crush_cases; auto.
Qed.

Lemma upload_frame (env : Env) (name tracking payload : string) (w : World) :
  produce_queue (snd (upload env name tracking payload w)) = produce_queue w
  /\ mqc_connected (snd (upload env name tracking payload w)) = mqc_connected w
  /\ mqp_connected (snd (upload env name tracking payload w)) = mqp_connected w
  /\ (forall f : string,
        In f (tmpfiles (snd (upload env name tracking payload w))) ->
        In f (tmpfiles w)).
Proof.
  assert (Hsub : forall (fs : list string) (f : string),
             In f (filter (fun g => negb (String.eqb name g)) fs) -> In f fs)
    by (intros fs f H; apply filter_In in H; tauto).
  unfold upload. step_m.
  destruct (storage_write env _ name QUARANTINE payload) as [[url callback]|e];
    simpl.
  - match goal with
    | |- context [poll ?n 0 callback ?w0] =>
        destruct (poll_sleeps_bound callback n 0 w0) as [k [_ E]];
        destruct (poll n 0 callback w0) as [[b|e] w1]
    end; simpl in E; subst w1; simpl; crush_cases; auto 10.
  - crush_cases; auto 10.
Qed.

(** X23: however [process_upload] ends, it leaves the connection flags
    alone, creates no file, and changes the queue by at most one event,
    appended for the topic 'platform.upload.' followed by the service of
    the upload; so a buffer within its bound stays within it. *)
Theorem process_upload_appends_at_most_one_event :
  forall (env : Env) (u : Upload) (w : World),
    mqc_connected (snd (process_upload env u w)) = mqc_connected w
    /\ mqp_connected (snd (process_upload env u w)) = mqp_connected w
    /\ (forall f : string,
          In f (tmpfiles (snd (process_upload env u w))) -> In f (tmpfiles w))
    /\ (produce_queue (snd (process_upload env u w)) = produce_queue w
        \/ exists vals : list (string * json),
             produce_queue (snd (process_upload env u w))
             = Deque.append produce_queue_maxlen (produce_queue w)
                 (mk_item ("platform.upload." ++ service u) (JObj vals)))
    /\ (length (produce_queue w) <= produce_queue_maxlen ->
        length (produce_queue (snd (process_upload env u w)))
        <= produce_queue_maxlen).
Proof.
  intros env u w.
  set (kept := fun w' : World =>
         mqc_connected w' = mqc_connected w
         /\ mqp_connected w' = mqp_connected w
         /\ (forall f : string, In f (tmpfiles w') -> In f (tmpfiles w))
         /\ (produce_queue w' = produce_queue w
             \/ exists vals : list (string * json),
                  produce_queue w'
                  = Deque.append produce_queue_maxlen (produce_queue w)
                      (mk_item ("platform.upload." ++ service u) (JObj vals)))).
  assert (Hmain : kept (snd (process_upload env u w))).
  { unfold process_upload. unfold bind at 1. unfold log at 1, emit at 1.
    set (w1 := mk_world (produce_queue w) (mqc_connected w) (mqp_connected w)
                 (tmpfiles w) (trace w ++ [Log INFO "identity - %s"])).
    unfold bind at 1. rewrite (upload_values_any_world u w w1).
    destruct (fst (upload_values u w)) as [vals|e];
      [|unfold kept; simpl; auto 10].
    unfold bind at 1.
    destruct (upload_frame env (filename u) (tracking_id u) (payload_id u) w1)
      as [Q [C [P T]]].
    destruct (upload env (filename u) (tracking_id u) (payload_id u) w1)
      as [[[url|]|e] w2]; simpl in Q, C, P, T.
    - destruct (truthy (JStr url)); unfold kept; step_m.
      + split; [exact C|]. split; [exact P|]. split; [exact T|].
        right. rewrite Q. eexists. reflexivity.
      + auto 10.
    - unfold kept. simpl. auto 10.
    - unfold kept. simpl. auto 10. }
  destruct Hmain as [C [P [T Q]]].
  split; [exact C|]. split; [exact P|]. split; [exact T|]. split; [exact Q|].
  intros Hlen. destruct Q as [Q|[vals Q]]; rewrite Q; [exact Hlen|].
  now apply append_length.
Qed.

Lemma process_upload_appends_at_most_one_event_witness :
  length (produce_queue
            (snd (process_upload Scenario.env_ok (Scenario.staged_upload JNull)
                    (mk_world Scenario.full_queue false false
                       ["/tmp/tmpabc"%string] []))))
  <= produce_queue_maxlen.
Proof.
  destruct (@process_upload_appends_at_most_one_event Scenario.env_ok
              (Scenario.staged_upload JNull)
              (mk_world Scenario.full_queue false false ["/tmp/tmpabc"%string] []))
    as [_ [_ [_ [_ H]]]].
  apply H. vm_compute. lia.
Defined.

(** ** The content types [content_regex] accepts *)

Lemma list_ascii_of_string_app (a b : string) :
  list_ascii_of_string (a ++ b)%string
  = list_ascii_of_string a ++ list_ascii_of_string b.
Proof. induction a as [|c a IH]; simpl; [reflexivity|now rewrite IH]. Qed.

Lemma string_of_list_ascii_app (a b : list ascii) :
  string_of_list_ascii (a ++ b)
  = (string_of_list_ascii a ++ string_of_list_ascii b)%string.
Proof. induction a as [|c a IH]; simpl; [reflexivity|now rewrite IH]. Qed.

Lemma Lit_matches_itself (s : string) :
  Regex.Matches (Regex.Lit s) (list_ascii_of_string s).
Proof.
  induction s as [|c s IH]; simpl; [constructor|].
  exact (Regex.MCat (Regex.MChr c) IH).
Qed.

Lemma star_class_of_forallb (p : ascii -> bool) (l : list ascii) :
  forallb p l = true -> Regex.Matches (Regex.Star (Regex.Class p)) l.
Proof.
  induction l as [|c l IH]; simpl; intros H; [constructor|].
  apply andb_true_iff in H. destruct H as [Hc Hl].
  exact (Regex.MStarS (Regex.MClass p c Hc) (IH Hl)).
Qed.

Lemma service_word_matches (s : string) :
  service_word s = true ->
  Regex.Matches (Regex.Plus (Regex.Class service_char)) (list_ascii_of_string s).
Proof.
  unfold service_word. intros H. apply andb_true_iff in H. destruct H as [Hne Hall].
  destruct s as [|c s]; [discriminate|]. simpl in *.
  apply andb_true_iff in Hall. destruct Hall as [Hc Hs].
  exact (Regex.MCat (Regex.MClass service_char c Hc) (star_class_of_forallb _ _ Hs)).
Qed.

Lemma service_word_of_matches (l : list ascii) :
  Regex.Matches (Regex.Plus (Regex.Class service_char)) l ->
  service_word (string_of_list_ascii l) = true.
Proof.
  intros H. apply plus_class_matches in H. destruct H as [c [l' [-> Hall]]].
  unfold service_word. rewrite list_ascii_of_string_of_list_ascii, Hall.
  reflexivity.
Qed.

(** X24: [content_regex] accepts exactly the strings made of
    'application/vnd.redhat.', a word of [[a-z0-9-]], a dot, a second such
    word, '+', and 'tgz' or 'zip', optionally followed by one newline (the
    [$] of the pattern matches before a newline that ends the string). *)
Theorem content_regex_accepts_exactly :
  forall ct : string,
    content_regex_search ct = true
    <-> exists g1 g2 ext nl : string,
          ct = ("application/vnd.redhat." ++ g1 ++ "." ++ g2 ++ "+" ++ ext ++ nl)%string
          /\ service_word g1 = true
          /\ service_word g2 = true
          /\ (ext = "tgz"%string \/ ext = "zip"%string)
          /\ (nl = EmptyString \/ nl = String "010"%char EmptyString).
Proof.
  intros ct. unfold content_regex_search, Regex.search_anchored, content_regex.
  rewrite fullmatch_spec. split.
  - intros H.
    apply Matches_Cat_inv in H. destruct H as [u [nl [E [H Hnl]]]].
    apply Matches_Cat_inv in H. destruct H as [p [u1 [-> [Hp H]]]].
    apply Lit_matches in Hp. subst p.
    apply Matches_Cat_inv in H. destruct H as [g1 [u2 [-> [Hg1 H]]]].
    apply Matches_Cat_inv in H. destruct H as [d [u3 [-> [Hd H]]]].
    apply Matches_Chr_inv in Hd. subst d.
    apply Matches_Cat_inv in H. destruct H as [g2 [u4 [-> [Hg2 H]]]].
    apply Matches_Cat_inv in H. destruct H as [pl [ext [-> [Hpl Hext]]]].
    apply Matches_Chr_inv in Hpl. subst pl.
    exists (string_of_list_ascii g1), (string_of_list_ascii g2),
      (string_of_list_ascii ext), (string_of_list_ascii nl).
    split; [|split; [now apply service_word_of_matches
                    |split; [now apply service_word_of_matches|split]]].
    + rewrite <- (string_of_list_ascii_of_string ct).
      match goal with
      | |- _ = ?target =>
          rewrite <- (string_of_list_ascii_of_string target)
      end.
      f_equal. rewrite E. repeat rewrite list_ascii_of_string_app.
      repeat rewrite list_ascii_of_string_of_list_ascii.
      repeat rewrite <- app_assoc. reflexivity.
    + apply Matches_Alt_inv in Hext.
      destruct Hext as [Hext|Hext]; apply Lit_matches in Hext; subst ext;
        [left|right]; reflexivity.
    + apply Matches_Alt_inv in Hnl. destruct Hnl as [Hnl|Hnl].
      * apply Matches_Eps_inv in Hnl. subst nl. now left.
      * apply Matches_Chr_inv in Hnl. subst nl. now right.
  - intros [g1 [g2 [ext [nl [-> [Hg1 [Hg2 [Hext Hnl]]]]]]]].
    repeat rewrite list_ascii_of_string_app.
    repeat rewrite app_assoc.
    apply Regex.MCat.
    + repeat rewrite <- app_assoc.
      apply Regex.MCat; [apply Lit_matches_itself|].
      apply Regex.MCat; [now apply service_word_matches|].
      apply (Regex.MCat (Regex.MChr "."%char)).
      apply Regex.MCat; [now apply service_word_matches|].
      apply (Regex.MCat (Regex.MChr "+"%char)).
      destruct Hext as [->| ->];
        [apply Regex.MAltL|apply Regex.MAltR]; apply Lit_matches_itself.
    + destruct Hnl as [->| ->];
        [apply Regex.MAltL; constructor|apply Regex.MAltR; constructor].
Qed.

Lemma content_regex_accepts_exactly_witness :
  content_regex_search
    ("application/vnd.redhat." ++ "advisor" ++ "." ++ "test-1" ++ "+" ++ "zip"
     ++ String "010"%char EmptyString)%string = true.
Proof.
  apply (proj2 (content_regex_accepts_exactly _)).
  exists "advisor"%string, "test-1"%string, "zip"%string,
    (String "010"%char EmptyString).
  split; [reflexivity|]. split; [reflexivity|]. split; [reflexivity|].
  split; [now right|now right].
Defined.

Lemma accepted_split_explicit (ct : string) :
  content_regex_search ct = true ->
  exists g1 rest : list ascii,
    g1 <> []
    /\ forallb service_char g1 = true
    /\ split "." ct
       = "application/vnd"%string :: "redhat"%string
         :: string_of_list_ascii g1 :: split "." (string_of_list_ascii rest).
Proof.
  intros H. apply content_regex_shape in H.
  destruct H as [g1 [rest [Hne [Hcls E]]]].
  exists g1, rest. split; [exact Hne|]. split; [exact Hcls|].
  rewrite <- (string_of_list_ascii_of_string ct), E.
  change (list_ascii_of_string "application/vnd.redhat.")
    with (list_ascii_of_string "application/vnd"
          ++ "."%char :: list_ascii_of_string "redhat" ++ "."%char :: []).
  rewrite <- app_assoc, <- app_comm_cons.
  rewrite split_segment by reflexivity.
  rewrite <- app_assoc, <- app_comm_cons, app_nil_l.
  rewrite split_segment by reflexivity.
  rewrite split_segment by now apply service_chars_no_dot.
  reflexivity.
Qed.

(** X25: the service name [split_content] takes from an accepted content
    type is the first word after 'application/vnd.redhat.': it is not
    empty and holds only characters of [[a-z0-9-]], so the topic
    'platform.upload.<service>' has no dot, space or upper case letter in
    its last part. *)
Theorem service_name_is_a_service_word :
  forall ct : string,
    content_regex_search ct = true ->
    exists svc : string,
      split_content ct = Ok svc /\ service_word svc = true.
Proof.
  intros ct H. apply accepted_split_explicit in H.
  destruct H as [g1 [rest [Hne [Hcls E]]]].
  exists (string_of_list_ascii g1). split.
  - unfold split_content. rewrite E. reflexivity.
  - unfold service_word. rewrite list_ascii_of_string_of_list_ascii, Hcls.
    destruct g1; [now elim Hne|reflexivity].
Qed.

Lemma service_name_is_a_service_word_witness :
  exists svc : string,
    split_content "application/vnd.redhat.demo.testsvc+tgz" = Ok svc
    /\ service_word svc = true.
Proof.
  apply (@service_name_is_a_service_word "application/vnd.redhat.demo.testsvc+tgz").
  vm_compute. reflexivity.
Defined.

Lemma split_length (c : ascii) (s : string) :
  length (split c s) = S (count_char c s).
Proof.
  induction s as [|a s IH]; [reflexivity|].
  simpl. destruct (Ascii.eqb a c); simpl.
  - now rewrite IH.
  - destruct (split c s) as [|h t]; [discriminate|]. simpl in *. exact IH.
Qed.

(** X26: [split_content] raises [IndexError] exactly on the strings with
    fewer than two dots, and returns a segment on all others. *)
Theorem split_content_needs_two_dots :
  forall content : string,
    (count_char "." content < 2 -> split_content content = Raise IndexError)
    /\ (2 <= count_char "." content ->
        exists svc : string, split_content content = Ok svc).
Proof.
  intros content. unfold split_content. split; intros H.
  - destruct (nth_error (split "." content) 2) as [svc|] eqn:E; [|reflexivity].
    assert (Hlt : 2 < length (split "." content))
      by (apply nth_error_Some; congruence).
    rewrite split_length in Hlt. lia.
  - destruct (nth_error (split "." content) 2) as [svc|] eqn:E; [now exists svc|].
    apply nth_error_None in E. rewrite split_length in E. lia.
Qed.

Lemma split_content_needs_two_dots_witness :
  split_content "application/zip" = Raise IndexError
  /\ exists svc : string, split_content "a.b.c.d" = Ok svc.
Proof.
  split.
  - apply (proj1 (split_content_needs_two_dots "application/zip")).
    vm_compute. lia.
  - apply (proj2 (split_content_needs_two_dots "a.b.c.d")).
    vm_compute. lia.
Defined.

(** ** The status handler *)

(** X27: [StatusHandler.get] changes nothing; its answer has the six keys
    'upload_service', 'message_queue_producer', 'message_queue_consumer',
    'long_term_storage', 'quarantine_storage' and 'rejected_storage', in
    that order; 'upload_service' is always 'up', every storage tier is 'up'
    exactly when its check succeeds, and producer and consumer are 'up'
    exactly when the flags the two loops keep say so. *)
Theorem status_reports_flags_and_tiers :
  forall (up_check : tier -> bool) (w : World),
    let up_or_down := fun b : bool => JStr (if b then "up" else "down") in
    status_get up_check w
    = (Ok (JObj [("upload_service"%string, JStr "up");
                 ("message_queue_producer"%string, up_or_down (mqp_connected w));
                 ("message_queue_consumer"%string, up_or_down (mqc_connected w));
                 ("long_term_storage"%string, up_or_down (up_check PERM));
                 ("quarantine_storage"%string, up_or_down (up_check QUARANTINE));
                 ("rejected_storage"%string, up_or_down (up_check REJECT))]),
       w).
Proof.
  intros up_check w. unfold status_get.
  destruct (up_check PERM), (up_check QUARANTINE), (up_check REJECT),
    (mqp_connected w), (mqc_connected w); reflexivity.
Qed.

(** X28: the health endpoint follows the producer loop: during a broker
    outage, after any number of passes, it reports the producer 'down';
    after one pass against a broker that accepts the connection and the
    sends, it reports the producer 'up'. *)
Theorem status_follows_the_producer :
  forall (env : Env) (up_check : tier -> bool) (fuel : nat) (w : World),
    ((forall tr, mqp_start env tr = Some KafkaError) ->
     exists kv : list (string * json),
       fst (status_get up_check (snd (producer env fuel w))) = Ok (JObj kv)
       /\ dict_get "message_queue_producer" kv = Some (JStr "down"))
    /\ ((forall tr, mqp_start env tr = None) ->
        (forall tr t p, mqp_send_and_wait env tr t p = None) ->
        exists kv : list (string * json),
          fst (status_get up_check (snd (producer env 1 w))) = Ok (JObj kv)
          /\ dict_get "message_queue_producer" kv = Some (JStr "up")).
Proof.
  intros env up_check fuel w.
  assert (Hstatus : forall w0 : World,
             exists kv : list (string * json),
               fst (status_get up_check w0) = Ok (JObj kv)
               /\ dict_get "message_queue_producer" kv
                  = Some (JStr (if mqp_connected w0 then "up" else "down"))).
  { intros w0. unfold status_get.
    destruct (up_check PERM), (up_check QUARANTINE), (up_check REJECT),
      (mqp_connected w0), (mqc_connected w0);
      eexists; split; reflexivity. }
  split.
  - intros Hstart.
    destruct (@while_true_producer_refused env Hstart fuel
                (mk_world (produce_queue w) (mqc_connected w) false (tmpfiles w)
                          (trace w)) eq_refl) as [w' [H [_ [C _]]]].
    assert (E : snd (producer env fuel w) = w').
    { change (producer env fuel w)
        with (while_true fuel (producer_iteration env)
                (mk_world (produce_queue w) (mqc_connected w) false (tmpfiles w)
                          (trace w))).
      rewrite H. reflexivity. }
    rewrite E. destruct (Hstatus w') as [kv [H1 H2]]. rewrite C in H2.
    now exists kv.
  - intros Hstart Hsend.
    destruct (@producer_iteration_connects env Hstart Hsend
                (mk_world (produce_queue w) (mqc_connected w) false (tmpfiles w)
                          (trace w))) as [w' [H C]].
    assert (E : snd (producer env 1 w) = w').
    { unfold producer. unfold bind at 1. simpl. unfold bind. rewrite H.
      reflexivity. }
    rewrite E. destruct (Hstatus w') as [kv [H1 H2]]. rewrite C in H2.
    now exists kv.
Qed.

Lemma status_follows_the_producer_witness :
  (exists kv : list (string * json),
     fst (status_get (fun _ => true)
            (snd (producer Cases.env_broker_down 2
                    (mk_world Scenario.three_events false true [] []))))
     = Ok (JObj kv)
     /\ dict_get "message_queue_producer" kv = Some (JStr "down"))
  /\ (exists kv : list (string * json),
        fst (status_get (fun _ => true)
               (snd (producer Scenario.env_ok 1
                       (mk_world Scenario.three_events false false [] []))))
        = Ok (JObj kv)
        /\ dict_get "message_queue_producer" kv = Some (JStr "up")).
Proof.
  split.
  - destruct (@status_follows_the_producer Cases.env_broker_down (fun _ => true) 2
                (mk_world Scenario.three_events false true [] [])) as [H _].
    exact (H (fun _ => eq_refl)).
  - destruct (@status_follows_the_producer Scenario.env_ok (fun _ => true) 1
                (mk_world Scenario.three_events false false [] [])) as [_ H].
    exact (H (fun _ => eq_refl) (fun _ _ _ => eq_refl)).
Defined.

(** ** From the handlers to the broker *)

Lemma last_of_append (q : list item) (it d : item) :
  last (Deque.append produce_queue_maxlen q it) d = it.
Proof.
  unfold Deque.append.
  destruct (Nat.ltb_spec produce_queue_maxlen (length (q ++ [it]))) as [Hlt|Hge].
  - destruct q as [|a q]; [simpl in Hlt; unfold produce_queue_maxlen in Hlt; lia|].
    simpl. apply last_last.
  - apply last_last.
Qed.

Lemma last_app_nonempty {A : Type} (l l' : list A) (d : A) :
  l' <> [] -> last (l ++ l') d = last l' d.
Proof.
  intros Hne. induction l as [|a l IH]; [reflexivity|].
  simpl. destruct (l ++ l') eqn:E; [|exact IH].
  apply app_eq_nil in E. destruct E as [_ E]. now elim Hne.
Qed.

Lemma append_not_nil (q : list item) (it : item) :
  Deque.append produce_queue_maxlen q it <> [].
Proof.
  intros E. pose proof (last_of_append q it (mk_item "" JNull)) as H.
  pose proof (last_of_append q it (mk_item "x" JNull)) as H'.
  rewrite E in H, H'. simpl in H, H'. congruence.
Qed.

(** One pass of the producer against a broker that accepts everything, with
    nothing arriving during the sends: the last acknowledged event is the
    last one that waited. *)
Lemma healthy_pass_sends_the_newest (env : Env) (w : World) (it d : item) (q : list item) :
  (forall tr, mqp_start env tr = None) ->
  (forall tr t p, mqp_send_and_wait env tr t p = None) ->
  (forall tr, arrivals env tr = []) ->
  produce_queue w = Deque.append produce_queue_maxlen q it ->
  exists w' : World,
    producer env 1 w = (Ok tt, w')
    /\ produce_queue w' = []
    /\ last (acked (trace w')) d = it.
Proof.
  intros Hstart Hsend Halone Hq.
  destruct (@producer_iteration_healthy env Hstart Hsend Halone
              (mk_world (produce_queue w) (mqc_connected w) false (tmpfiles w)
                        (trace w))) as [w' [H [Q [K _]]]].
  exists w'. split; [|split; [exact Q|]].
  - unfold producer. unfold bind at 1. simpl. unfold bind. rewrite H. reflexivity.
  - rewrite K. simpl. rewrite Hq.
    rewrite last_app_nonempty by apply append_not_nil. apply last_of_append.
Qed.

(** X29: an accepted upload is announced.  For a request that passes the
    checks of [post] (here without an identity header) and whose storage
    write returns a url and completes within the polls, the answer is 202,
    and one pass of the producer against a broker that accepts the
    connection and the sends, during which no other task appends to the
    buffer, empties the buffer, the last event acknowledged being the one
    for 'platform.upload.' followed by the service of the content type,
    with the request id as 'payload_id' and 'hash'. *)
Theorem accepted_upload_is_announced :
  forall (env : Env) (req : Request) (f : HTTPFile) (rest : list HTTPFile)
         (pid cl url : string) (n : Z) (callback : nat -> Z) (w : World),
    files_upload req = f :: rest ->
    x_rh_insights_request_id req = Some pid ->
    Content_Length req = Some cl ->
    py_int env cl = Some n ->
    (n < MAX_LENGTH env)%Z ->
    content_regex_search (content_type f) = true ->
    x_rh_identity req = None ->
    storage_write env
      (trace w ++ [TmpFile (tmp_name env (trace w)) (body f);
                   Log INFO "identity - %s";
                   Log INFO "tracking id [%s] payload_id [%s] attempting upload"])
      (tmp_name env (trace w)) QUARANTINE pid = Ok (url, callback) ->
    completed (STORAGE_UPLOAD_TIMEOUT env) callback = true ->
    url <> ""%string ->
    (forall tr, mqp_start env tr = None) ->
    (forall tr t p, mqp_send_and_wait env tr t p = None) ->
    (forall tr, arrivals env tr = []) ->
    exists (svc : string) (w1 w2 : World),
      split_content (content_type f) = Ok svc
      /\ serve env req w = (Ok (mk_response (202%Z, "Accepted"%string) [] ""), w1)
      /\ producer env 1 w1 = (Ok tt, w2)
      /\ produce_queue w2 = []
      /\ last (acked (trace w2)) (mk_item "" JNull)
         = mk_item ("platform.upload." ++ svc)
             (JObj [("rh_account"%string, DUMMY_rh_account);
                    ("principal"%string, DUMMY_principal);
                    ("validation"%string, JNum 1);
                    ("payload_id"%string, JStr pid);
                    ("hash"%string, JStr pid);
                    ("size"%string, JNum n);
                    ("service"%string, JStr svc);
                    ("url"%string, JStr url)]).
Proof.
  intros env req f rest pid cl url n callback w
         Hf Hid Hcl Hn Hlt Hct Hident Hw Hdone Hurl Hstart Hsend Halone.
  destruct (accepted_content_type_split _ Hct) as [svc [segments [_ [E _]]]].
  assert (Hsvc : split_content (content_type f) = Ok svc)
    by (unfold split_content; rewrite E; reflexivity).
  pose proof (@post_accepts env req f rest pid cl svc n w
                Hf Hid Hcl Hn Hlt Hct Hsvc Hident) as Hpost.
  set (name := tmp_name env (trace w)) in *.
  set (u := mk_upload name n
              (match Tracking_ID req with Some t => t | None => "null"%string end)
              pid JNull svc) in *.
  set (w0 := mk_world (produce_queue w) (mqc_connected w) (mqp_connected w)
               (name :: tmpfiles w) (trace w ++ [TmpFile name (body f)])) in *.
  assert (Hin : In (filename u) (tmpfiles w0)) by (left; reflexivity).
  assert (Hvals : upload_values u w0
                  = (Ok [("rh_account"%string, DUMMY_rh_account);
                         ("principal"%string, DUMMY_principal);
                         ("validation"%string, JNum 1);
                         ("payload_id"%string, JStr pid);
                         ("hash"%string, JStr pid);
                         ("size"%string, JNum n);
                         ("service"%string, JStr svc)], w0)) by reflexivity.
  destruct (@process_upload_spec env u _ w0 Hin Hvals)
    as [w1 [before [mid [after [Hrun [_ [_ [_ Hq]]]]]]]].
  assert (Etr : trace w0 ++ [Log INFO "identity - %s";
                   Log INFO "tracking id [%s] payload_id [%s] attempting upload"]
                = trace w ++ [TmpFile name (body f); Log INFO "identity - %s";
                   Log INFO "tracking id [%s] payload_id [%s] attempting upload"])
    by (unfold w0; simpl; now rewrite <- app_assoc).
  rewrite Etr in Hq. unfold u at 1 2 in Hq. simpl filename in Hq.
  simpl payload_id in Hq. rewrite Hw in Hq. simpl in Hq. rewrite Hdone in Hq.
  apply String.eqb_neq in Hurl. rewrite Hurl in Hq. simpl in Hq.
  destruct (@healthy_pass_sends_the_newest env w1 _ (mk_item "" JNull) _
              Hstart Hsend Halone Hq) as [w2 [Hp [Hempty Hlast]]].
  exists svc, w1, w2. split; [exact Hsvc|]. split.
  - unfold serve. unfold bind at 1. rewrite Hpost. simpl snd. simpl fst.
    unfold bind at 1. unfold try_except. rewrite Hrun. reflexivity.
  - split; [exact Hp|]. split; [exact Hempty|exact Hlast].
Qed.

Lemma accepted_upload_is_announced_witness :
  exists (svc : string) (w1 w2 : World),
    split_content "application/vnd.redhat.demo.testsvc+tgz" = Ok svc
    /\ serve Scenario.env_ok
             (Scenario.upload_request "application/vnd.redhat.demo.testsvc+tgz")
             initial_world
       = (Ok (mk_response (202%Z, "Accepted"%string) [] ""), w1)
    /\ producer Scenario.env_ok 1 w1 = (Ok tt, w2)
    /\ produce_queue w2 = []
    /\ last (acked (trace w2)) (mk_item "" JNull)
       = mk_item ("platform.upload." ++ svc)
           (JObj [("rh_account"%string, DUMMY_rh_account);
                  ("principal"%string, DUMMY_principal);
                  ("validation"%string, JNum 1);
                  ("payload_id"%string, JStr "abc123");
                  ("hash"%string, JStr "abc123");
                  ("size"%string, JNum 100);
                  ("service"%string, JStr svc);
                  ("url"%string, JStr "http://quarantine/abc123")]).
Proof.
  apply (@accepted_upload_is_announced Scenario.env_ok
           (Scenario.upload_request "application/vnd.redhat.demo.testsvc+tgz")
           (mk_file "application/vnd.redhat.demo.testsvc+tgz" "BODY") []
           "abc123" "100" "http://quarantine/abc123" 100%Z
           Scenario.done_at_fourth_poll initial_world);
    try reflexivity; try discriminate.
Defined.

(** X30: a promoted payload is announced.  For a 'success' verdict whose
    copy returns a url, [handle_file] ends normally, and one pass of the
    producer against a broker that accepts the connection and the sends,
    during which no other task appends to the buffer, empties the buffer,
    the last event acknowledged being the one for
    'platform.upload.available' with that url and the payload id. *)
Theorem success_verdict_is_announced :
  forall (env : Env) (m : KafkaMsg) (kv : list (string * json)) (pid : json)
         (res url : string) (w : World),
    json_loads env (value m) = Some (JObj kv) ->
    (dict_get "payload_id" kv = Some pid
     \/ (dict_get "payload_id" kv = None /\ dict_get "hash" kv = Some pid)) ->
    dict_get "validation" kv = Some (JStr res) ->
    lower res = "success"%string ->
    storage_copy env (trace w ++ [Log INFO "processing message: %s - %s"])
      QUARANTINE PERM pid = Ok url ->
    (forall tr, mqp_start env tr = None) ->
    (forall tr t p, mqp_send_and_wait env tr t p = None) ->
    (forall tr, arrivals env tr = []) ->
    exists w1 w2 : World,
      handle_file env [m] w = (Ok tt, w1)
      /\ producer env 1 w1 = (Ok tt, w2)
      /\ produce_queue w2 = []
      /\ last (acked (trace w2)) (mk_item "" JNull)
         = mk_item "platform.upload.available"
             (JObj [("url"%string, JStr url); ("payload_id"%string, pid)]).
Proof.
  intros env m kv pid res url w Hj Hid Hv Hs Hc Hstart Hsend Halone.
  assert (Hmsg : exists w1 : World,
             handle_msg env m w = (Ok Continue, w1)
             /\ produce_queue w1
                = Deque.append produce_queue_maxlen (produce_queue w)
                    (mk_item "platform.upload.available"
                       (JObj [("url"%string, JStr url);
                              ("payload_id"%string, pid)]))).
  { verdict_steps Hj Hid Hv; rewrite Hs; simpl; rewrite Hc; simpl;
      eexists; split; reflexivity. }
  destruct Hmsg as [w1 [Hm Hq]].
  destruct (@healthy_pass_sends_the_newest env w1 _ (mk_item "" JNull) _
              Hstart Hsend Halone Hq) as [w2 [Hp [Hempty Hlast]]].
  exists w1, w2. split; [|split; [exact Hp|split; [exact Hempty|exact Hlast]]].
  simpl. unfold bind. rewrite Hm. reflexivity.
Qed.

Lemma success_verdict_is_announced_witness :
  exists w1 w2 : World,
    handle_file Scenario.env_ok [mk_msg "verdict-success"] initial_world
    = (Ok tt, w1)
    /\ producer Scenario.env_ok 1 w1 = (Ok tt, w2)
    /\ produce_queue w2 = []
    /\ last (acked (trace w2)) (mk_item "" JNull)
       = mk_item "platform.upload.available"
           (JObj [("url"%string, JStr "http://perm/abc123");
                  ("payload_id"%string, JStr "abc123")]).
Proof.
  exact (@success_verdict_is_announced Scenario.env_ok (mk_msg "verdict-success")
           [("payload_id"%string, JStr "abc123");
            ("validation"%string, JStr "success")]
           (JStr "abc123") "success" "http://perm/abc123" initial_world
           eq_refl (or_introl eq_refl) eq_refl eq_refl eq_refl
           (fun _ => eq_refl) (fun _ _ _ => eq_refl) (fun _ => eq_refl)).
Defined.

(** ** What arrives while a send is awaited *)

Lemma arrived_one (env : Env) (tr : list event) (q : list item) (a : item) :
  arrivals env tr = [a] ->
  arrived env tr q = Deque.append produce_queue_maxlen q a.
Proof. intros H. unfold arrived. rewrite H. reflexivity. Qed.

(** X31: an event that another task appends while the producer awaits a
    send is not part of the round.  When the send is acknowledged the
    arrival waits at the back of the buffer.  When the send raises
    [KafkaError] the popped event is put back in front of it; and if the
    buffer was full when the event was popped, the re-insert overflows and
    the buffer discards the arrival, which is neither sent nor kept. *)
Theorem arrival_during_a_send :
  forall (env : Env) (w : World) (it a : item) (q : list item),
    produce_queue w = it :: q ->
    let popped := Log INFO "Popped item from produce queue (qsize: %d): topic %s: %s" in
    let answer := mqp_send_and_wait env (trace w ++ [popped]) (topic it) (msg it) in
    arrivals env (trace w ++ [popped]) = [a] ->
    (answer = None ->
     length q < produce_queue_maxlen ->
     produce_one env w
     = (Ok tt,
        mk_world (q ++ [a]) (mqc_connected w) (mqp_connected w) (tmpfiles w)
          (trace w ++ [popped; MqpSend (topic it) (msg it) None;
                       Log INFO "Produced on topic %s: %s"])))
    /\ (answer = Some KafkaError ->
        length (it :: q) < produce_queue_maxlen ->
        produce_one env w
        = (Ok tt,
           mk_world (it :: q ++ [a]) (mqc_connected w) false (tmpfiles w)
             (trace w ++ [popped; MqpSend (topic it) (msg it) (Some KafkaError);
                          Log ERROR "Producer client hit error, triggering re-connect..."])))
    /\ (answer = Some KafkaError ->
        length (it :: q) = produce_queue_maxlen ->
        produce_one env w
        = (Ok tt,
           mk_world (it :: q) (mqc_connected w) false (tmpfiles w)
             (trace w ++ [popped; MqpSend (topic it) (msg it) (Some KafkaError);
                          Log ERROR "Producer client hit error, triggering re-connect..."]))).
Proof.
  intros env w it a q Hq popped answer Ha. subst popped answer.
  split; [|split].
  - intros Hs Hlen. rewrite (@produce_one_sent env it q w Hq Hs).
    rewrite (@arrived_one env _ q a Ha).
    rewrite (@append_not_full item produce_queue_maxlen q a Hlen). reflexivity.
  - intros Hs Hlen. simpl in Hlen.
    rewrite (@produce_one_on_error env it q w Hq Hs).
    rewrite (@arrived_one env _ q a Ha).
    rewrite (@append_not_full item produce_queue_maxlen q a) by lia.
    rewrite (@appendleft_not_full item produce_queue_maxlen (q ++ [a]) it)
      by (rewrite length_app; simpl; lia).
    reflexivity.
  - intros Hs Hlen. simpl in Hlen.
    rewrite (@produce_one_on_error env it q w Hq Hs).
    rewrite (@arrived_one env _ q a Ha).
    rewrite (@append_not_full item produce_queue_maxlen q a) by lia.
    rewrite (@appendleft_full item produce_queue_maxlen (q ++ [a]) it
               produce_queue_maxlen_pos)
      by (rewrite length_app; simpl; lia).
    rewrite removelast_last. reflexivity.
Qed.

Lemma arrival_during_a_send_witness :
  produce_one Cases.env_arrival_during_outage
    (mk_world Scenario.full_queue false true [] [])
  = (Ok tt,
     mk_world (Scenario.numbered 0 :: tl Scenario.full_queue) false false []
       [Log INFO "Popped item from produce queue (qsize: %d): topic %s: %s";
        MqpSend (topic (Scenario.numbered 0)) (msg (Scenario.numbered 0))
                (Some KafkaError);
        Log ERROR "Producer client hit error, triggering re-connect..."]).
Proof.
  destruct (@arrival_during_a_send Cases.env_arrival_during_outage
              (mk_world Scenario.full_queue false true [] [])
              (Scenario.numbered 0) (Scenario.numbered 999)
              (tl Scenario.full_queue) eq_refl eq_refl) as [_ [_ H]].
  apply H; reflexivity.
Defined.
